(** * ArcWelder: the arc welder controller (arc_welder.cpp)

    A shallow embedding of [arc_welder::process], [process_gcode],
    [write_arc_gcodes], [get_comment_for_arc], [get_progress_] and the small
    functions around them, followed by the properties of the controller.

    The controller drives four collaborators whose code lives in the gcode
    processor library: the arc engine ([segmented_arc]), the position tracker
    ([gcode_position]), the statistics histogram and the parser.  They appear
    here as interfaces (type classes); every theorem holds for every
    implementation of them.  Calls to the logger have no effect on the state
    of the controller and are left out.

    Conventions:
    - [int] and [long] are [Z].  The counters of the controller are [int]s
      that only ever grow by [++] and [+=]: their new value is written with
      [int_add], the 32-bit two's complement wrap-around the compiled code
      produces.
    - [double] is a binary64 float ([PrimFloat.float]); the two single
      precision divisions of [get_progress_] are computed with [SpecFloat] at
      precision 24.
    - A C++ exception leaving a function, a read outside a container and an
      exhausted recursion budget are the three ways a computation can [Fail]. *)

From Stdlib Require Import ZArith List String Ascii Bool Lia Floats.
From Stdlib Require Import RelationClasses.
Import ListNotations.

Local Open Scope string_scope.
Local Open Scope Z_scope.

(** ** Numbers *)

Definition double : Set := PrimFloat.float.

(** [static_cast<double>(n)] for an integer [n]: round to nearest even. *)
Definition double_of_Z (n : Z) : double :=
  SF2Prim (binary_normalize prec emax n 0 false).

Definition dzero : double := double_of_Z 0.

Arguments double_of_Z : simpl never.

(** Single precision values, kept as [spec_float] in the binary32 format. *)
Definition float32 : Set := spec_float.
Definition float32_of_Z (n : Z) : float32 := binary_normalize 24 128 n 0 false.
Definition float32_div (a b : float32) : float32 := SFdiv 24 128 a b.
(** Widening a binary32 value to [double] is exact. *)
Definition double_of_float32 (a : float32) : double := SF2Prim a.

Definition newline : string := String (ascii_of_nat 10) EmptyString.

(** The value an [int] holds after an operation whose exact result is [z]. *)
Definition int_wrap (z : Z) : Z := (z + 2 ^ 31) mod 2 ^ 32 - 2 ^ 31.

Definition int_add (a b : Z) : Z := int_wrap (a + b).
Definition int_sub (a b : Z) : Z := int_wrap (a - b).

(** ** Results of computations *)

Inductive failure : Set :=
| exception_thrown      (* a C++ exception escapes *)
| out_of_range          (* a container is read outside its bounds *)
| out_of_fuel.          (* the recursion budget of the model is exhausted *)

Inductive res (A : Type) : Type :=
| Ok (a : A)
| Fail (f : failure).
Arguments Ok {A} a.
Arguments Fail {A} f.

(** State and failure: a computation over a state [S]. *)
Definition M (S A : Type) : Type := S -> res (A * S).

Definition ret {S A} (a : A) : M S A := fun s => Ok (a, s).
Definition bind {S A B} (c : M S A) (k : A -> M S B) : M S B :=
  fun s => match c s with
           | Ok (a, s') => k a s'
           | Fail f => Fail f
           end.
Definition gets {S A} (f : S -> A) : M S A := fun s => Ok (f s, s).
Definition modify {S} (f : S -> S) : M S unit := fun s => Ok (tt, f s).
Definition throw {S A} (f : failure) : M S A := fun _ => Fail f.
Definition when {S} (b : bool) (c : M S unit) : M S unit :=
  if b then c else ret tt.

Declare Scope welder_scope.
Delimit Scope welder_scope with welder.
Notation "x <- c ;; k" := (bind c (fun x => k))
  (at level 61, c at next level, right associativity) : welder_scope.
Notation "c ;; k" := (bind c (fun _ => k))
  (at level 61, right associativity) : welder_scope.
Local Open Scope welder_scope.

(** ** Data of the gcode processor library read by the controller *)

(** [parsed_command_parameter]: the controller reads the name and the number
    of decimals seen in the text ([double_precision], an unsigned char). *)
Record parsed_command_parameter : Set := {
  name : string;
  double_precision : Z
}.

Record parsed_command : Set := {
  command : string;
  gcode : string;
  comment : string;
  is_empty : bool;
  is_known_command : bool;
  parameters : list parsed_command_parameter
}.

Record extruder : Set := {
  is_extruding : bool;
  is_retracting : bool;
  e_relative : double;
  get_offset_e : double
}.

(** [position]: the members and getters [process_gcode] reads. *)
Record position : Set := {
  x : double; y : double; z : double;
  x_offset : double; y_offset : double; z_offset : double;
  x_firmware_offset : double; y_firmware_offset : double;
  z_firmware_offset : double;
  is_relative : bool;
  is_extruder_relative : bool;
  f : double;
  feature_type_tag : Z;
  has_xy_position_changed : bool;
  get_gcode_x : double; get_gcode_y : double; get_gcode_z : double;
  get_current_extruder : extruder
}.

Record printer_point : Set := {
  point_x : double; point_y : double; point_z : double;
  point_e_relative : double;
  point_distance : double
}.

(** Modelled from the spec: the struct [unwritten_command] is declared
    outside this file.  Section 3 gives it the text of the original line, its
    comment and a cached extrusion length; the controller reads [comment],
    [extrusion_length] and [to_string()]. *)
Record unwritten_command : Set := {
  to_string : string;
  uc_comment : string;
  extrusion_length : double
}.

(** ** Interfaces of the collaborators *)

(** The arc engine, [segmented_arc]. *)
Class SegmentedArc (arc : Type) : Type := {
  try_add_point : printer_point -> arc -> bool * arc;
  is_shape : arc -> bool;
  get_num_segments : arc -> Z;
  get_min_segments : arc -> Z;
  arc_clear : arc -> arc;
  get_shape_length : arc -> double;
  get_shape_gcode_relative : double -> arc -> string;
  get_shape_gcode_absolute : double -> double -> arc -> string;
  update_xyz_precision : Z -> arc -> arc;
  update_e_precision : Z -> arc -> arc;
  get_num_firmware_compensations : arc -> Z;
  get_path_tolerance_percent : arc -> double;
  get_max_radius : arc -> double;
  get_min_arc_segments : arc -> Z;
  get_mm_per_arc_segment : arc -> double;
  get_xyz_precision : arc -> Z;
  get_e_precision : arc -> Z
}.

(** The position tracker, [gcode_position].  [make_unwritten_command g l] is
    [unwritten_command(g.get_current_position_ptr(), l)]: the constructor
    reads the line from the current position of the tracker. *)
Class GcodePosition (gp : Type) : Type := {
  update : parsed_command -> Z -> Z -> Z -> gp -> gp;
  undo_update : gp -> gp;
  get_current_position : gp -> position;
  get_previous_position : gp -> position;
  make_unwritten_command : gp -> double -> unwritten_command
}.

(** The histogram [source_target_segment_statistics]. *)
Class SegmentStatistics (stats : Type) : Type := {
  stats_update : double -> bool -> stats -> stats
}.

(** [utilities::], the parser, and what the C++ runtime supplies: the clock
    rate and the text of a number written with [std::fixed] and a precision. *)
Class Platform : Type := {
  is_equal : double -> double -> bool;
  get_cartesian_distance : double -> double -> double -> double -> double;
  get_cartesian_distance_3d :
    double -> double -> double -> double -> double -> double -> double;
  (* the command left in a cleared [cmd] by [try_parse_gcode(line, cmd, true)] *)
  try_parse_gcode : string -> parsed_command;
  (* a default constructed [parsed_command] *)
  empty_command : parsed_command;
  CLOCKS_PER_SEC : Z;
  fixed : Z -> double -> string;
  decimal : Z -> string
}.

(** ** The progress report and the result of a run *)

Record arc_welder_progress (stats : Type) : Type := {
  percent_complete : double;
  seconds_elapsed : double;
  seconds_remaining : double;
  gcodes_processed : Z;
  lines_processed : Z;
  points_compressed : Z;
  arcs_created : Z;
  source_file_position : Z;
  source_file_size : Z;
  target_file_size : Z;
  compression_ratio : double;
  compression_percent : double;
  num_firmware_compensations : Z;
  segment_statistics : stats
}.
Arguments percent_complete {stats} _.
Arguments seconds_elapsed {stats} _.
Arguments seconds_remaining {stats} _.
Arguments gcodes_processed {stats} _.
Arguments lines_processed {stats} _.
Arguments points_compressed {stats} _.
Arguments arcs_created {stats} _.
Arguments source_file_position {stats} _.
Arguments source_file_size {stats} _.
Arguments target_file_size {stats} _.
Arguments compression_ratio {stats} _.
Arguments compression_percent {stats} _.
Arguments num_firmware_compensations {stats} _.
Arguments segment_statistics {stats} _.

Record arc_welder_results (stats : Type) : Type := {
  success : bool;
  cancelled : bool;
  message : string;
  progress : arc_welder_progress stats
}.
Arguments success {stats} _.
Arguments cancelled {stats} _.
Arguments message {stats} _.
Arguments progress {stats} _.

(** Assignments to the fields of a progress report. *)
Section ProgressFields.
Context {stats : Type}.
Implicit Type p : arc_welder_progress stats.
Definition set_percent_complete (v : double) p : arc_welder_progress stats :=
  Build_arc_welder_progress stats v (seconds_elapsed p) (seconds_remaining p)
    (gcodes_processed p) (lines_processed p) (points_compressed p)
    (arcs_created p) (source_file_position p) (source_file_size p)
    (target_file_size p) (compression_ratio p) (compression_percent p)
    (num_firmware_compensations p) (segment_statistics p).
Definition set_seconds_elapsed (v : double) p : arc_welder_progress stats :=
  Build_arc_welder_progress stats (percent_complete p) v (seconds_remaining p)
    (gcodes_processed p) (lines_processed p) (points_compressed p)
    (arcs_created p) (source_file_position p) (source_file_size p)
    (target_file_size p) (compression_ratio p) (compression_percent p)
    (num_firmware_compensations p) (segment_statistics p).
Definition set_seconds_remaining (v : double) p : arc_welder_progress stats :=
  Build_arc_welder_progress stats (percent_complete p) (seconds_elapsed p) v
    (gcodes_processed p) (lines_processed p) (points_compressed p)
    (arcs_created p) (source_file_position p) (source_file_size p)
    (target_file_size p) (compression_ratio p) (compression_percent p)
    (num_firmware_compensations p) (segment_statistics p).
Definition set_gcodes_processed (v : Z) p : arc_welder_progress stats :=
  Build_arc_welder_progress stats (percent_complete p) (seconds_elapsed p)
    (seconds_remaining p) v (lines_processed p) (points_compressed p)
    (arcs_created p) (source_file_position p) (source_file_size p)
    (target_file_size p) (compression_ratio p) (compression_percent p)
    (num_firmware_compensations p) (segment_statistics p).
Definition set_lines_processed (v : Z) p : arc_welder_progress stats :=
  Build_arc_welder_progress stats (percent_complete p) (seconds_elapsed p)
    (seconds_remaining p) (gcodes_processed p) v (points_compressed p)
    (arcs_created p) (source_file_position p) (source_file_size p)
    (target_file_size p) (compression_ratio p) (compression_percent p)
    (num_firmware_compensations p) (segment_statistics p).
Definition set_points_compressed (v : Z) p : arc_welder_progress stats :=
  Build_arc_welder_progress stats (percent_complete p) (seconds_elapsed p)
    (seconds_remaining p) (gcodes_processed p) (lines_processed p) v
    (arcs_created p) (source_file_position p) (source_file_size p)
    (target_file_size p) (compression_ratio p) (compression_percent p)
    (num_firmware_compensations p) (segment_statistics p).
Definition set_arcs_created (v : Z) p : arc_welder_progress stats :=
  Build_arc_welder_progress stats (percent_complete p) (seconds_elapsed p)
    (seconds_remaining p) (gcodes_processed p) (lines_processed p)
    (points_compressed p) v (source_file_position p) (source_file_size p)
    (target_file_size p) (compression_ratio p) (compression_percent p)
    (num_firmware_compensations p) (segment_statistics p).
Definition set_source_file_position (v : Z) p : arc_welder_progress stats :=
  Build_arc_welder_progress stats (percent_complete p) (seconds_elapsed p)
    (seconds_remaining p) (gcodes_processed p) (lines_processed p)
    (points_compressed p) (arcs_created p) v (source_file_size p)
    (target_file_size p) (compression_ratio p) (compression_percent p)
    (num_firmware_compensations p) (segment_statistics p).
Definition set_source_file_size (v : Z) p : arc_welder_progress stats :=
  Build_arc_welder_progress stats (percent_complete p) (seconds_elapsed p)
    (seconds_remaining p) (gcodes_processed p) (lines_processed p)
    (points_compressed p) (arcs_created p) (source_file_position p) v
    (target_file_size p) (compression_ratio p) (compression_percent p)
    (num_firmware_compensations p) (segment_statistics p).
Definition set_target_file_size (v : Z) p : arc_welder_progress stats :=
  Build_arc_welder_progress stats (percent_complete p) (seconds_elapsed p)
    (seconds_remaining p) (gcodes_processed p) (lines_processed p)
    (points_compressed p) (arcs_created p) (source_file_position p)
    (source_file_size p) v (compression_ratio p) (compression_percent p)
    (num_firmware_compensations p) (segment_statistics p).
Definition set_compression_ratio (v : double) p : arc_welder_progress stats :=
  Build_arc_welder_progress stats (percent_complete p) (seconds_elapsed p)
    (seconds_remaining p) (gcodes_processed p) (lines_processed p)
    (points_compressed p) (arcs_created p) (source_file_position p)
    (source_file_size p) (target_file_size p) v (compression_percent p)
    (num_firmware_compensations p) (segment_statistics p).
Definition set_compression_percent (v : double) p : arc_welder_progress stats :=
  Build_arc_welder_progress stats (percent_complete p) (seconds_elapsed p)
    (seconds_remaining p) (gcodes_processed p) (lines_processed p)
    (points_compressed p) (arcs_created p) (source_file_position p)
    (source_file_size p) (target_file_size p) (compression_ratio p) v
    (num_firmware_compensations p) (segment_statistics p).
Definition set_num_firmware_compensations (v : Z) p : arc_welder_progress stats :=
  Build_arc_welder_progress stats (percent_complete p) (seconds_elapsed p)
    (seconds_remaining p) (gcodes_processed p) (lines_processed p)
    (points_compressed p) (arcs_created p) (source_file_position p)
    (source_file_size p) (target_file_size p) (compression_ratio p)
    (compression_percent p) v (segment_statistics p).
Definition set_segment_statistics (v : stats) p : arc_welder_progress stats :=
  Build_arc_welder_progress stats (percent_complete p) (seconds_elapsed p)
    (seconds_remaining p) (gcodes_processed p) (lines_processed p)
    (points_compressed p) (arcs_created p) (source_file_position p)
    (source_file_size p) (target_file_size p) (compression_ratio p)
    (compression_percent p) (num_firmware_compensations p) v.
End ProgressFields.

(** ** Streams *)

(** What the target stream received, one entry per [<<] of the controller.
    [arc_line] is the write of [write_gcode_to_file]; it remembers, next to
    the text, the number of points of the arc it was produced from. *)
Inductive chunk : Set :=
| header_text (text : string)
| flushed_lines (text : string)
| arc_line (num_segments : Z) (text : string).

Definition chunk_text (c : chunk) : string :=
  match c with
  | header_text t | flushed_lines t | arc_line _ t => t
  end.

Record ofstream : Set := {
  is_open : bool;
  failbit : bool;
  written : list chunk
}.

Definition good (o : ofstream) : bool := is_open o && negb (failbit o).

(** [output_file_ << text]: a stream that is closed or failed drops the
    text. *)
Definition put (c : chunk) (o : ofstream) : ofstream :=
  if good o
  then {| is_open := true; failbit := false; written := written o ++ [c] |}
  else o.

(** [open(path)]: fails on a stream that is already open, and when the
    operating system refuses; a successful open truncates the file. *)
Definition open (os_accepts : bool) (o : ofstream) : ofstream :=
  if is_open o
  then {| is_open := true; failbit := true; written := written o |}
  else if os_accepts
       then {| is_open := true; failbit := false; written := [] |}
       else {| is_open := false; failbit := true; written := written o |}.

(** [close()]: closing a stream that is not open sets [failbit]. *)
Definition close (o : ofstream) : ofstream :=
  {| is_open := false;
     failbit := failbit o || negb (is_open o);
     written := written o |}.

Definition file_text (o : ofstream) : string :=
  fold_right (fun c t => chunk_text c ++ t) "" (written o).

(** [tellp()]: the number of bytes written, or -1 when the stream failed. *)
Definition tellp (o : ofstream) : Z :=
  if good o then Z.of_nat (String.length (file_text o)) else -1.

(** The source stream: whether it is open and how many lines [getline] has
    delivered. *)
Record ifstream : Set := {
  source_is_open : bool;
  lines_read : nat
}.

(** What the operating system answers during one call of [process]. *)
Record environment : Type := {
  source_lines : option (list string);  (* [None]: the source cannot be opened *)
  target_opens : bool;
  get_file_size : Z;                     (* [get_file_size(source_path_)] *)
  tellg : nat -> Z;                      (* position after [n] lines *)
  clock : nat -> Z                       (* the [n]-th reading of [clock()] *)
}.

(** Modelled from the spec: the container [array_list] is declared outside
    this file.  Section 4.3 lists its operations: [push_back], [pop_front],
    [pop_back], [count] and the indexed read.  It is a list here, oldest
    entry first.  Section 4.3 does not say what happens when an entry is
    taken from an empty container or read outside [0, count): both are
    failures here, and the properties below that reach them assume enough
    entries instead of relying on the failure.  The capacity is not
    modelled. *)
Module array_list.
Section Ops.
Context {A : Type}.

Definition count (l : list A) : Z := Z.of_nat (List.length l).

Definition push_back (a : A) (l : list A) : list A := l ++ [a].

Definition pop_front (l : list A) : res (A * list A) :=
  match l with
  | [] => Fail exception_thrown
  | a :: l' => Ok (a, l')
  end.

Fixpoint pop_back (l : list A) : res (A * list A) :=
  match l with
  | [] => Fail exception_thrown
  | [a] => Ok (a, [])
  | a :: l' =>
      match pop_back l' with
      | Ok (b, l'') => Ok (b, a :: l'')
      | Fail e => Fail e
      end
  end.

Definition index (l : list A) (i : Z) : res A :=
  if i <? 0 then Fail out_of_range
  else match nth_error l (Z.to_nat i) with
       | Some a => Ok a
       | None => Fail out_of_range
       end.
End Ops.
End array_list.

(** ** The controller *)

Section Controller.

Context {arc gp stats : Type}.
Context {engine : SegmentedArc arc}.
Context {tracker : GcodePosition gp}.
Context {histogram : SegmentStatistics stats}.
Context {platform : Platform}.
(** The value of a default constructed [arc_welder_progress]. *)
Variable default_progress : arc_welder_progress stats.

(** The members of [arc_welder].  The last three fields are not members:
    [gcodeFile] is the local source stream of [process], and the two counters
    number the readings of the clock and the calls of the progress callback,
    so that both can answer differently each time. *)
Record arc_welder : Type := {
  resolution_mm_ : double;
  g90_influences_extruder : bool;
  allow_3d_arcs_ : bool;
  allow_dynamic_precision_ : bool;
  notification_period_seconds : Z;
  progress_callback_ : option (nat -> arc_welder_progress stats -> bool);
  lines_processed_ : Z;
  gcodes_processed_ : Z;
  file_size_ : Z;
  last_gcode_line_written_ : Z;
  points_compressed_ : Z;
  arcs_created_ : Z;
  waiting_for_arc_ : bool;
  previous_feedrate_ : double;
  previous_is_extruder_relative_ : bool;
  current_arc_ : arc;
  p_source_position_ : gp;
  unwritten_commands_ : list unwritten_command;
  segment_statistics_ : stats;
  output_file_ : ofstream;
  gcodeFile : ifstream;
  clock_reads : nat;
  callback_calls : nat
}.

(** Assignments to the members that change. *)
Definition set_lines_processed_ (v : Z) (w : arc_welder) : arc_welder :=
  Build_arc_welder (resolution_mm_ w) (g90_influences_extruder w)
    (allow_3d_arcs_ w) (allow_dynamic_precision_ w)
    (notification_period_seconds w) (progress_callback_ w) v
    (gcodes_processed_ w) (file_size_ w) (last_gcode_line_written_ w)
    (points_compressed_ w) (arcs_created_ w) (waiting_for_arc_ w)
    (previous_feedrate_ w) (previous_is_extruder_relative_ w) (current_arc_ w)
    (p_source_position_ w) (unwritten_commands_ w) (segment_statistics_ w)
    (output_file_ w) (gcodeFile w) (clock_reads w) (callback_calls w).
Definition set_gcodes_processed_ (v : Z) (w : arc_welder) : arc_welder :=
  Build_arc_welder (resolution_mm_ w) (g90_influences_extruder w)
    (allow_3d_arcs_ w) (allow_dynamic_precision_ w)
    (notification_period_seconds w) (progress_callback_ w)
    (lines_processed_ w) v (file_size_ w) (last_gcode_line_written_ w)
    (points_compressed_ w) (arcs_created_ w) (waiting_for_arc_ w)
    (previous_feedrate_ w) (previous_is_extruder_relative_ w) (current_arc_ w)
    (p_source_position_ w) (unwritten_commands_ w) (segment_statistics_ w)
    (output_file_ w) (gcodeFile w) (clock_reads w) (callback_calls w).
Definition set_file_size_ (v : Z) (w : arc_welder) : arc_welder :=
  Build_arc_welder (resolution_mm_ w) (g90_influences_extruder w)
    (allow_3d_arcs_ w) (allow_dynamic_precision_ w)
    (notification_period_seconds w) (progress_callback_ w)
    (lines_processed_ w) (gcodes_processed_ w) v (last_gcode_line_written_ w)
    (points_compressed_ w) (arcs_created_ w) (waiting_for_arc_ w)
    (previous_feedrate_ w) (previous_is_extruder_relative_ w) (current_arc_ w)
    (p_source_position_ w) (unwritten_commands_ w) (segment_statistics_ w)
    (output_file_ w) (gcodeFile w) (clock_reads w) (callback_calls w).
Definition set_last_gcode_line_written_ (v : Z) (w : arc_welder) : arc_welder :=
  Build_arc_welder (resolution_mm_ w) (g90_influences_extruder w)
    (allow_3d_arcs_ w) (allow_dynamic_precision_ w)
    (notification_period_seconds w) (progress_callback_ w)
    (lines_processed_ w) (gcodes_processed_ w) (file_size_ w) v
    (points_compressed_ w) (arcs_created_ w) (waiting_for_arc_ w)
    (previous_feedrate_ w) (previous_is_extruder_relative_ w) (current_arc_ w)
    (p_source_position_ w) (unwritten_commands_ w) (segment_statistics_ w)
    (output_file_ w) (gcodeFile w) (clock_reads w) (callback_calls w).
Definition set_points_compressed_ (v : Z) (w : arc_welder) : arc_welder :=
  Build_arc_welder (resolution_mm_ w) (g90_influences_extruder w)
    (allow_3d_arcs_ w) (allow_dynamic_precision_ w)
    (notification_period_seconds w) (progress_callback_ w)
    (lines_processed_ w) (gcodes_processed_ w) (file_size_ w)
    (last_gcode_line_written_ w) v (arcs_created_ w) (waiting_for_arc_ w)
    (previous_feedrate_ w) (previous_is_extruder_relative_ w) (current_arc_ w)
    (p_source_position_ w) (unwritten_commands_ w) (segment_statistics_ w)
    (output_file_ w) (gcodeFile w) (clock_reads w) (callback_calls w).
Definition set_arcs_created_ (v : Z) (w : arc_welder) : arc_welder :=
  Build_arc_welder (resolution_mm_ w) (g90_influences_extruder w)
    (allow_3d_arcs_ w) (allow_dynamic_precision_ w)
    (notification_period_seconds w) (progress_callback_ w)
    (lines_processed_ w) (gcodes_processed_ w) (file_size_ w)
    (last_gcode_line_written_ w) (points_compressed_ w) v (waiting_for_arc_ w)
    (previous_feedrate_ w) (previous_is_extruder_relative_ w) (current_arc_ w)
    (p_source_position_ w) (unwritten_commands_ w) (segment_statistics_ w)
    (output_file_ w) (gcodeFile w) (clock_reads w) (callback_calls w).
Definition set_waiting_for_arc_ (v : bool) (w : arc_welder) : arc_welder :=
  Build_arc_welder (resolution_mm_ w) (g90_influences_extruder w)
    (allow_3d_arcs_ w) (allow_dynamic_precision_ w)
    (notification_period_seconds w) (progress_callback_ w)
    (lines_processed_ w) (gcodes_processed_ w) (file_size_ w)
    (last_gcode_line_written_ w) (points_compressed_ w) (arcs_created_ w) v
    (previous_feedrate_ w) (previous_is_extruder_relative_ w) (current_arc_ w)
    (p_source_position_ w) (unwritten_commands_ w) (segment_statistics_ w)
    (output_file_ w) (gcodeFile w) (clock_reads w) (callback_calls w).
Definition set_previous_feedrate_ (v : double) (w : arc_welder) : arc_welder :=
  Build_arc_welder (resolution_mm_ w) (g90_influences_extruder w)
    (allow_3d_arcs_ w) (allow_dynamic_precision_ w)
    (notification_period_seconds w) (progress_callback_ w)
    (lines_processed_ w) (gcodes_processed_ w) (file_size_ w)
    (last_gcode_line_written_ w) (points_compressed_ w) (arcs_created_ w)
    (waiting_for_arc_ w) v (previous_is_extruder_relative_ w) (current_arc_ w)
    (p_source_position_ w) (unwritten_commands_ w) (segment_statistics_ w)
    (output_file_ w) (gcodeFile w) (clock_reads w) (callback_calls w).
Definition set_previous_is_extruder_relative_ (v : bool) (w : arc_welder) : arc_welder :=
  Build_arc_welder (resolution_mm_ w) (g90_influences_extruder w)
    (allow_3d_arcs_ w) (allow_dynamic_precision_ w)
    (notification_period_seconds w) (progress_callback_ w)
    (lines_processed_ w) (gcodes_processed_ w) (file_size_ w)
    (last_gcode_line_written_ w) (points_compressed_ w) (arcs_created_ w)
    (waiting_for_arc_ w) (previous_feedrate_ w) v (current_arc_ w)
    (p_source_position_ w) (unwritten_commands_ w) (segment_statistics_ w)
    (output_file_ w) (gcodeFile w) (clock_reads w) (callback_calls w).
Definition set_current_arc_ (v : arc) (w : arc_welder) : arc_welder :=
  Build_arc_welder (resolution_mm_ w) (g90_influences_extruder w)
    (allow_3d_arcs_ w) (allow_dynamic_precision_ w)
    (notification_period_seconds w) (progress_callback_ w)
    (lines_processed_ w) (gcodes_processed_ w) (file_size_ w)
    (last_gcode_line_written_ w) (points_compressed_ w) (arcs_created_ w)
    (waiting_for_arc_ w) (previous_feedrate_ w)
    (previous_is_extruder_relative_ w) v (p_source_position_ w)
    (unwritten_commands_ w) (segment_statistics_ w) (output_file_ w)
    (gcodeFile w) (clock_reads w) (callback_calls w).
Definition set_p_source_position_ (v : gp) (w : arc_welder) : arc_welder :=
  Build_arc_welder (resolution_mm_ w) (g90_influences_extruder w)
    (allow_3d_arcs_ w) (allow_dynamic_precision_ w)
    (notification_period_seconds w) (progress_callback_ w)
    (lines_processed_ w) (gcodes_processed_ w) (file_size_ w)
    (last_gcode_line_written_ w) (points_compressed_ w) (arcs_created_ w)
    (waiting_for_arc_ w) (previous_feedrate_ w)
    (previous_is_extruder_relative_ w) (current_arc_ w) v
    (unwritten_commands_ w) (segment_statistics_ w) (output_file_ w)
    (gcodeFile w) (clock_reads w) (callback_calls w).
Definition set_unwritten_commands_ (v : list unwritten_command) (w : arc_welder) : arc_welder :=
  Build_arc_welder (resolution_mm_ w) (g90_influences_extruder w)
    (allow_3d_arcs_ w) (allow_dynamic_precision_ w)
    (notification_period_seconds w) (progress_callback_ w)
    (lines_processed_ w) (gcodes_processed_ w) (file_size_ w)
    (last_gcode_line_written_ w) (points_compressed_ w) (arcs_created_ w)
    (waiting_for_arc_ w) (previous_feedrate_ w)
    (previous_is_extruder_relative_ w) (current_arc_ w) (p_source_position_ w)
    v (segment_statistics_ w) (output_file_ w) (gcodeFile w) (clock_reads w)
    (callback_calls w).
Definition set_segment_statistics_ (v : stats) (w : arc_welder) : arc_welder :=
  Build_arc_welder (resolution_mm_ w) (g90_influences_extruder w)
    (allow_3d_arcs_ w) (allow_dynamic_precision_ w)
    (notification_period_seconds w) (progress_callback_ w)
    (lines_processed_ w) (gcodes_processed_ w) (file_size_ w)
    (last_gcode_line_written_ w) (points_compressed_ w) (arcs_created_ w)
    (waiting_for_arc_ w) (previous_feedrate_ w)
    (previous_is_extruder_relative_ w) (current_arc_ w) (p_source_position_ w)
    (unwritten_commands_ w) v (output_file_ w) (gcodeFile w) (clock_reads w)
    (callback_calls w).
Definition set_output_file_ (v : ofstream) (w : arc_welder) : arc_welder :=
  Build_arc_welder (resolution_mm_ w) (g90_influences_extruder w)
    (allow_3d_arcs_ w) (allow_dynamic_precision_ w)
    (notification_period_seconds w) (progress_callback_ w)
    (lines_processed_ w) (gcodes_processed_ w) (file_size_ w)
    (last_gcode_line_written_ w) (points_compressed_ w) (arcs_created_ w)
    (waiting_for_arc_ w) (previous_feedrate_ w)
    (previous_is_extruder_relative_ w) (current_arc_ w) (p_source_position_ w)
    (unwritten_commands_ w) (segment_statistics_ w) v (gcodeFile w)
    (clock_reads w) (callback_calls w).
Definition set_gcodeFile (v : ifstream) (w : arc_welder) : arc_welder :=
  Build_arc_welder (resolution_mm_ w) (g90_influences_extruder w)
    (allow_3d_arcs_ w) (allow_dynamic_precision_ w)
    (notification_period_seconds w) (progress_callback_ w)
    (lines_processed_ w) (gcodes_processed_ w) (file_size_ w)
    (last_gcode_line_written_ w) (points_compressed_ w) (arcs_created_ w)
    (waiting_for_arc_ w) (previous_feedrate_ w)
    (previous_is_extruder_relative_ w) (current_arc_ w) (p_source_position_ w)
    (unwritten_commands_ w) (segment_statistics_ w) (output_file_ w) v
    (clock_reads w) (callback_calls w).
Definition set_clock_reads (v : nat) (w : arc_welder) : arc_welder :=
  Build_arc_welder (resolution_mm_ w) (g90_influences_extruder w)
    (allow_3d_arcs_ w) (allow_dynamic_precision_ w)
    (notification_period_seconds w) (progress_callback_ w)
    (lines_processed_ w) (gcodes_processed_ w) (file_size_ w)
    (last_gcode_line_written_ w) (points_compressed_ w) (arcs_created_ w)
    (waiting_for_arc_ w) (previous_feedrate_ w)
    (previous_is_extruder_relative_ w) (current_arc_ w) (p_source_position_ w)
    (unwritten_commands_ w) (segment_statistics_ w) (output_file_ w)
    (gcodeFile w) v (callback_calls w).
Definition set_callback_calls (v : nat) (w : arc_welder) : arc_welder :=
  Build_arc_welder (resolution_mm_ w) (g90_influences_extruder w)
    (allow_3d_arcs_ w) (allow_dynamic_precision_ w)
    (notification_period_seconds w) (progress_callback_ w)
    (lines_processed_ w) (gcodes_processed_ w) (file_size_ w)
    (last_gcode_line_written_ w) (points_compressed_ w) (arcs_created_ w)
    (waiting_for_arc_ w) (previous_feedrate_ w)
    (previous_is_extruder_relative_ w) (current_arc_ w) (p_source_position_ w)
    (unwritten_commands_ w) (segment_statistics_ w) (output_file_ w)
    (gcodeFile w) (clock_reads w) v.


Local Abbreviation welder := (M arc_welder).

(** [s.length() > 0] *)
Definition has_length (s : string) : bool := (0 <? String.length s)%nat.

(** *** Writing to the target (lines 740-764) *)

(** [write_gcode_to_file(gcode)].  Its only caller is [write_arc_gcodes], so
    the chunk is an [arc_line], tagged with the size of the current arc. *)
Definition write_gcode_to_file (gcode : string) : welder Z :=
  modify (fun w =>
    set_output_file_
      (put (arc_line (get_num_segments (current_arc_ w)) (gcode ++ newline))
           (output_file_ w)) w) ;;
  ret 1.

(** The body of the loop of [write_unwritten_gcodes_to_file], [n] times. *)
Fixpoint write_unwritten_loop (n : nat) (lines_to_write : string)
  : welder string :=
  match n with
  | O => ret lines_to_write
  | S n' =>
      unwritten <- gets unwritten_commands_ ;;
      match array_list.pop_front unwritten with
      | Fail e => throw e
      | Ok (p, rest) =>
          modify (set_unwritten_commands_ rest) ;;
          when (PrimFloat.ltb dzero (extrusion_length p))
            (modify (fun w =>
               set_segment_statistics_
                 (stats_update (extrusion_length p) false
                    (segment_statistics_ w)) w)) ;;
          write_unwritten_loop n' (lines_to_write ++ to_string p ++ newline)
      end
  end.

Definition write_unwritten_gcodes_to_file : welder Z :=
  size <- gets (fun w => array_list.count (unwritten_commands_ w)) ;;
  lines_to_write <- write_unwritten_loop (Z.to_nat size) "" ;;
  modify (fun w =>
    set_output_file_ (put (flushed_lines lines_to_write) (output_file_ w)) w) ;;
  ret size.

(** *** The comment of an arc (lines 711-730) *)

(** One turn of the loop of [get_comment_for_arc]. *)
Definition add_comment (comment old_comment : string) : string :=
  if negb (String.eqb old_comment comment) && has_length old_comment
  then (if has_length comment then comment ++ " - " else comment)
         ++ old_comment
  else comment.

Fixpoint comment_loop (n : nat) (comment_index : Z) (comment : string)
  (unwritten : list unwritten_command) : res string :=
  match n with
  | O => Ok comment
  | S n' =>
      match array_list.index unwritten comment_index with
      | Fail e => Fail e
      | Ok u =>
          comment_loop n' (comment_index + 1)
            (add_comment comment (uc_comment u)) unwritten
      end
  end.

Definition get_comment_for_arc : welder string :=
  fun w =>
    let unwritten := unwritten_commands_ w in
    let comment_index :=
      array_list.count unwritten - (get_num_segments (current_arc_ w) - 1) in
    match comment_loop (Z.to_nat (array_list.count unwritten - comment_index))
            comment_index "" unwritten with
    | Ok comment => Ok (comment, w)
    | Fail e => Fail e
    end.

(** *** The text of an arc (lines 766-794) *)

Definition get_arc_gcode_relative (f : double) (comment : string) (a : arc)
  : string :=
  let gcode := get_shape_gcode_relative f a in
  if has_length comment then gcode ++ ";" ++ comment else gcode.

Definition get_arc_gcode_absolute (e f : double) (comment : string) (a : arc)
  : string :=
  let gcode := get_shape_gcode_absolute e f a in
  if has_length comment then gcode ++ ";" ++ comment else gcode.

(** *** Committing an arc (lines 656-709) *)

(** [unwritten_commands_.pop_back()], [n] times. *)
Fixpoint pop_back_loop (n : nat) : welder unit :=
  match n with
  | O => ret tt
  | S n' =>
      unwritten <- gets unwritten_commands_ ;;
      match array_list.pop_back unwritten with
      | Fail e => throw e
      | Ok (_, rest) =>
          modify (set_unwritten_commands_ rest) ;; pop_back_loop n'
      end
  end.

(** The text written for the current arc, once the tracker is rolled back. *)
Definition arc_gcode (current_feedrate : double) (comment : string)
  (w : arc_welder) : string :=
  let current_feedrate :=
    if PrimFloat.ltb dzero (previous_feedrate_ w)
       && PrimFloat.eqb (previous_feedrate_ w) current_feedrate
    then dzero else current_feedrate in
  if previous_is_extruder_relative_ w
  then get_arc_gcode_relative current_feedrate comment (current_arc_ w)
  else get_arc_gcode_absolute
         (get_offset_e
            (get_current_extruder
               (get_current_position (p_source_position_ w))))
         current_feedrate comment (current_arc_ w).

(** [is_extruder_relative] is an argument the C++ function does not read. *)
Definition write_arc_gcodes (is_extruder_relative : bool)
  (current_feedrate : double) : welder unit :=
  comment <- get_comment_for_arc ;;
  num_segments <- gets (fun w => get_num_segments (current_arc_ w)) ;;
  pop_back_loop (Z.to_nat (num_segments - 1)) ;;
  modify (fun w =>
    set_p_source_position_ (undo_update (p_source_position_ w)) w) ;;
  gcode <- gets (arc_gcode current_feedrate comment) ;;
  write_unwritten_gcodes_to_file ;;
  modify (fun w =>
    set_segment_statistics_
      (stats_update (get_shape_length (current_arc_ w)) false
         (segment_statistics_ w)) w) ;;
  write_gcode_to_file gcode ;;
  modify (set_waiting_for_arc_ false) ;;
  modify (fun w => set_current_arc_ (arc_clear (current_arc_ w)) w).


(** *** One command through the controller (lines 377-654) *)

Definition is_g1_g2 (cmd : parsed_command) : bool :=
  String.eqb (command cmd) "G0" || String.eqb (command cmd) "G1".

(** The [switch] on the first letter of a parameter (lines 424-434).  The
    first character of an empty name is the terminating zero. *)
Definition update_precision (a : arc) (p : parsed_command_parameter) : arc :=
  match name p with
  | String c _ =>
      if Ascii.eqb c "X" || Ascii.eqb c "Y" || Ascii.eqb c "Z"
      then update_xyz_precision (double_precision p) a
      else if Ascii.eqb c "E"
           then update_e_precision (double_precision p) a
           else a
  | EmptyString => a
  end.

(** The extrusion test of the condition (lines 451-457). *)
Definition extrusion_ok (waiting_for_arc : bool)
  (previous_extruder extruder_current : extruder) : bool :=
  negb waiting_for_arc
  || is_extruding extruder_current
  || (is_retracting previous_extruder && is_retracting extruder_current).

(** The condition of the [if] at lines 441-462. *)
Definition arc_eligible (w : arc_welder) (cmd : parsed_command)
  (is_end : bool) (p_cur_pos p_pre_pos : position) : bool :=
  let z_axis_ok :=
    allow_3d_arcs_ w || is_equal (z p_cur_pos) (z p_pre_pos) in
  negb is_end && is_known_command cmd && negb (is_empty cmd)
  && (is_g1_g2 cmd && z_axis_ok
      && is_equal (x_offset p_cur_pos) (x_offset p_pre_pos)
      && is_equal (y_offset p_cur_pos) (y_offset p_pre_pos)
      && is_equal (z_offset p_cur_pos) (z_offset p_pre_pos)
      && is_equal (x_firmware_offset p_cur_pos) (x_firmware_offset p_pre_pos)
      && is_equal (y_firmware_offset p_cur_pos) (y_firmware_offset p_pre_pos)
      && is_equal (z_firmware_offset p_cur_pos) (z_firmware_offset p_pre_pos)
      && negb (is_relative p_cur_pos)
      && extrusion_ok (waiting_for_arc_ w)
           (get_current_extruder p_pre_pos) (get_current_extruder p_cur_pos)
      && Bool.eqb (is_extruder_relative p_cur_pos)
           (is_extruder_relative p_pre_pos)
      && (negb (waiting_for_arc_ w)
          || PrimFloat.eqb (f p_pre_pos) (f p_cur_pos))
      && (negb (waiting_for_arc_ w)
          || (feature_type_tag p_pre_pos =? feature_type_tag p_cur_pos))).

(** [current_arc_.try_add_point(p)] *)
Definition add_point (p : printer_point) : welder bool :=
  fun w =>
    let (added, a) := try_add_point p (current_arc_ w) in
    Ok (added, set_current_arc_ a w).

(** The length of the move (lines 398-408): measured when the xy position
    changed and the extruder moved, zero otherwise. *)
Definition movement_length (allow_3d_arcs : bool)
  (p_cur_pos p_pre_pos : position) : double :=
  let extruder_current := get_current_extruder p_cur_pos in
  let has_e_changed :=
    is_extruding extruder_current || is_retracting extruder_current in
  if has_xy_position_changed p_cur_pos && has_e_changed then
    if allow_3d_arcs
    then get_cartesian_distance_3d
           (x p_pre_pos) (y p_pre_pos) (z p_pre_pos)
           (x p_cur_pos) (y p_cur_pos) (z p_cur_pos)
    else get_cartesian_distance
           (x p_pre_pos) (y p_pre_pos) (x p_cur_pos) (y p_cur_pos)
  else dzero.

(** The statistics of the source (lines 401-415): a measured move of
    positive length is recorded, unless the command is being reprocessed. *)
Definition measure_movement (is_reprocess : bool)
  (p_cur_pos p_pre_pos : position) : welder double :=
  let extruder_current := get_current_extruder p_cur_pos in
  let has_e_changed :=
    is_extruding extruder_current || is_retracting extruder_current in
  allow_3d_arcs <- gets allow_3d_arcs_ ;;
  let movement_length_mm :=
    movement_length allow_3d_arcs p_cur_pos p_pre_pos in
  when (has_xy_position_changed p_cur_pos && has_e_changed
        && PrimFloat.ltb dzero movement_length_mm && negb is_reprocess)
    (modify (fun w =>
       set_segment_statistics_
         (stats_update movement_length_mm true (segment_statistics_ w)) w)) ;;
  ret movement_length_mm.

(** [printer_point(p->get_gcode_x(), p->get_gcode_y(), p->get_gcode_z(),
    p->get_current_extruder().e_relative, distance)] *)
Definition point_at (p : position) (distance : double) : printer_point :=
  {| point_x := get_gcode_x p;
     point_y := get_gcode_y p;
     point_z := get_gcode_z p;
     point_e_relative := e_relative (get_current_extruder p);
     point_distance := distance |}.

(** The eligible branch (lines 464-502); the result is [arc_added]. *)
Definition extend_arc (p_cur_pos p_pre_pos : position)
  (movement_length_mm : double) : welder bool :=
  let p := point_at p_cur_pos movement_length_mm in
  let previous_p := point_at p_pre_pos dzero in
  waiting_for_arc <- gets waiting_for_arc_ ;;
  when (negb waiting_for_arc)
    (modify (set_previous_is_extruder_relative_
               (is_extruder_relative p_pre_pos)) ;;
     write_unwritten_gcodes_to_file ;;
     add_point previous_p ;;
     ret tt) ;;
  arc_added <- add_point p ;;
  when (arc_added && negb waiting_for_arc)
    (modify (set_waiting_for_arc_ true) ;;
     modify (set_previous_feedrate_ (f p_pre_pos))) ;;
  ret arc_added.

(** How one pass over a command ends: it returns [lines_written], or it has
    committed an arc and calls [process_gcode(cmd, false, true)]. *)
Inductive pass_result : Set :=
| returned (lines_written : Z)
| reprocess.

(** [cmd.is_empty && cmd.comment.length() == 0] *)
Definition is_blank (cmd : parsed_command) : bool :=
  is_empty cmd && (String.length (comment cmd) =? 0)%nat.

(** Lines 584-641: nothing, an abort, or a commit.  [None] means that the
    pass goes on to line 643. *)
Definition commit_or_abort (cmd : parsed_command) (is_end arc_added : bool)
  (p_pre_pos : position) : welder (option pass_result) :=
  if negb arc_added && negb (is_blank cmd)
  then
    a <- gets current_arc_ ;;
    waiting_for_arc <- gets waiting_for_arc_ ;;
    if get_num_segments a <? get_min_segments a then
      modify (set_waiting_for_arc_ false) ;;
      modify (fun w => set_current_arc_ (arc_clear (current_arc_ w)) w) ;;
      ret None
    else if waiting_for_arc then
      if is_shape a then
        modify (fun w =>
          set_points_compressed_
            (int_add (points_compressed_ w)
               (int_sub (get_num_segments (current_arc_ w)) 1))
            w) ;;
        modify (fun w => set_arcs_created_ (int_add (arcs_created_ w) 1) w) ;;
        write_arc_gcodes (is_extruder_relative p_pre_pos) (f p_pre_pos) ;;
        if negb is_end then ret (Some reprocess) else ret (Some (returned 0))
      else
        modify (fun w => set_current_arc_ (arc_clear (current_arc_ w)) w) ;;
        modify (set_waiting_for_arc_ false) ;;
        ret None
    else ret None
  else ret None.

(** Lines 643-653: the command joins the unwritten commands, which are
    written at once unless an arc is being built. *)
Definition defer_command (arc_added : bool) (movement_length_mm : double)
  : welder Z :=
  waiting_for_arc <- gets waiting_for_arc_ ;;
  when (waiting_for_arc || negb arc_added)
    (modify (fun w =>
       set_unwritten_commands_
         (array_list.push_back
            (make_unwritten_command (p_source_position_ w)
               movement_length_mm)
            (unwritten_commands_ w)) w)) ;;
  when (negb waiting_for_arc) (write_unwritten_gcodes_to_file ;; ret tt) ;;
  ret 0.

(** The body of [process_gcode] up to its recursive call. *)
Definition process_gcode_pass (cmd : parsed_command)
  (is_end is_reprocess : bool) : welder pass_result :=
  modify (fun w =>
    set_p_source_position_
      (update cmd (lines_processed_ w) (gcodes_processed_ w) (-1)
         (p_source_position_ w)) w) ;;
  p_cur_pos <- gets (fun w => get_current_position (p_source_position_ w)) ;;
  p_pre_pos <- gets (fun w => get_previous_position (p_source_position_ w)) ;;
  movement_length_mm <- measure_movement is_reprocess p_cur_pos p_pre_pos ;;
  allow_dynamic_precision <- gets allow_dynamic_precision_ ;;
  when (allow_dynamic_precision && is_g1_g2 cmd)
    (modify (fun w =>
       set_current_arc_
         (fold_left update_precision (parameters cmd) (current_arc_ w)) w)) ;;
  eligible <- gets (fun w => arc_eligible w cmd is_end p_cur_pos p_pre_pos) ;;
  arc_added <-
    (if eligible then extend_arc p_cur_pos p_pre_pos movement_length_mm
     else ret false) ;;
  outcome <- commit_or_abort cmd is_end arc_added p_pre_pos ;;
  match outcome with
  | Some r => ret r
  | None =>
      lines_written <- defer_command arc_added movement_length_mm ;;
      ret (returned lines_written)
  end.

(** [process_gcode]: a pass, and the recursive call of line 614 when the
    pass asks for it.  [fuel] bounds the depth of the recursion. *)
Fixpoint process_gcode_rec (fuel : nat) (cmd : parsed_command)
  (is_end is_reprocess : bool) : welder Z :=
  match fuel with
  | O => throw out_of_fuel
  | S fuel' =>
      r <- process_gcode_pass cmd is_end is_reprocess ;;
      match r with
      | returned lines_written => ret lines_written
      | reprocess => process_gcode_rec fuel' cmd false true
      end
  end.

(** Two levels are all [process_gcode] ever uses: see
    [process_gcode_rec_enough]. *)
Definition process_gcode : parsed_command -> bool -> bool -> welder Z :=
  process_gcode_rec 2.


(** *** Progress (lines 176-184 and 337-375) *)

(** [clock()]: the next reading of the environment. *)
Definition read_clock (env : environment) : welder Z :=
  fun w => Ok (clock env (clock_reads w), set_clock_reads (S (clock_reads w)) w).

(** [notification_period_seconds] is an integer member of the class. *)
Definition get_next_update_time (env : environment) : welder double :=
  now <- read_clock env ;;
  period <- gets notification_period_seconds ;;
  ret (double_of_Z (now + period * CLOCKS_PER_SEC)).

Definition get_time_elapsed (start_clock end_clock : double) : double :=
  PrimFloat.div (PrimFloat.sub end_clock start_clock)
    (double_of_Z CLOCKS_PER_SEC).

Definition on_progress_ (progress : arc_welder_progress stats) : welder bool :=
  fun w =>
    match progress_callback_ w with
    | Some callback =>
        Ok (callback (callback_calls w) progress,
            set_callback_calls (S (callback_calls w)) w)
    | None => Ok (true, w)
    end.

(** The two assignments guarded by [source_file_position > 0]. *)
Definition set_compression (source_file_position : Z)
  (progress : arc_welder_progress stats) : arc_welder_progress stats :=
  let source := float32_of_Z source_file_position in
  let target := float32_of_Z (target_file_size progress) in
  let progress :=
    set_compression_ratio
      (double_of_float32 (float32_div source target)) progress in
  set_compression_percent
    (PrimFloat.mul
       (PrimFloat.sub (double_of_Z 1)
          (double_of_float32 (float32_div target source)))
       (double_of_Z 100))
    progress.

Definition get_progress_ (env : environment) (source_file_position : Z)
  (start_clock : double) : welder (arc_welder_progress stats) :=
  w <- gets (fun w => w) ;;
  let progress := default_progress in
  let progress := set_gcodes_processed (gcodes_processed_ w) progress in
  let progress := set_lines_processed (lines_processed_ w) progress in
  let progress := set_points_compressed (points_compressed_ w) progress in
  let progress := set_arcs_created (arcs_created_ w) progress in
  let progress := set_source_file_position source_file_position progress in
  let progress := set_target_file_size (tellp (output_file_ w)) progress in
  let progress := set_source_file_size (file_size_ w) progress in
  let bytesRemaining := file_size_ w - source_file_position in
  let progress :=
    set_percent_complete
      (PrimFloat.mul
         (PrimFloat.div (double_of_Z source_file_position)
            (double_of_Z (file_size_ w)))
         (double_of_Z 100))
      progress in
  now <- read_clock env ;;
  let progress :=
    set_seconds_elapsed (get_time_elapsed start_clock (double_of_Z now))
      progress in
  let bytesPerSecond :=
    PrimFloat.div (double_of_Z source_file_position)
      (seconds_elapsed progress) in
  let progress :=
    set_seconds_remaining
      (PrimFloat.div (double_of_Z bytesRemaining) bytesPerSecond) progress in
  let progress :=
    if 0 <? source_file_position
    then set_compression source_file_position progress
    else progress in
  let progress :=
    set_num_firmware_compensations
      (get_num_firmware_compensations (current_arc_ w)) progress in
  let progress := set_segment_statistics (segment_statistics_ w) progress in
  ret progress.

(** *** A run (lines 153-163, 186-335 and 796-830) *)

Definition reset : welder unit :=
  modify (set_lines_processed_ 0) ;;
  modify (set_gcodes_processed_ 0) ;;
  modify (set_last_gcode_line_written_ 0) ;;
  modify (set_file_size_ 0) ;;
  modify (set_points_compressed_ 0) ;;
  modify (set_arcs_created_ 0) ;;
  modify (set_waiting_for_arc_ false).

Definition arcwelder_comment (w : arc_welder) : string :=
  let a := current_arc_ w in
  "; Postprocessed by [ArcWelder](https://github.com/FormerLurker/ArcWelderLib)"
  ++ newline
  ++ "; Copyright(C) 2020 - Brad Hochgesang" ++ newline
  ++ "; resolution=" ++ fixed 2 (resolution_mm_ w) ++ "mm" ++ newline
  ++ "; path_tolerance="
  ++ fixed 0 (PrimFloat.mul (get_path_tolerance_percent a) (double_of_Z 100))
  ++ "%" ++ newline
  ++ "; max_radius=" ++ fixed 2 (get_max_radius a) ++ "mm" ++ newline
  ++ (if g90_influences_extruder w
      then "; g90_influences_extruder=True" ++ newline else "")
  ++ (if PrimFloat.ltb dzero (get_mm_per_arc_segment a)
         && (0 <? get_min_arc_segments a)
      then "; firmware_compensation=True" ++ newline
           ++ "; mm_per_arc_segment=" ++ fixed 2 (get_mm_per_arc_segment a)
           ++ "mm" ++ newline
           ++ "; min_arc_segments=" ++ decimal (get_min_arc_segments a)
           ++ newline
      else "")
  ++ (if allow_3d_arcs_ w then "; allow_3d_arcs=True" ++ newline else "")
  ++ (if allow_dynamic_precision_ w
      then "; allow_dynamic_precision=True" ++ newline else "")
  ++ "; default_xyz_precision=" ++ decimal (get_xyz_precision a) ++ newline
  ++ "; default_e_precision=" ++ decimal (get_e_precision a) ++ newline
  ++ newline.

Definition add_arcwelder_comment_to_target : welder unit :=
  modify (fun w =>
    set_output_file_ (put (header_text (arcwelder_comment w)) (output_file_ w))
      w).

(** Modelled from the spec: the constructor of [arc_welder_results] is
    declared outside this file.  Section 7 gives the results of the two fatal
    errors [cancelled = false], a field [process] does not assign on those
    paths, so a new result has both flags cleared and an empty message. *)
Definition default_results : arc_welder_results stats :=
  {| success := false; cancelled := false; message := "";
     progress := default_progress |}.

(** The progress update inside the loop (lines 294-305): the new value of
    [continue_processing] and of [next_update_time]. *)
Definition periodic_update (env : environment) (has_gcode : bool)
  (continue_processing : bool) (next_update_time start_clock : double)
  : welder (bool * double) :=
  if has_gcode then
    lines_processed <- gets lines_processed_ ;;
    if Z.rem lines_processed 1000 =? 0 then
      now <- read_clock env ;;
      if PrimFloat.ltb next_update_time (double_of_Z now) then
        position <- gets (fun w => tellg env (lines_read (gcodeFile w))) ;;
        progress <- get_progress_ env position start_clock ;;
        continue_processing <- on_progress_ progress ;;
        next_update_time <- get_next_update_time env ;;
        ret (continue_processing, next_update_time)
      else ret (continue_processing, next_update_time)
    else ret (continue_processing, next_update_time)
  else ret (continue_processing, next_update_time).

Definition closed_source : ifstream :=
  {| source_is_open := false; lines_read := 0 |}.

Definition close_source (i : ifstream) : ifstream :=
  {| source_is_open := false; lines_read := lines_read i |}.

(** [std::getline(gcodeFile, line)] delivered a line. *)
Definition getline : welder unit :=
  modify (fun w =>
    set_gcodeFile
      {| source_is_open := source_is_open (gcodeFile w);
         lines_read := S (lines_read (gcodeFile w)) |} w).

(** The loop of lines 264-306 over the lines that remain in the source.  The
    condition calls [getline] before it tests [continue_processing].  The
    result is the flag and the last command parsed. *)
Fixpoint process_lines (env : environment) (lines : list string)
  (continue_processing : bool) (cmd : parsed_command)
  (next_update_time start_clock : double)
  : welder (bool * parsed_command) :=
  match lines with
  | [] => ret (continue_processing, cmd)
  | line :: rest =>
      getline ;;
      if continue_processing then
        modify (fun w =>
          set_lines_processed_ (int_add (lines_processed_ w) 1) w) ;;
        let cmd := try_parse_gcode line in
        let has_gcode := has_length (gcode cmd) in
        when has_gcode
          (modify (fun w =>
             set_gcodes_processed_ (int_add (gcodes_processed_ w) 1) w)) ;;
        process_gcode cmd false false ;;
        update <- periodic_update env has_gcode continue_processing
                    next_update_time start_clock ;;
        process_lines env rest (fst update) cmd (snd update) start_clock
      else ret (continue_processing, cmd)
  end.

(** Lines 308-334: the last arc, the flush, the final report. *)
Definition finish (env : environment) (continue_processing : bool)
  (cmd : parsed_command) (start_clock : double)
  : welder (arc_welder_results stats) :=
  final_shape <- gets (fun w => is_shape (current_arc_ w) && waiting_for_arc_ w) ;;
  when final_shape (process_gcode cmd true false ;; ret tt) ;;
  write_unwritten_gcodes_to_file ;;
  file_size <- gets file_size_ ;;
  final_progress <- get_progress_ env file_size start_clock ;;
  on_progress_ final_progress ;;
  modify (fun w => set_output_file_ (close (output_file_ w)) w) ;;
  modify (fun w => set_gcodeFile (close_source (gcodeFile w)) w) ;;
  read_clock env ;;
  ret {| success := continue_processing;
         cancelled := negb continue_processing;
         message := message default_results;
         progress := final_progress |}.

(** Lines 257-334: the run once both files are open. *)
Definition process_opened (env : environment) (lines : list string)
  (next_update_time : double) (start_clock : Z)
  : welder (arc_welder_results stats) :=
  add_arcwelder_comment_to_target ;;
  position <- gets (fun w => tellg env (lines_read (gcodeFile w))) ;;
  progress <- get_progress_ env position (double_of_Z start_clock) ;;
  continue_processing <- on_progress_ progress ;;
  loop <- process_lines env lines continue_processing empty_command
            next_update_time (double_of_Z start_clock) ;;
  finish env (fst loop) (snd loop) (double_of_Z start_clock).

Definition process (env : environment) : welder (arc_welder_results stats) :=
  reset ;;
  next_update_time <- get_next_update_time env ;;
  start_clock <- read_clock env ;;
  modify (set_file_size_ (get_file_size env)) ;;
  modify (set_gcodeFile closed_source) ;;
  match source_lines env with
  | None =>
      ret {| success := false;
             cancelled := cancelled default_results;
             message := "Unable to open the source file.";
             progress := progress default_results |}
  | Some lines =>
      modify (set_gcodeFile {| source_is_open := true; lines_read := 0 |}) ;;
      modify (fun w =>
        set_output_file_ (open (target_opens env) (output_file_ w)) w) ;;
      target_is_open <- gets (fun w => is_open (output_file_ w)) ;;
      if negb target_is_open then
        modify (fun w => set_gcodeFile (close_source (gcodeFile w)) w) ;;
        ret {| success := false;
               cancelled := cancelled default_results;
               message := "Unable to open the target file.";
               progress := progress default_results |}
      else process_opened env lines next_update_time start_clock
  end.

(** *** Construction (lines 38-108) *)

(** The constructor, given the engine, the tracker and the histogram that
    the constructors of the members build. *)
Definition construct (resolution_mm : double)
  (g90_g91_influences_extruder allow_3d_arcs allow_dynamic_precision : bool)
  (callback : option (nat -> arc_welder_progress stats -> bool))
  (a : arc) (g : gp) (s : stats) : arc_welder :=
  {| resolution_mm_ := resolution_mm;
     g90_influences_extruder := g90_g91_influences_extruder;
     allow_3d_arcs_ := allow_3d_arcs;
     allow_dynamic_precision_ := allow_dynamic_precision;
     notification_period_seconds := 1;
     progress_callback_ := callback;
     lines_processed_ := 0;
     gcodes_processed_ := 0;
     file_size_ := 0;
     last_gcode_line_written_ := 0;
     points_compressed_ := 0;
     arcs_created_ := 0;
     waiting_for_arc_ := false;
     previous_feedrate_ := double_of_Z (-1);
     previous_is_extruder_relative_ := false;
     current_arc_ := a;
     p_source_position_ := g;
     unwritten_commands_ := [];
     segment_statistics_ := s;
     output_file_ := {| is_open := false; failbit := false; written := [] |};
     gcodeFile := closed_source;
     clock_reads := O;
     callback_calls := O |}.

End Controller.

Arguments arc_welder : clear implicits.

(** * Sample collaborators

    Small implementations of the four interfaces, used to run the controller
    on concrete inputs. *)

Module Sample.

Definition zero_extruder : extruder :=
  {| is_extruding := false; is_retracting := false;
     e_relative := dzero; get_offset_e := dzero |}.

Definition origin : position :=
  {| x := dzero; y := dzero; z := dzero;
     x_offset := dzero; y_offset := dzero; z_offset := dzero;
     x_firmware_offset := dzero; y_firmware_offset := dzero;
     z_firmware_offset := dzero;
     is_relative := false; is_extruder_relative := false;
     f := dzero; feature_type_tag := 0;
     has_xy_position_changed := false;
     get_gcode_x := dzero; get_gcode_y := dzero; get_gcode_z := dzero;
     get_current_extruder := zero_extruder |}.

(** An engine that accepts every point until it holds four of them, and
    calls three points or more a shape. *)
Definition arc : Set := list printer_point.

#[export] Instance engine : SegmentedArc arc := {|
  try_add_point p a :=
    if (List.length a <? 4)%nat then (true, (a ++ [p])%list) else (false, a);
  is_shape a := (3 <=? List.length a)%nat;
  get_num_segments a := Z.of_nat (List.length a);
  get_min_segments _ := 3;
  arc_clear _ := [];
  get_shape_length _ := dzero;
  get_shape_gcode_relative _ _ := "G2 relative";
  get_shape_gcode_absolute _ _ _ := "G2 absolute";
  update_xyz_precision _ a := a;
  update_e_precision _ a := a;
  get_num_firmware_compensations _ := 0;
  get_path_tolerance_percent _ := dzero;
  get_max_radius _ := dzero;
  get_min_arc_segments _ := 0;
  get_mm_per_arc_segment _ := dzero;
  get_xyz_precision _ := 3;
  get_e_precision _ := 5
|}.

(** A tracker that keeps the commands it has seen, newest first.  G0 and G1
    move the xy position, and G1 extrudes; any other command leaves the
    position where it was. *)
Definition history : Set := list (parsed_command * position).

Definition head_position (h : history) : position :=
  match h with
  | (_, p) :: _ => p
  | [] => origin
  end.

Definition moved (cmd : parsed_command) : position :=
  {| x := dzero; y := dzero; z := dzero;
     x_offset := dzero; y_offset := dzero; z_offset := dzero;
     x_firmware_offset := dzero; y_firmware_offset := dzero;
     z_firmware_offset := dzero;
     is_relative := false; is_extruder_relative := false;
     f := dzero; feature_type_tag := 0;
     has_xy_position_changed := is_g1_g2 cmd;
     get_gcode_x := dzero; get_gcode_y := dzero; get_gcode_z := dzero;
     get_current_extruder :=
       {| is_extruding := String.eqb (command cmd) "G1";
          is_retracting := false;
          e_relative := dzero; get_offset_e := dzero |} |}.

Definition line_of (h : history) (length : double) : unwritten_command :=
  match h with
  | (cmd, _) :: _ =>
      {| to_string :=
           if has_length (comment cmd)
           then gcode cmd ++ ";" ++ comment cmd else gcode cmd;
         uc_comment := comment cmd;
         extrusion_length := length |}
  | [] => {| to_string := ""; uc_comment := ""; extrusion_length := length |}
  end.

#[export] Instance tracker : GcodePosition history := {|
  update cmd _ _ _ h := (cmd, moved cmd) :: h;
  undo_update h := List.tl h;
  get_current_position h := head_position h;
  get_previous_position h := head_position (List.tl h);
  make_unwritten_command := line_of
|}.

Definition stats : Set := list (double * bool).

#[export] Instance histogram : SegmentStatistics stats := {|
  stats_update length is_source s := (s ++ [(length, is_source)])%list
|}.

Definition blank : parsed_command :=
  {| command := ""; gcode := ""; comment := ""; is_empty := true;
     is_known_command := false; parameters := [] |}.

(** A parser: the text before the first semicolon is the command, whose
    name is its first two characters, and the text after it the comment. *)
Definition parse (line : string) : parsed_command :=
  let cut :=
    match index 0 ";" line with
    | Some n => n
    | None => String.length line
    end in
  let text := substring 0 cut line in
  {| command := substring 0 2 text;
     gcode := text;
     comment := substring (S cut) (String.length line - S cut) line;
     is_empty := (String.length text =? 0)%nat;
     is_known_command := negb (String.length text =? 0)%nat;
     parameters := [] |}.

#[export] Instance platform : Platform := {|
  is_equal := PrimFloat.eqb;
  get_cartesian_distance _ _ _ _ := double_of_Z 1;
  get_cartesian_distance_3d _ _ _ _ _ _ := double_of_Z 1;
  try_parse_gcode := parse;
  empty_command := blank;
  CLOCKS_PER_SEC := 1000000;
  fixed _ _ := "0";
  decimal _ := "0"
|}.

Definition zero_progress : arc_welder_progress stats :=
  {| percent_complete := dzero; seconds_elapsed := dzero;
     seconds_remaining := dzero; gcodes_processed := 0;
     lines_processed := 0; points_compressed := 0; arcs_created := 0;
     source_file_position := 0; source_file_size := 0;
     target_file_size := 0; compression_ratio := dzero;
     compression_percent := dzero; num_firmware_compensations := 0;
     segment_statistics := [] |}.

Definition new_welder
  (callback : option (nat -> arc_welder_progress stats -> bool))
  : arc_welder arc history stats :=
  construct dzero false false false callback [] [] [].

(** A controller whose target is open, and the controller after some lines
    went through [process_gcode]. *)
Definition opened : arc_welder arc history stats :=
  set_output_file_ (open true (output_file_ (new_welder None)))
    (new_welder None).

Definition after (lines : list string) (w : arc_welder arc history stats)
  : arc_welder arc history stats :=
  fold_left
    (fun w line =>
       match process_gcode (parse line) false false w with
       | Ok (_, w') => w'
       | Fail _ => w
       end)
    lines w.

(** Three moves: with the start, an arc of four points is being built. *)
Definition building : arc_welder arc history stats :=
  after ["G1 a"; "G1 b"; "G1 c"] opened.

(** The same with comments on the moves. *)
Definition commented : arc_welder arc history stats :=
  after ["G1 a;a"; "G1 b;b"; "G1 c;b"] opened.

(** A travel move: an arc of two points has begun. *)
Definition travelled : arc_welder arc history stats :=
  after ["G0 a"] opened.

(** The controller after the pass over [line] that commits the arc. *)
Definition restarted (line : string) (w : arc_welder arc history stats)
  : arc_welder arc history stats :=
  match process_gcode_pass (parse line) false false w with
  | Ok (_, w') => w'
  | Fail _ => w
  end.

(** Callbacks: one that says no at its second call, which in a short run is
    the final report, and one that says no at once. *)
Definition stop_at_end (n : nat) (_ : arc_welder_progress stats) : bool :=
  (n =? 0)%nat.

Definition stop_at_once (n : nat) (_ : arc_welder_progress stats) : bool :=
  false.

(** A source file with the given lines and a target that opens. *)
Definition files (lines : list string) : environment :=
  {| source_lines := Some lines;
     target_opens := true;
     get_file_size := 100;
     tellg n := Z.of_nat n;
     clock n := Z.of_nat n |}.

(** The three entries in the buffer of [building]. *)
Definition move (text : string) : unwritten_command :=
  {| to_string := text; uc_comment := ""; extrusion_length := double_of_Z 1 |}.

(** The controller of [building] once [getline] has taken one more line. *)
Definition one_line_later : arc_welder arc history stats :=
  set_gcodeFile
    {| source_is_open := source_is_open (gcodeFile building);
       lines_read := S (lines_read (gcodeFile building)) |} building.

(** A source file with the given lines, a target that opens, and a clock
    that runs fast: every report inside the loop is due. *)
Definition hurried (lines : list string) : environment :=
  {| source_lines := Some lines;
     target_opens := true;
     get_file_size := 100;
     tellg n := Z.of_nat n;
     clock n := Z.of_nat n * 10000000 |}.

(** An empty source. *)
Definition empty_file : environment :=
  {| source_lines := Some [];
     target_opens := true;
     get_file_size := 0;
     tellg n := Z.of_nat n;
     clock n := Z.of_nat n |}.

Definition six_moves : list string :=
  ["G1 a"; "G1 b"; "G1 c"; "G1 d"; "G1 e"; "G1 f"].

(** The controller of [building] with a target stream that has failed. *)
Definition failed : arc_welder arc history stats :=
  set_output_file_
    {| is_open := true; failbit := true;
       written := written (output_file_ building) |} building.

(** Three moves, the first and the last with the same comment. *)
Definition labelled : arc_welder arc history stats :=
  after ["G1 a;c"; "G1 b"; "G1 c;c"] opened.

(** A controller with the callback [stop_at_once], whose target is open and
    which has processed 999 lines. *)
Definition refusing : arc_welder arc history stats :=
  set_lines_processed_ 999
    (set_output_file_
       (open true (output_file_ (new_welder (Some stop_at_once))))
       (new_welder (Some stop_at_once))).

Definition missing_source : environment :=
  {| source_lines := None;
     target_opens := true;
     get_file_size := 0;
     tellg n := Z.of_nat n;
     clock n := Z.of_nat n |}.

Definition locked_target : environment :=
  {| source_lines := Some ["G1 a"];
     target_opens := false;
     get_file_size := 5;
     tellg n := Z.of_nat n;
     clock n := Z.of_nat n |}.

(** A whole run, its result and the controller it leaves. *)
Definition run (lines : list string)
  (callback : option (nat -> arc_welder_progress stats -> bool))
  : res (arc_welder_results stats * arc_welder arc history stats) :=
  process zero_progress (files lines) (new_welder callback).

Definition result_of (lines : list string)
  (callback : option (nat -> arc_welder_progress stats -> bool))
  : arc_welder_results stats :=
  match run lines callback with
  | Ok (r, _) => r
  | Fail _ => default_results zero_progress
  end.

Definition left_by (lines : list string)
  (callback : option (nat -> arc_welder_progress stats -> bool))
  : arc_welder arc history stats :=
  match run lines callback with
  | Ok (_, w) => w
  | Fail _ => new_welder callback
  end.

End Sample.


(** * What the operations amount to

    Closed forms of the loops, used to state the properties below. *)

Section Effects.

Context {arc gp stats : Type}.
Context {engine : SegmentedArc arc}.
Context {tracker : GcodePosition gp}.
Context {histogram : SegmentStatistics stats}.
Context {platform : Platform}.

Local Abbreviation state := (arc_welder arc gp stats).

(** The text of a flush: every line, in order, each followed by a newline. *)
Definition lines_text (l : list unwritten_command) (start : string) : string :=
  fold_left (fun text p => text ++ to_string p ++ newline) l start.

(** The statistics after a flush. *)
Definition flush_statistics (l : list unwritten_command) (s : stats) : stats :=
  fold_left
    (fun s p =>
       if PrimFloat.ltb dzero (extrusion_length p)
       then stats_update (extrusion_length p) false s else s)
    l s.

(** The controller once every unwritten command has been written. *)
Definition flushed (w : state) : state :=
  set_output_file_
    (put (flushed_lines (lines_text (unwritten_commands_ w) ""))
       (output_file_ w))
    (set_segment_statistics_
       (flush_statistics (unwritten_commands_ w) (segment_statistics_ w))
       (set_unwritten_commands_ [] w)).

(** The comment built from the comments of the absorbed entries. *)
Definition arc_comment (comments : list string) : string :=
  fold_left add_comment comments "".

(** The controller once the current arc has been committed: the entries in
    [absorbed] are dropped, the tracker goes back one step, the entries in
    [kept] are written, then the arc. *)
Definition committed (current_feedrate : double)
  (kept absorbed : list unwritten_command) (w : state) : state :=
  let w1 :=
    set_p_source_position_ (undo_update (p_source_position_ w))
      (set_unwritten_commands_ kept w) in
  let gcode :=
    arc_gcode current_feedrate (arc_comment (map uc_comment absorbed)) w1 in
  let w2 := flushed w1 in
  let w3 :=
    set_segment_statistics_
      (stats_update (get_shape_length (current_arc_ w2)) false
         (segment_statistics_ w2)) w2 in
  let w4 :=
    set_output_file_
      (put (arc_line (get_num_segments (current_arc_ w3)) (gcode ++ newline))
         (output_file_ w3)) w3 in
  set_current_arc_ (arc_clear (current_arc_ w4)) (set_waiting_for_arc_ false w4).

(** The controller after lines 386-436 of [process_gcode]: the tracker has
    the command, the source statistics have the move, and the engine has the
    precision of the parameters. *)
Definition prepared (cmd : parsed_command) (is_reprocess : bool) (w : state)
  : state :=
  let w0 :=
    set_p_source_position_
      (update cmd (lines_processed_ w) (gcodes_processed_ w) (-1)
         (p_source_position_ w)) w in
  let p_cur_pos := get_current_position (p_source_position_ w0) in
  let p_pre_pos := get_previous_position (p_source_position_ w0) in
  let extruder_current := get_current_extruder p_cur_pos in
  let movement_length_mm :=
    movement_length (allow_3d_arcs_ w) p_cur_pos p_pre_pos in
  let w1 :=
    if has_xy_position_changed p_cur_pos
       && (is_extruding extruder_current || is_retracting extruder_current)
       && PrimFloat.ltb dzero movement_length_mm && negb is_reprocess
    then set_segment_statistics_
           (stats_update movement_length_mm true (segment_statistics_ w0)) w0
    else w0 in
  if allow_dynamic_precision_ w && is_g1_g2 cmd
  then set_current_arc_
         (fold_left update_precision (parameters cmd) (current_arc_ w1)) w1
  else w1.

(** The length [process_gcode] measures for the command. *)
Definition measured (cmd : parsed_command) (is_reprocess : bool) (w : state)
  : double :=
  let g := p_source_position_ (prepared cmd is_reprocess w) in
  movement_length (allow_3d_arcs_ w) (get_current_position g)
    (get_previous_position g).

(** The counters once an arc is counted (lines 604-605). *)
Definition counted (w : state) : state :=
  set_arcs_created_ (int_add (arcs_created_ w) 1)
    (set_points_compressed_
       (int_add (points_compressed_ w)
          (int_sub (get_num_segments (current_arc_ w)) 1)) w).

(** The controller once the current arc is given up. *)
Definition aborted (w : state) : state :=
  set_current_arc_ (arc_clear (current_arc_ w)) (set_waiting_for_arc_ false w).

(** The controller once the command of the tracker joined the buffer. *)
Definition deferred (movement_length_mm : double) (w : state) : state :=
  set_unwritten_commands_
    (array_list.push_back
       (make_unwritten_command (p_source_position_ w) movement_length_mm)
       (unwritten_commands_ w)) w.

(** The sizes of the arcs a stream received, oldest first. *)
Definition arcs_emitted (o : ofstream) : list Z :=
  flat_map (fun c => match c with arc_line n _ => [n] | _ => [] end)
    (written o).

Definition absorbed_points (sizes : list Z) : Z :=
  fold_right (fun n total => (n - 1) + total) 0 sizes.

(** The counters agree with the arcs in the target: they are the two sums,
    held in an [int]. *)
Definition counters_consistent (w : state) : Prop :=
  points_compressed_ w
  = int_wrap (absorbed_points (arcs_emitted (output_file_ w)))
  /\ arcs_created_ w
     = int_wrap (Z.of_nat (List.length (arcs_emitted (output_file_ w)))).

(** The counters and the arcs of the target are those of [w]. *)
Definition same_counts (w w' : state) : Prop :=
  points_compressed_ w' = points_compressed_ w
  /\ arcs_created_ w' = arcs_created_ w
  /\ arcs_emitted (output_file_ w') = arcs_emitted (output_file_ w)
  /\ good (output_file_ w') = good (output_file_ w).

(** An arc line as the specification describes it (sections 4.1 and 4.2):
    the G2/G3 text of the engine for the arc, in the relative or the
    absolute form, then [";"] and the comment when there is one, then the
    end of the line.  Nothing of the controller enters this definition. *)
Definition spec_arc_line (relative : bool) (e f : double) (comment : string)
  (a : arc) : string :=
  let gcode :=
    if relative then get_shape_gcode_relative f a
    else get_shape_gcode_absolute e f a in
  (if (0 <? String.length comment)%nat then gcode ++ ";" ++ comment
   else gcode) ++ newline.

(** A chunk of the target is genuine when it is not an arc line, or is the
    arc line of a shape with the number of points it is recorded with. *)
Definition genuine (c : chunk) : Prop :=
  match c with
  | arc_line n text =>
      exists (a : arc) relative e f comment,
        is_shape a = true
        /\ get_min_segments a <= get_num_segments a
        /\ n = get_num_segments a
        /\ text = spec_arc_line relative e f comment a
  | _ => True
  end.

(** The invariant of a run: the target takes what is written to it, the
    counters agree with the arcs it received, and its arc lines are
    genuine. *)
Definition run_invariant (w : state) : Prop :=
  counters_consistent w
  /\ good (output_file_ w) = true
  /\ Forall genuine (written (output_file_ w)).

(** The buffer holds the entries [write_arc_gcodes] would take from it. *)
Definition enough_buffered (w : state) : Prop :=
  (Z.to_nat (get_num_segments (current_arc_ w) - 1)
   <= List.length (unwritten_commands_ w))%nat.

End Effects.

(** Every run of [c] that returns relates the state before to the state
    after. *)
Definition preserves {S : Type} (R : S -> S -> Prop) {A} (c : M S A) : Prop :=
  forall s a s', c s = Ok (a, s') -> R s s'.

(** The relation of an invariant: it holds after if it held before. *)
Definition keeps {S : Type} (I : S -> Prop) (s s' : S) : Prop := I s -> I s'.

(** The comment section 4.2 describes: the distinct comments that are not
    empty, in order of first appearance, joined by [" - "]. *)
Fixpoint distinct (seen l : list string) : list string :=
  match l with
  | [] => []
  | c :: l' =>
      if existsb (String.eqb c) seen then distinct seen l'
      else c :: distinct (c :: seen) l'
  end.

Definition distinct_comments (comments : list string) : string :=
  String.concat " - " (distinct [] (filter has_length comments)).

(** * What a pass and a run leave alone, and what they produce *)

Section Observations.
Context {arc gp stats : Type}.
Context {engine : SegmentedArc arc}.
Context {tracker : GcodePosition gp}.
Context {histogram : SegmentStatistics stats}.
Context {platform : Platform}.
Local Abbreviation state := (arc_welder arc gp stats).

(** The members [process_gcode] never assigns. *)
Definition untouched (w w' : state) : Prop :=
  resolution_mm_ w' = resolution_mm_ w
  /\ g90_influences_extruder w' = g90_influences_extruder w
  /\ allow_3d_arcs_ w' = allow_3d_arcs_ w
  /\ allow_dynamic_precision_ w' = allow_dynamic_precision_ w
  /\ notification_period_seconds w' = notification_period_seconds w
  /\ progress_callback_ w' = progress_callback_ w
  /\ lines_processed_ w' = lines_processed_ w
  /\ gcodes_processed_ w' = gcodes_processed_ w
  /\ file_size_ w' = file_size_ w
  /\ last_gcode_line_written_ w' = last_gcode_line_written_ w
  /\ gcodeFile w' = gcodeFile w
  /\ clock_reads w' = clock_reads w
  /\ callback_calls w' = callback_calls w.

(** The target only grew from [w] to [w'], by genuine chunks, and its
    stream is in the state it was in. *)
Definition appends (w w' : state) : Prop :=
  is_open (output_file_ w') = is_open (output_file_ w)
  /\ failbit (output_file_ w') = failbit (output_file_ w)
  /\ exists suffix,
       written (output_file_ w') = (written (output_file_ w) ++ suffix)%list
       /\ Forall genuine suffix.

(** The controller after lines 643-653, from the controller [w] that
    reached them. *)
Definition after_pass (arc_added : bool) (movement_length_mm : double)
  (w : state) : state :=
  let w1 :=
    if waiting_for_arc_ w || negb arc_added
    then deferred movement_length_mm w else w in
  if waiting_for_arc_ w then w1 else flushed w1.

(** The controller is steady from [w] to [w']: the members outside the
    state machine are as they were, and the target only grew. *)
Definition steady (w w' : state) : Prop := untouched w w' /\ appends w w'.

(** The value of the condition of lines 441-462 when [process_gcode] reaches
    it with [cmd]. *)
Definition eligible (cmd : parsed_command) (is_end is_reprocess : bool)
  (w : state) : bool :=
  let w2 := prepared cmd is_reprocess w in
  arc_eligible w2 cmd is_end (get_current_position (p_source_position_ w2))
    (get_previous_position (p_source_position_ w2)).

(** The position before the command, once the tracker has the command. *)
Definition previous_position (cmd : parsed_command) (is_reprocess : bool)
  (w : state) : position :=
  get_previous_position (p_source_position_ (prepared cmd is_reprocess w)).

(** The two points [process_gcode] offers to the engine (lines 464 and
    474). *)
Definition current_point (cmd : parsed_command) (is_reprocess : bool)
  (w : state) : printer_point :=
  point_at
    (get_current_position (p_source_position_ (prepared cmd is_reprocess w)))
    (measured cmd is_reprocess w).

Definition start_point (cmd : parsed_command) (is_reprocess : bool)
  (w : state) : printer_point :=
  point_at (previous_position cmd is_reprocess w) dzero.

(** The entry of the buffer built for the command (line 646). *)
Definition entry_of (cmd : parsed_command) (is_reprocess : bool) (w : state)
  : unwritten_command :=
  make_unwritten_command (p_source_position_ (prepared cmd is_reprocess w))
    (measured cmd is_reprocess w).

(** The text written for one entry of the buffer (line 759). *)
Definition line_text (p : unwritten_command) : string :=
  to_string p ++ newline.

(** The text of a flush of [l]. *)
Definition flush_text (l : list unwritten_command) : string :=
  String.concat "" (map line_text l).

(** The controller when [process] has opened both files (lines 212-251):
    the counters are reset, the clock has been read twice, the source is at
    its first line and the target is empty. *)
Definition started (env : environment) (w : state) : state :=
  set_output_file_ {| is_open := true; failbit := false; written := [] |}
    (set_gcodeFile {| source_is_open := true; lines_read := 0 |}
       (set_gcodeFile closed_source
          (set_file_size_ (get_file_size env)
             (set_clock_reads (S (S (clock_reads w)))
                (set_clock_reads (S (clock_reads w))
                   (set_waiting_for_arc_ false
                      (set_arcs_created_ 0
                         (set_points_compressed_ 0
                            (set_file_size_ 0
                               (set_last_gcode_line_written_ 0
                                  (set_gcodes_processed_ 0
                                     (set_lines_processed_ 0 w)))))))))))).

(** The lines of a source in which the parser finds a command. *)
Definition gcode_lines (lines : list string) : list string :=
  filter (fun line => has_length (gcode (try_parse_gcode line))) lines.

(** What the loop and the reports leave alone: the callback, the size of
    the source, and what the target already holds. *)
Definition carries_on (w w' : state) : Prop :=
  progress_callback_ w' = progress_callback_ w
  /\ file_size_ w' = file_size_ w
  /\ appends w w'.

(** The members a report and a call of the callback leave alone. *)
Definition reported (w w' : state) : Prop :=
  lines_processed_ w' = lines_processed_ w
  /\ gcodes_processed_ w' = gcodes_processed_ w
  /\ points_compressed_ w' = points_compressed_ w
  /\ arcs_created_ w' = arcs_created_ w
  /\ progress_callback_ w' = progress_callback_ w
  /\ file_size_ w' = file_size_ w
  /\ output_file_ w' = output_file_ w
  /\ gcodeFile w' = gcodeFile w
  /\ unwritten_commands_ w' = unwritten_commands_ w
  /\ waiting_for_arc_ w' = waiting_for_arc_ w
  /\ current_arc_ w' = current_arc_ w.


(** The comment of an arc, said on the list of comments and not by the loop
    of the code: the comments are taken in order; one is chosen when it is
    not empty and differs from the text accumulated so far, which is the
    chosen comments joined by [" - "]. *)
Fixpoint chosen_comments (chosen comments : list string) : list string :=
  match comments with
  | [] => chosen
  | c :: rest =>
      if (0 <? String.length c)%nat
         && negb (String.eqb c (String.concat " - " chosen))
      then chosen_comments (chosen ++ [c]) rest
      else chosen_comments chosen rest
  end.

Definition spec_arc_comment (comments : list string) : string :=
  String.concat " - " (chosen_comments [] comments).

(** The feedrate [write_arc_gcodes] passes to the engine (lines 672-674). *)
Definition arc_feedrate (current_feedrate : double) (w : state) : double :=
  if PrimFloat.ltb dzero (previous_feedrate_ w)
     && PrimFloat.eqb (previous_feedrate_ w) current_feedrate
  then dzero else current_feedrate.

(** The offset of the extruder once the tracker is rolled back (line
    683). *)
Definition arc_offset_e (w : state) : double :=
  get_offset_e
    (get_current_extruder
       (get_current_position (undo_update (p_source_position_ w)))).

(** The controller of [process_lines] when it has counted a line and is
    about to pass its command to [process_gcode] (lines 264-286). *)
Definition line_counted (line : string) (w : state) : state :=
  let w1 :=
    set_lines_processed_ (int_add (lines_processed_ w) 1)
      (set_gcodeFile
         {| source_is_open := source_is_open (gcodeFile w);
            lines_read := S (lines_read (gcodeFile w)) |} w) in
  if has_length (gcode (try_parse_gcode line))
  then set_gcodes_processed_ (int_add (gcodes_processed_ w1) 1) w1
  else w1.

End Observations.

(** * Properties *)

(** ** The monad *)

Lemma bind_ok {S A B} (c : M S A) (k : A -> M S B) s a s' :
  c s = Ok (a, s') -> bind c k s = k a s'.
Proof. intros H. unfold bind. now rewrite H. Qed.

Lemma bind_fail {S A B} (c : M S A) (k : A -> M S B) s e :
  c s = Fail e -> bind c k s = Fail e.
Proof. intros H. unfold bind. now rewrite H. Qed.

Lemma bind_inv {S A B} (c : M S A) (k : A -> M S B) s b s2 :
  bind c k s = Ok (b, s2) ->
  exists a s1, c s = Ok (a, s1) /\ k a s1 = Ok (b, s2).
Proof.
  unfold bind. destruct (c s) as [[a s1]|e]; [|discriminate].
  intros H. now exists a, s1.
Qed.

(** Unfolding of the straight-line combinators. *)
Ltac run := cbv beta delta [bind ret gets modify when throw] iota.

(** ** The commit buffer *)

Module array_list_facts.
Import array_list.

Lemma pop_back_app {A} (l : list A) (a : A) : pop_back (l ++ [a]) = Ok (a, l).
Proof.
  induction l as [|b l IH]; [reflexivity|].
  change ((b :: l) ++ [a])%list with (b :: (l ++ [a]))%list.
  cbn [pop_back]. rewrite IH.
  destruct (l ++ [a])%list eqn:E; [|reflexivity].
  now destruct l.
Qed.

Lemma pop_back_nil {A} : pop_back (@nil A) = Fail exception_thrown.
Proof. reflexivity. Qed.

Lemma pop_back_cases {A} (l : list A) :
  (l = [] /\ pop_back l = Fail exception_thrown)
  \/ exists l' a, l = (l' ++ [a])%list /\ pop_back l = Ok (a, l').
Proof.
  induction l as [|b l0 _] using rev_ind; [now left|].
  right. exists l0, b. split; [reflexivity|apply pop_back_app].
Qed.

Lemma index_app_r {A} (pre suf : list A) (i : nat) (a : A) :
  nth_error suf i = Some a ->
  index (pre ++ suf) (Z.of_nat (List.length pre) + Z.of_nat i) = Ok a.
Proof.
  intros H. unfold index.
  destruct (Z.ltb_spec (Z.of_nat (List.length pre) + Z.of_nat i) 0); [lia|].
  replace (Z.to_nat (Z.of_nat (List.length pre) + Z.of_nat i))
    with (List.length pre + i)%nat by lia.
  rewrite nth_error_app2 by lia.
  replace (List.length pre + i - List.length pre)%nat with i by lia.
  now rewrite H.
Qed.
End array_list_facts.

(** ** The writers *)

Section Writers.

Context {arc gp stats : Type}.
Context {engine : SegmentedArc arc}.
Context {tracker : GcodePosition gp}.
Context {histogram : SegmentStatistics stats}.
Context {platform : Platform}.

Local Abbreviation state := (arc_welder arc gp stats).
Implicit Type w : state.

Lemma write_unwritten_loop_flushes (l : list unwritten_command) :
  forall text w,
    unwritten_commands_ w = l ->
    write_unwritten_loop (List.length l) text w
    = Ok (lines_text l text,
          set_segment_statistics_
            (flush_statistics l (segment_statistics_ w))
            (set_unwritten_commands_ [] w)).
Proof.
  induction l as [|p l IH]; intros text w Hl.
  - destruct w; cbn in *. subst. reflexivity.
  - cbn [List.length write_unwritten_loop]. run. rewrite Hl.
    cbn [array_list.pop_front lines_text flush_statistics fold_left].
    destruct (PrimFloat.ltb dzero (extrusion_length p));
      rewrite IH by reflexivity; reflexivity.
Qed.

Lemma write_unwritten_gcodes_to_file_flushes w :
  write_unwritten_gcodes_to_file w
  = Ok (array_list.count (unwritten_commands_ w), flushed w).
Proof.
  unfold write_unwritten_gcodes_to_file. run.
  unfold array_list.count at 1. rewrite Nat2Z.id.
  rewrite (write_unwritten_loop_flushes (unwritten_commands_ w)) by reflexivity.
  reflexivity.
Qed.

Lemma comment_loop_app (absorbed : list unwritten_command) :
  forall kept comment,
    comment_loop (List.length absorbed) (Z.of_nat (List.length kept)) comment
      (kept ++ absorbed)
    = Ok (fold_left add_comment (map uc_comment absorbed) comment).
Proof.
  induction absorbed as [|u absorbed IH]; intros kept comment; [reflexivity|].
  cbn [List.length comment_loop map fold_left].
  pose proof (array_list_facts.index_app_r kept (u :: absorbed) 0 u eq_refl)
    as Hu.
  rewrite Z.add_0_r in Hu. rewrite Hu.
  replace (Z.of_nat (List.length kept) + 1)
    with (Z.of_nat (List.length (kept ++ [u]))) by (rewrite length_app; cbn; lia).
  replace (kept ++ u :: absorbed)%list with ((kept ++ [u]) ++ absorbed)%list
    by (now rewrite <- app_assoc).
  apply IH.
Qed.

Lemma get_comment_for_arc_absorbed w kept absorbed :
  unwritten_commands_ w = (kept ++ absorbed)%list ->
  List.length absorbed = Z.to_nat (get_num_segments (current_arc_ w) - 1) ->
  get_comment_for_arc w = Ok (arc_comment (map uc_comment absorbed), w).
Proof.
  intros Hl Hn. unfold get_comment_for_arc, array_list.count.
  rewrite Hl, length_app.
  set (n := get_num_segments (current_arc_ w)) in *.
  destruct (Z.le_gt_cases 0 (n - 1)) as [Hpos|Hneg].
  - replace (Z.of_nat (List.length kept + List.length absorbed) - (n - 1))
      with (Z.of_nat (List.length kept)) by lia.
    replace (Z.to_nat
               (Z.of_nat (List.length kept + List.length absorbed)
                - Z.of_nat (List.length kept)))
      with (List.length absorbed) by lia.
    now rewrite comment_loop_app.
  - assert (absorbed = []) as -> by (destruct absorbed; [easy|cbn in Hn; lia]).
    replace (Z.to_nat _) with O by (cbn [List.length]; lia).
    reflexivity.
Qed.

Lemma pop_back_loop_app (absorbed : list unwritten_command) :
  forall kept w,
    unwritten_commands_ w = (kept ++ absorbed)%list ->
    pop_back_loop (List.length absorbed) w
    = Ok (tt, set_unwritten_commands_ kept w).
Proof.
  induction absorbed as [|u absorbed IH] using rev_ind; intros kept w Hl.
  - rewrite app_nil_r in Hl. destruct w; cbn in *. now subst.
  - rewrite length_app, Nat.add_comm. cbn [List.length Nat.add pop_back_loop].
    run. rewrite Hl, app_assoc, array_list_facts.pop_back_app.
    now rewrite (IH kept) by reflexivity.
Qed.

Lemma write_arc_gcodes_commits is_extruder_relative current_feedrate w
  kept absorbed :
  unwritten_commands_ w = (kept ++ absorbed)%list ->
  List.length absorbed = Z.to_nat (get_num_segments (current_arc_ w) - 1) ->
  write_arc_gcodes is_extruder_relative current_feedrate w
  = Ok (tt, committed current_feedrate kept absorbed w).
Proof.
  intros Hl Hn. unfold write_arc_gcodes.
  rewrite (bind_ok _ _ _ _ _ (get_comment_for_arc_absorbed w kept absorbed Hl Hn)).
  run. rewrite <- Hn, (pop_back_loop_app absorbed kept w Hl).
  rewrite write_unwritten_gcodes_to_file_flushes.
  destruct w. vm_compute. reflexivity.
Qed.

Lemma pop_back_loop_short n :
  forall w,
    (List.length (unwritten_commands_ w) < n)%nat ->
    pop_back_loop n w = Fail exception_thrown.
Proof.
  induction n as [|n IH]; intros w Hlen; [lia|].
  cbn [pop_back_loop]. run.
  destruct (array_list_facts.pop_back_cases (unwritten_commands_ w))
    as [[_ Hpop]|(l & a & Hl & Hpop)]; rewrite Hpop; [reflexivity|].
  apply IH. cbn. rewrite Hl, length_app in Hlen. cbn in Hlen. lia.
Qed.

Lemma get_comment_for_arc_reads w comment w' :
  get_comment_for_arc w = Ok (comment, w') -> w' = w.
Proof.
  unfold get_comment_for_arc. destruct (comment_loop _ _ _ _); [|discriminate].
  now intros [= _ <-].
Qed.

(** A commit that returns took the last [N - 1] entries of the buffer. *)
Lemma write_arc_gcodes_inv is_extruder_relative current_feedrate w u w' :
  write_arc_gcodes is_extruder_relative current_feedrate w = Ok (u, w') ->
  exists kept absorbed,
    unwritten_commands_ w = (kept ++ absorbed)%list
    /\ List.length absorbed
       = Z.to_nat (get_num_segments (current_arc_ w) - 1)
    /\ w' = committed current_feedrate kept absorbed w.
Proof.
  intros H.
  set (k := Z.to_nat (get_num_segments (current_arc_ w) - 1)).
  set (l := unwritten_commands_ w).
  destruct (le_lt_dec k (List.length l)) as [Hle|Hlt].
  - exists (firstn (List.length l - k) l), (skipn (List.length l - k) l).
    assert (l = (firstn (List.length l - k) l ++ skipn (List.length l - k) l)%list)
      as Hl by (now rewrite firstn_skipn).
    assert (List.length (skipn (List.length l - k) l) = k) as Hk
      by (rewrite length_skipn; lia).
    rewrite (write_arc_gcodes_commits _ _ _ _ _ Hl Hk) in H.
    injection H as _ <-. auto.
  - exfalso. unfold write_arc_gcodes in H.
    apply bind_inv in H as (comment & w0 & Hc & H).
    apply get_comment_for_arc_reads in Hc as ->.
    revert H. run. fold k. now rewrite (pop_back_loop_short k w Hlt).
Qed.

End Writers.

(** ** One pass over a command *)

(** Projections of assignments. *)
Ltac fields :=
  cbn [
    resolution_mm_ g90_influences_extruder allow_3d_arcs_
    allow_dynamic_precision_ notification_period_seconds progress_callback_
    lines_processed_ gcodes_processed_ file_size_ last_gcode_line_written_
    points_compressed_ arcs_created_ waiting_for_arc_ previous_feedrate_
    previous_is_extruder_relative_ current_arc_ p_source_position_
    unwritten_commands_ segment_statistics_ output_file_ gcodeFile
    clock_reads callback_calls set_lines_processed_ set_gcodes_processed_
    set_file_size_ set_last_gcode_line_written_ set_points_compressed_
    set_arcs_created_ set_waiting_for_arc_ set_previous_feedrate_
    set_previous_is_extruder_relative_ set_current_arc_
    set_p_source_position_ set_unwritten_commands_ set_segment_statistics_
    set_output_file_ set_gcodeFile set_clock_reads set_callback_calls
  ] in *.

Section Pass.

Context {arc gp stats : Type}.
Context {engine : SegmentedArc arc}.
Context {tracker : GcodePosition gp}.
Context {histogram : SegmentStatistics stats}.
Context {platform : Platform}.

Local Abbreviation state := (arc_welder arc gp stats).
Implicit Type w : state.

Lemma extend_arc_building p_cur_pos p_pre_pos movement_length_mm w :
  waiting_for_arc_ w = true ->
  extend_arc p_cur_pos p_pre_pos movement_length_mm w
  = Ok (fst (try_add_point (point_at p_cur_pos movement_length_mm)
               (current_arc_ w)),
        set_current_arc_
          (snd (try_add_point (point_at p_cur_pos movement_length_mm)
                  (current_arc_ w))) w).
Proof.
  intros Hw. unfold extend_arc, add_point. run. rewrite Hw. cbn [negb].
  destruct (try_add_point _ _) as [added a]. cbn [fst snd].
  now rewrite andb_false_r.
Qed.

Lemma extend_arc_idle p_cur_pos p_pre_pos movement_length_mm w :
  waiting_for_arc_ w = false ->
  extend_arc p_cur_pos p_pre_pos movement_length_mm w
  = let w1 :=
      flushed
        (set_previous_is_extruder_relative_
           (is_extruder_relative p_pre_pos) w) in
    let start :=
      snd (try_add_point (point_at p_pre_pos dzero) (current_arc_ w)) in
    let added :=
      try_add_point (point_at p_cur_pos movement_length_mm) start in
    Ok (fst added,
        if fst added
        then set_previous_feedrate_ (f p_pre_pos)
               (set_waiting_for_arc_ true (set_current_arc_ (snd added) w1))
        else set_current_arc_ (snd added) w1).
Proof.
  intros Hw. unfold extend_arc, add_point. run. rewrite Hw. cbn [negb].
  rewrite write_unwritten_gcodes_to_file_flushes.
  cbv zeta.
  change (current_arc_
            (flushed
               (set_previous_is_extruder_relative_
                  (is_extruder_relative p_pre_pos) w)))
    with (current_arc_ w).
  destruct (try_add_point (point_at p_pre_pos dzero) (current_arc_ w))
    as [added0 start].
  cbn [fst snd].
  change (current_arc_ (set_current_arc_ start _)) with start.
  destruct (try_add_point (point_at p_cur_pos movement_length_mm) start)
    as [[|] a]; cbn [fst snd andb];
    destruct w; vm_compute; reflexivity.
Qed.

Lemma commit_or_abort_skips cmd is_end arc_added p_pre_pos w :
  arc_added = true \/ is_blank cmd = true ->
  commit_or_abort cmd is_end arc_added p_pre_pos w = Ok (None, w).
Proof.
  unfold commit_or_abort.
  intros [->| ->]; [reflexivity|]. now rewrite andb_false_r.
Qed.

Lemma commit_or_abort_commits cmd is_end p_pre_pos w kept absorbed :
  is_blank cmd = false ->
  get_min_segments (current_arc_ w) <= get_num_segments (current_arc_ w) ->
  waiting_for_arc_ w = true ->
  is_shape (current_arc_ w) = true ->
  unwritten_commands_ w = (kept ++ absorbed)%list ->
  List.length absorbed = Z.to_nat (get_num_segments (current_arc_ w) - 1) ->
  commit_or_abort cmd is_end false p_pre_pos w
  = Ok (Some (if is_end then returned 0 else reprocess),
        committed (f p_pre_pos) kept absorbed (counted w)).
Proof.
  intros Hb Hmin Hw Hs Hl Hn. unfold commit_or_abort.
  rewrite Hb. cbn [negb andb]. run.
  destruct (Z.ltb_spec (get_num_segments (current_arc_ w))
              (get_min_segments (current_arc_ w))); [lia|].
  rewrite Hw, Hs.
  change (set_arcs_created_ _ _) with (counted w).
  rewrite (write_arc_gcodes_commits _ _ (counted w) kept absorbed Hl Hn).
  now destruct is_end.
Qed.

Lemma commit_or_abort_some cmd is_end arc_added p_pre_pos w r w' :
  commit_or_abort cmd is_end arc_added p_pre_pos w = Ok (Some r, w') ->
  arc_added = false
  /\ waiting_for_arc_ w = true
  /\ is_shape (current_arc_ w) = true
  /\ r = (if is_end then returned 0 else reprocess)
  /\ exists kept absorbed,
       unwritten_commands_ w = (kept ++ absorbed)%list
       /\ List.length absorbed
          = Z.to_nat (get_num_segments (current_arc_ w) - 1)
       /\ w' = committed (f p_pre_pos) kept absorbed (counted w).
Proof.
  unfold commit_or_abort.
  destruct arc_added; [discriminate|].
  destruct (is_blank cmd); [discriminate|]. cbn [negb andb]. run.
  destruct (_ <? _); [discriminate|].
  destruct (waiting_for_arc_ w) eqn:Hw; [|discriminate].
  destruct (is_shape (current_arc_ w)) eqn:Hs; [|discriminate].
  change (set_arcs_created_ _ _) with (counted w).
  destruct (write_arc_gcodes _ _ _) as [[[] w1]|e] eqn:Hc; [|discriminate].
  apply write_arc_gcodes_inv in Hc as (kept & absorbed & Hl & Hn & ->).
  intros H. repeat split; try reflexivity.
  - destruct is_end; now injection H as <- _.
  - exists kept, absorbed. repeat split; try assumption.
    destruct is_end; now injection H as _ <-.
Qed.

Lemma commit_or_abort_none cmd is_end arc_added p_pre_pos w w' :
  commit_or_abort cmd is_end arc_added p_pre_pos w = Ok (None, w') ->
  (w' = w \/ (arc_added = false /\ w' = aborted w))
  /\ (arc_added = false -> is_blank cmd = false ->
      waiting_for_arc_ w' = false).
Proof.
  unfold commit_or_abort.
  destruct arc_added; [intros [= <-]; split; [now left|discriminate]|].
  destruct (is_blank cmd);
    [intros [= <-]; split; [now left|discriminate]|].
  cbn [negb andb]. run.
  destruct (_ <? _).
  { intros [= <-]. split; [right; split|]; reflexivity. }
  destruct (waiting_for_arc_ w) eqn:Hw.
  - destruct (is_shape (current_arc_ w)).
    + destruct (write_arc_gcodes _ _ _) as [[[] w1]|e]; [|discriminate].
      destruct is_end; discriminate.
    + intros [= <-].
      split; [right; split; [|destruct w]; reflexivity|reflexivity].
  - intros [= <-]. split; [now left|auto].
Qed.

Lemma defer_command_runs arc_added movement_length_mm w :
  defer_command arc_added movement_length_mm w
  = Ok (0,
        let w1 :=
          if waiting_for_arc_ w || negb arc_added
          then deferred movement_length_mm w else w in
        if waiting_for_arc_ w then w1 else flushed w1).
Proof.
  unfold defer_command. run.
  destruct (waiting_for_arc_ w) eqn:Hw, arc_added; cbn [orb negb];
    try rewrite write_unwritten_gcodes_to_file_flushes; try reflexivity;
    unfold deferred; cbn; rewrite Hw; reflexivity.
Qed.

Lemma process_gcode_pass_unfold cmd is_end is_reprocess w :
  process_gcode_pass cmd is_end is_reprocess w
  = let w2 := prepared cmd is_reprocess w in
    let p_cur_pos := get_current_position (p_source_position_ w2) in
    let p_pre_pos := get_previous_position (p_source_position_ w2) in
    let movement_length_mm :=
      movement_length (allow_3d_arcs_ w) p_cur_pos p_pre_pos in
    match
      (if arc_eligible w2 cmd is_end p_cur_pos p_pre_pos
       then extend_arc p_cur_pos p_pre_pos movement_length_mm
       else ret false) w2
    with
    | Ok (arc_added, w3) =>
        match commit_or_abort cmd is_end arc_added p_pre_pos w3 with
        | Ok (Some r, w4) => Ok (r, w4)
        | Ok (None, w4) =>
            match defer_command arc_added movement_length_mm w4 with
            | Ok (lines_written, w5) => Ok (returned lines_written, w5)
            | Fail e => Fail e
            end
        | Fail e => Fail e
        end
    | Fail e => Fail e
    end.
Proof.
  unfold process_gcode_pass, measure_movement, prepared. run. fields.
  destruct (has_xy_position_changed _ && _ && _ && _);
    fields; destruct (allow_dynamic_precision_ w && is_g1_g2 cmd);
    fields;
    (match goal with
     | |- match ?c with Ok _ => _ | Fail _ => _ end = _ =>
         destruct c as [[arc_added w3]|e]; [|reflexivity]
     end);
    (destruct (commit_or_abort _ _ _ _ _) as [[[r|] w4]|e];
     try reflexivity);
    now destruct (defer_command _ _ _) as [[n w5]|e].
Qed.

End Pass.

(** ** What a pass leaves alone *)

Section Frames.

Context {arc gp stats : Type}.
Context {engine : SegmentedArc arc}.
Context {tracker : GcodePosition gp}.
Context {histogram : SegmentStatistics stats}.
Context {platform : Platform}.

Local Abbreviation state := (arc_welder arc gp stats).
Implicit Type w : state.

Ltac prepared_field :=
  intros; unfold prepared; cbv zeta;
  repeat match goal with
         | |- context [if ?b then _ else _] => destruct b
         end;
  reflexivity.

Lemma prepared_tracker cmd is_reprocess w :
  p_source_position_ (prepared cmd is_reprocess w)
  = update cmd (lines_processed_ w) (gcodes_processed_ w) (-1)
      (p_source_position_ w).
Proof. prepared_field. Qed.

Lemma prepared_waiting cmd is_reprocess w :
  waiting_for_arc_ (prepared cmd is_reprocess w) = waiting_for_arc_ w.
Proof. prepared_field. Qed.

Lemma prepared_points cmd is_reprocess w :
  points_compressed_ (prepared cmd is_reprocess w) = points_compressed_ w.
Proof. prepared_field. Qed.

Lemma prepared_arcs cmd is_reprocess w :
  arcs_created_ (prepared cmd is_reprocess w) = arcs_created_ w.
Proof. prepared_field. Qed.

Lemma prepared_output cmd is_reprocess w :
  output_file_ (prepared cmd is_reprocess w) = output_file_ w.
Proof. prepared_field. Qed.

Lemma prepared_unwritten cmd is_reprocess w :
  unwritten_commands_ (prepared cmd is_reprocess w) = unwritten_commands_ w.
Proof. prepared_field. Qed.

Lemma prepared_arc cmd is_reprocess w :
  is_g1_g2 cmd = false ->
  current_arc_ (prepared cmd is_reprocess w) = current_arc_ w.
Proof.
  intros Hg. unfold prepared. cbv zeta. rewrite Hg, andb_false_r.
  now destruct (_ && _).
Qed.

(** Streams *)

Lemma good_put c o : good (put c o) = good o.
Proof. unfold put. now destruct (good o) eqn:E. Qed.

Lemma arcs_emitted_put_lines text o :
  arcs_emitted (put (flushed_lines text) o) = arcs_emitted o.
Proof.
  unfold put, arcs_emitted. destruct (good o); [|reflexivity].
  cbn [written]. rewrite flat_map_app. cbn. now rewrite app_nil_r.
Qed.

Lemma arcs_emitted_put_arc n text o :
  good o = true ->
  arcs_emitted (put (arc_line n text) o) = (arcs_emitted o ++ [n])%list.
Proof.
  intros Hg. unfold put, arcs_emitted. rewrite Hg.
  cbn [written]. now rewrite flat_map_app.
Qed.

Lemma absorbed_points_app sizes n :
  absorbed_points (sizes ++ [n]) = absorbed_points sizes + (n - 1).
Proof.
  unfold absorbed_points. induction sizes as [|m sizes IH]; cbn; [lia|].
  fold (absorbed_points (sizes ++ [n])) in *. cbn in IH |- *. lia.
Qed.

Lemma same_counts_refl w : same_counts w w.
Proof. now repeat split. Qed.

Lemma same_counts_trans w1 w2 w3 :
  same_counts w1 w2 -> same_counts w2 w3 -> same_counts w1 w3.
Proof. unfold same_counts. intuition congruence. Qed.

Lemma same_counts_flushed w : same_counts w (flushed w).
Proof.
  unfold same_counts, flushed. fields.
  now rewrite arcs_emitted_put_lines, good_put.
Qed.

Lemma same_counts_prepared cmd is_reprocess w :
  same_counts w (prepared cmd is_reprocess w).
Proof.
  unfold same_counts.
  now rewrite prepared_points, prepared_arcs, prepared_output.
Qed.

(** The eligible branch, or its absence. *)
Lemma extend_step (eligible : bool) p_cur_pos p_pre_pos movement_length_mm w
  arc_added w' :
  (if eligible then extend_arc p_cur_pos p_pre_pos movement_length_mm
   else ret false) w = Ok (arc_added, w') ->
  p_source_position_ w' = p_source_position_ w
  /\ same_counts w w'
  /\ (arc_added = false -> waiting_for_arc_ w' = waiting_for_arc_ w)
  /\ (arc_added = true -> waiting_for_arc_ w' = true)
  /\ (waiting_for_arc_ w = true ->
      unwritten_commands_ w' = unwritten_commands_ w
      /\ output_file_ w' = output_file_ w).
Proof.
  destruct eligible.
  - destruct (waiting_for_arc_ w) eqn:Hw.
    + rewrite (extend_arc_building _ _ _ _ Hw). intros [= <- <-].
      repeat split; auto. 
    + rewrite (extend_arc_idle _ _ _ _ Hw). cbv zeta.
      destruct (try_add_point _ _) as [[|] a]; cbn [fst snd];
        intros [= <- <-]; (repeat split; try discriminate; auto).
      all: unfold flushed; fields;
        now rewrite ?arcs_emitted_put_lines, ?good_put.
  - intros [= <- <-]. repeat split; auto; discriminate.
Qed.

(** The buffer step (lines 643-653). *)
Lemma defer_step arc_added movement_length_mm w :
  exists w',
    defer_command arc_added movement_length_mm w = Ok (0, w')
    /\ p_source_position_ w' = p_source_position_ w
    /\ same_counts w w'
    /\ waiting_for_arc_ w' = waiting_for_arc_ w
    /\ current_arc_ w' = current_arc_ w.
Proof.
  rewrite defer_command_runs. cbv zeta. eexists. split; [reflexivity|].
  unfold same_counts, flushed, deferred.
  destruct (waiting_for_arc_ w) eqn:Hw, arc_added; cbn [orb negb]; fields;
    rewrite ?arcs_emitted_put_lines, ?good_put; repeat split; auto.
Qed.

(** A commit (lines 604-623). *)
Lemma committed_fields current_feedrate kept absorbed w :
  let w' := committed current_feedrate kept absorbed (counted w) in
  p_source_position_ w' = undo_update (p_source_position_ w)
  /\ waiting_for_arc_ w' = false
  /\ unwritten_commands_ w' = []
  /\ current_arc_ w' = arc_clear (current_arc_ w)
  /\ points_compressed_ w'
     = int_add (points_compressed_ w)
         (int_sub (get_num_segments (current_arc_ w)) 1)
  /\ arcs_created_ w' = int_add (arcs_created_ w) 1
  /\ good (output_file_ w') = good (output_file_ w)
  /\ (good (output_file_ w) = true ->
      arcs_emitted (output_file_ w')
      = (arcs_emitted (output_file_ w)
         ++ [get_num_segments (current_arc_ w)])%list).
Proof.
  cbv zeta. unfold committed, counted, flushed. cbv zeta. fields.
  repeat split; try reflexivity.
  - now rewrite !good_put.
  - intros Hg. rewrite arcs_emitted_put_arc by now rewrite good_put.
    now rewrite arcs_emitted_put_lines.
Qed.

End Frames.


(** ** The ways a pass can end *)

Section Passes.

Context {arc gp stats : Type}.
Context {engine : SegmentedArc arc}.
Context {tracker : GcodePosition gp}.
Context {histogram : SegmentStatistics stats}.
Context {platform : Platform}.

Local Abbreviation state := (arc_welder arc gp stats).
Implicit Type w : state.

(** A pass that returns went through the eligible branch or past it, and
    then either committed the arc or put the command in the buffer. *)
Lemma process_gcode_pass_cases cmd is_end is_reprocess w r w' :
  process_gcode_pass cmd is_end is_reprocess w = Ok (r, w') ->
  let w2 := prepared cmd is_reprocess w in
  let p_pre_pos := get_previous_position (p_source_position_ w2) in
  exists arc_added w3,
    p_source_position_ w3 = p_source_position_ w2
    /\ same_counts w w3
    /\ (arc_added = false -> waiting_for_arc_ w3 = waiting_for_arc_ w)
    /\ (arc_added = true ->
        waiting_for_arc_ w3 = true
        /\ arc_eligible w2 cmd is_end
             (get_current_position (p_source_position_ w2)) p_pre_pos = true)
    /\ ((arc_added = false
         /\ waiting_for_arc_ w3 = true
         /\ is_shape (current_arc_ w3) = true
         /\ r = (if is_end then returned 0 else reprocess)
         /\ exists kept absorbed,
              w' = committed (f p_pre_pos) kept absorbed (counted w3))
        \/ (r = returned 0
            /\ p_source_position_ w' = p_source_position_ w2
            /\ same_counts w w'
            /\ (arc_added = true -> waiting_for_arc_ w' = true)
            /\ (arc_added = false -> is_blank cmd = false ->
                waiting_for_arc_ w' = false))).
Proof.
  rewrite process_gcode_pass_unfold. cbv zeta.
  match goal with
  | |- match ?c with Ok _ => _ | Fail _ => _ end = _ -> _ =>
      destruct c as [[arc_added w3]|e] eqn:Hx; [|discriminate]
  end.
  assert (arc_added = true ->
          arc_eligible (prepared cmd is_reprocess w) cmd is_end
            (get_current_position
               (p_source_position_ (prepared cmd is_reprocess w)))
            (get_previous_position
               (p_source_position_ (prepared cmd is_reprocess w))) = true)
    as Hel.
  { intros ->. destruct (arc_eligible _ _ _ _ _); [reflexivity|].
    now injection Hx. }
  apply extend_step in Hx as (Ht & Hc & Hf & Hy & _).
  rewrite prepared_waiting in Hf.
  assert (arc_added = true ->
          waiting_for_arc_ w3 = true
          /\ arc_eligible (prepared cmd is_reprocess w) cmd is_end
               (get_current_position
                  (p_source_position_ (prepared cmd is_reprocess w)))
               (get_previous_position
                  (p_source_position_ (prepared cmd is_reprocess w))) = true)
    as Hy' by (intros Ha; split; auto).
  assert (same_counts w w3) as Hc'
    by (eapply same_counts_trans; [apply same_counts_prepared|exact Hc]).
  destruct (commit_or_abort _ _ _ _ _) as [[[r0|] w4]|e] eqn:Hcommit;
    [| |discriminate].
  - intros [= <- <-].
    apply commit_or_abort_some in Hcommit
      as (Ha & Hw & Hs & Hr & kept & absorbed & _ & _ & ->).
    exists arc_added, w3.
    refine (conj Ht (conj Hc' (conj Hf (conj Hy' (or_introl _))))).
    repeat split; auto. now exists kept, absorbed.
  - apply commit_or_abort_none in Hcommit as (Hw4 & Hblank).
    destruct (defer_step arc_added
                (movement_length (allow_3d_arcs_ w)
                   (get_current_position
                      (p_source_position_ (prepared cmd is_reprocess w)))
                   (get_previous_position
                      (p_source_position_ (prepared cmd is_reprocess w))))
                w4)
      as (w5 & Hd & Ht5 & Hc5 & Hw5 & _).
    rewrite Hd. intros [= <- <-].
    exists arc_added, w3.
    refine (conj Ht (conj Hc' (conj Hf (conj Hy' (or_intror _))))).
    assert (p_source_position_ w4 = p_source_position_ w3
            /\ same_counts w3 w4
            /\ (arc_added = true -> waiting_for_arc_ w4 = true))
      as (H1 & H2 & H3).
    { destruct Hw4 as [->|[Ha ->]].
      - repeat split; auto.
      - repeat split; try reflexivity. intros ->. discriminate. }
    split; [reflexivity|]. split; [congruence|].
    split; [eauto using same_counts_trans|].
    split; [intros Ha; rewrite Hw5; auto|].
    intros Ha Hb. rewrite Hw5. auto.
Qed.


End Passes.

(** ** Failures *)

Section Failures.

Context {arc gp stats : Type}.
Context {engine : SegmentedArc arc}.
Context {tracker : GcodePosition gp}.
Context {histogram : SegmentStatistics stats}.
Context {platform : Platform}.

Local Abbreviation state := (arc_welder arc gp stats).
Implicit Type w : state.

Lemma comment_loop_failure n :
  forall comment_index comment unwritten e,
    comment_loop n comment_index comment unwritten = Fail e ->
    e = out_of_range.
Proof.
  induction n as [|n IH]; intros i c l e; [discriminate|].
  cbn [comment_loop]. unfold array_list.index.
  destruct (i <? 0); [now intros [= <-]|].
  destruct (nth_error l (Z.to_nat i)); [apply IH|now intros [= <-]].
Qed.

Lemma pop_back_loop_failure n :
  forall w e, pop_back_loop n w = Fail e -> e = exception_thrown.
Proof.
  induction n as [|n IH]; intros w e; [discriminate|].
  cbn [pop_back_loop]. run.
  destruct (array_list_facts.pop_back_cases (unwritten_commands_ w))
    as [[_ Hpop]|(l & a & _ & Hpop)]; rewrite Hpop.
  - now intros [= <-].
  - apply IH.
Qed.

(** A commit fails with the exception of [pop_back] or with a read outside
    the buffer, when the buffer is shorter than the arc. *)
Lemma write_arc_gcodes_failure is_extruder_relative current_feedrate w e :
  write_arc_gcodes is_extruder_relative current_feedrate w = Fail e ->
  e <> out_of_fuel /\ ~ enough_buffered w.
Proof.
  intros H.
  assert (~ enough_buffered w) as Hshort.
  { intros Hle. unfold enough_buffered in Hle.
    set (k := Z.to_nat (get_num_segments (current_arc_ w) - 1)) in *.
    set (l := unwritten_commands_ w) in *.
    assert (l = (firstn (List.length l - k) l ++ skipn (List.length l - k) l)%list)
      as Hl by (now rewrite firstn_skipn).
    assert (List.length (skipn (List.length l - k) l) = k) as Hk
      by (rewrite length_skipn; lia).
    now rewrite (write_arc_gcodes_commits _ _ _ _ _ Hl Hk) in H. }
  split; [|exact Hshort].
  unfold write_arc_gcodes, bind in H.
  destruct (get_comment_for_arc w) as [[comment w0]|e0] eqn:Hc.
  - apply get_comment_for_arc_reads in Hc as ->. revert H. run.
    destruct (pop_back_loop _ w) as [[[] w1]|e1] eqn:Hp.
    + rewrite write_unwritten_gcodes_to_file_flushes. discriminate.
    + apply pop_back_loop_failure in Hp as ->. now intros [= <-].
  - unfold get_comment_for_arc in Hc.
    destruct (comment_loop _ _ _ _) eqn:Hl; [discriminate|].
    apply comment_loop_failure in Hl as ->.
    injection Hc as <-. now injection H as <-.
Qed.


End Failures.

(** ** Re-entry *)

Section Reentry.

Context {arc gp stats : Type}.
Context {engine : SegmentedArc arc}.
Context {tracker : GcodePosition gp}.
Context {histogram : SegmentStatistics stats}.
Context {platform : Platform}.

Local Abbreviation state := (arc_welder arc gp stats).
Implicit Type w : state.



End Reentry.

(** ** Relations kept by a computation *)

Section Preservation.

Context {S : Type}.
Context (R : S -> S -> Prop) {R_preorder : PreOrder R}.

Local Abbreviation preserves := (preserves R).

Lemma preserves_ret {A} (a : A) : preserves (ret a).
Proof. intros s a' s' [= _ <-]. reflexivity. Qed.

Lemma preserves_gets {A} (g : S -> A) : preserves (gets g).
Proof. intros s a' s' [= _ <-]. reflexivity. Qed.

Lemma preserves_throw {A} e : preserves (@throw S A e).
Proof. intros s a s'. discriminate. Qed.

Lemma preserves_modify (g : S -> S) :
  (forall s, R s (g s)) -> preserves (modify g).
Proof. intros H s a s' [= _ <-]. apply H. Qed.

Lemma preserves_bind {A B} (c : M S A) (k : A -> M S B) :
  preserves c -> (forall a, preserves (k a)) -> preserves (bind c k).
Proof.
  intros Hc Hk s b s' H. apply bind_inv in H as (a & s1 & H1 & H2).
  transitivity s1; [eapply Hc|eapply Hk]; eassumption.
Qed.

Lemma preserves_when (b : bool) (c : M S unit) :
  preserves c -> preserves (when b c).
Proof. intros Hc. destruct b; [exact Hc|apply preserves_ret]. Qed.

End Preservation.

#[export] Instance keeps_preorder {S} (I : S -> Prop) : PreOrder (keeps I).
Proof. split; unfold keeps; [intros s; auto|intros s1 s2 s3; auto]. Qed.

(** Takes a sequence of steps apart, leaving the steps that change the
    state. *)
Ltac frame_step :=
  lazymatch goal with
  | |- PreOrder _ => typeclasses eauto
  | |- preserves _ (ret _) => apply preserves_ret
  | |- preserves _ (gets _) => apply preserves_gets
  | |- preserves _ (throw _) => apply preserves_throw
  | |- preserves _ (when _ _) => apply preserves_when
  | |- preserves _ (bind _ _) => apply preserves_bind; [..|intros ?]
  | |- preserves _ (if ?b then _ else _) => destruct b
  end.
Ltac frame := repeat frame_step.

(** ** The outcome of a pass *)


Section Outcome.
Context {arc gp stats : Type}.
Context {engine : SegmentedArc arc}.
Context {tracker : GcodePosition gp}.
Context {histogram : SegmentStatistics stats}.
Context {platform : Platform}.
Local Abbreviation state := (arc_welder arc gp stats).
Implicit Type w : state.

Lemma string_app_nil_r (s : string) : s ++ "" = s.
Proof. induction s as [|c s IH]; cbn; [reflexivity|now rewrite IH]. Qed.

Lemma string_app_assoc (s t u : string) : (s ++ t) ++ u = s ++ (t ++ u).
Proof. induction s as [|c s IH]; cbn; [reflexivity|now rewrite IH]. Qed.

Lemma concat_empty_cons (x : string) (l : list string) :
  String.concat "" (x :: l) = x ++ String.concat "" l.
Proof. destruct l; cbn; [now rewrite string_app_nil_r|reflexivity]. Qed.

Lemma lines_text_concat (l : list unwritten_command) :
  forall start,
    lines_text l start = start ++ String.concat "" (map line_text l).
Proof.
  unfold lines_text.
  induction l as [|p l IH]; intros start; cbn [fold_left map].
  - cbn. now rewrite string_app_nil_r.
  - rewrite IH, concat_empty_cons. unfold line_text.
    now rewrite !string_app_assoc.
Qed.

Lemma flush_statistics_filter (l : list unwritten_command) :
  forall s : stats,
    flush_statistics l s
    = fold_left (fun s p => stats_update (extrusion_length p) false s)
        (filter (fun p => PrimFloat.ltb dzero (extrusion_length p)) l) s.
Proof.
  unfold flush_statistics.
  induction l as [|p l IH]; intros s; cbn [fold_left filter]; [reflexivity|].
  destruct (PrimFloat.ltb dzero (extrusion_length p)); cbn [fold_left];
    apply IH.
Qed.

Lemma file_text_put c o :
  good o = true -> file_text (put c o) = file_text o ++ chunk_text c.
Proof.
  intros Hg. unfold put, file_text. rewrite Hg. cbn [written].
  induction (written o) as [|d l IH]; cbn.
  - now rewrite string_app_nil_r.
  - now rewrite IH, string_app_assoc.
Qed.

Lemma commit_or_abort_outcome cmd is_end arc_added p_pre_pos w w' :
  commit_or_abort cmd is_end arc_added p_pre_pos w = Ok (None, w') ->
  (w' = w
   /\ (arc_added = true \/ is_blank cmd = true
       \/ (waiting_for_arc_ w = false
           /\ get_min_segments (current_arc_ w)
              <= get_num_segments (current_arc_ w))))
  \/ (arc_added = false /\ is_blank cmd = false /\ w' = aborted w
      /\ (get_num_segments (current_arc_ w) < get_min_segments (current_arc_ w)
          \/ (waiting_for_arc_ w = true /\ is_shape (current_arc_ w) = false))).
Proof.
  unfold commit_or_abort.
  destruct arc_added; [intros [= <-]; left; auto|].
  destruct (is_blank cmd); [intros [= <-]; left; auto|].
  cbn [negb andb]. run.
  destruct (Z.ltb_spec (get_num_segments (current_arc_ w))
              (get_min_segments (current_arc_ w))) as [Hlt|Hge].
  { intros [= <-]. right. repeat split; auto. }
  destruct (waiting_for_arc_ w) eqn:Hw.
  - destruct (is_shape (current_arc_ w)) eqn:Hs.
    + destruct (write_arc_gcodes _ _ _) as [[[] w1]|e]; [|discriminate].
      destruct is_end; discriminate.
    + intros [= <-]. right.
      repeat split; auto.
  - intros [= <-]. left. auto.
Qed.

Lemma process_gcode_pass_outcome cmd is_end is_reprocess w r w' :
  process_gcode_pass cmd is_end is_reprocess w = Ok (r, w') ->
  let w2 := prepared cmd is_reprocess w in
  let p_cur_pos := get_current_position (p_source_position_ w2) in
  let p_pre_pos := get_previous_position (p_source_position_ w2) in
  let movement_length_mm := measured cmd is_reprocess w in
  exists arc_added w3,
    (if arc_eligible w2 cmd is_end p_cur_pos p_pre_pos
     then extend_arc p_cur_pos p_pre_pos movement_length_mm
     else ret false) w2 = Ok (arc_added, w3)
    /\ ((arc_added = false
         /\ is_blank cmd = false
         /\ get_min_segments (current_arc_ w3)
            <= get_num_segments (current_arc_ w3)
         /\ waiting_for_arc_ w3 = true
         /\ is_shape (current_arc_ w3) = true
         /\ r = (if is_end then returned 0 else reprocess)
         /\ exists kept absorbed,
              unwritten_commands_ w3 = (kept ++ absorbed)%list
              /\ List.length absorbed
                 = Z.to_nat (get_num_segments (current_arc_ w3) - 1)
              /\ w' = committed (f p_pre_pos) kept absorbed (counted w3))
        \/ (r = returned 0
            /\ exists w4,
                 ((w4 = w3
                   /\ (arc_added = true \/ is_blank cmd = true
                       \/ (waiting_for_arc_ w3 = false
                           /\ get_min_segments (current_arc_ w3)
                              <= get_num_segments (current_arc_ w3))))
                  \/ (arc_added = false /\ is_blank cmd = false
                      /\ w4 = aborted w3
                      /\ (get_num_segments (current_arc_ w3)
                          < get_min_segments (current_arc_ w3)
                          \/ (waiting_for_arc_ w3 = true
                              /\ is_shape (current_arc_ w3) = false))))
                 /\ w' = after_pass arc_added movement_length_mm w4)).
Proof.
  rewrite process_gcode_pass_unfold. cbv zeta.
  fold (measured cmd is_reprocess w).
  match goal with
  | |- match ?c with Ok _ => _ | Fail _ => _ end = _ -> _ =>
      destruct c as [[arc_added w3]|e] eqn:Hx; [|discriminate]
  end.
  destruct (commit_or_abort _ _ _ _ _) as [[[r0|] w4]|e] eqn:Hcommit;
    [| |discriminate].
  - intros [= <- <-]. exists arc_added, w3. split; [reflexivity|]. left.
    assert (is_blank cmd = false
            /\ get_min_segments (current_arc_ w3)
               <= get_num_segments (current_arc_ w3)) as [Hb Hmin].
    { revert Hcommit. unfold commit_or_abort.
      destruct arc_added; [discriminate|].
      destruct (is_blank cmd); [discriminate|]. cbn [negb andb]. run.
      destruct (Z.ltb_spec (get_num_segments (current_arc_ w3))
                  (get_min_segments (current_arc_ w3))); [discriminate|].
      intros _. split; [reflexivity|lia]. }
    apply commit_or_abort_some in Hcommit
      as (Ha & Hw & Hs & Hr & kept & absorbed & Hl & Hn & ->).
    repeat (split; [assumption|]).
    now exists kept, absorbed.
  - rewrite defer_command_runs. cbv zeta. intros [= <- <-].
    exists arc_added, w3. split; [reflexivity|]. right.
    split; [reflexivity|]. exists w4.
    apply commit_or_abort_outcome in Hcommit.
    split; [exact Hcommit|reflexivity].
Qed.
Lemma commit_or_abort_idle cmd is_end p_pre_pos w :
  waiting_for_arc_ w = false ->
  commit_or_abort cmd is_end false p_pre_pos w
  = Ok (None,
        if negb (is_blank cmd)
           && (get_num_segments (current_arc_ w)
               <? get_min_segments (current_arc_ w))
        then aborted w else w).
Proof.
  intros Hw. unfold commit_or_abort. cbn [negb andb].
  destruct (is_blank cmd); cbn [negb andb]; [reflexivity|]. run.
  destruct (_ <? _); [reflexivity|]. now rewrite Hw.
Qed.

Lemma commit_or_abort_aborts cmd is_end p_pre_pos w :
  waiting_for_arc_ w = true ->
  is_blank cmd = false ->
  get_num_segments (current_arc_ w) < get_min_segments (current_arc_ w)
  \/ is_shape (current_arc_ w) = false ->
  commit_or_abort cmd is_end false p_pre_pos w = Ok (None, aborted w).
Proof.
  intros Hw Hb Hno. unfold commit_or_abort. rewrite Hb. cbn [negb andb]. run.
  destruct (Z.ltb_spec (get_num_segments (current_arc_ w))
              (get_min_segments (current_arc_ w))) as [Hlt|Hge];
    [reflexivity|].
  rewrite Hw. destruct Hno as [Hlt|Hs]; [lia|]. rewrite Hs.
  destruct w; reflexivity.
Qed.

Lemma enough_buffered_split w :
  enough_buffered w ->
  exists kept absorbed,
    unwritten_commands_ w = (kept ++ absorbed)%list
    /\ List.length absorbed
       = Z.to_nat (get_num_segments (current_arc_ w) - 1).
Proof.
  unfold enough_buffered. intros Hle.
  set (k := Z.to_nat (get_num_segments (current_arc_ w) - 1)) in *.
  set (l := unwritten_commands_ w) in *.
  exists (firstn (List.length l - k) l), (skipn (List.length l - k) l).
  split; [now rewrite firstn_skipn|rewrite length_skipn; lia].
Qed.

End Outcome.

(** ** What [process_gcode] leaves alone *)

Section Steady.
Context {arc gp stats : Type}.
Context {engine : SegmentedArc arc}.
Context {tracker : GcodePosition gp}.
Context {histogram : SegmentStatistics stats}.
Context {platform : Platform}.
Local Abbreviation state := (arc_welder arc gp stats).
Implicit Type w : state.

Lemma untouched_refl w : untouched w w.
Proof. unfold untouched. now repeat split. Qed.

Lemma untouched_trans w1 w2 w3 :
  untouched w1 w2 -> untouched w2 w3 -> untouched w1 w3.
Proof. unfold untouched. intuition congruence. Qed.

Lemma appends_refl w : appends w w.
Proof.
  unfold appends. repeat split. exists []. now rewrite app_nil_r.
Qed.

Lemma appends_trans w1 w2 w3 : appends w1 w2 -> appends w2 w3 -> appends w1 w3.
Proof.
  intros (Ho & Hf & s & Hs & Hgen) (Ho' & Hf' & s' & Hs' & Hgen').
  split; [congruence|]. split; [congruence|].
  exists (s ++ s')%list. split; [now rewrite Hs', Hs, app_assoc|].
  apply Forall_app. now split.
Qed.

Lemma put_appends c o :
  genuine c ->
  is_open (put c o) = is_open o
  /\ failbit (put c o) = failbit o
  /\ exists suffix,
       written (put c o) = (written o ++ suffix)%list
       /\ Forall genuine suffix.
Proof.
  intros Hc. unfold put, good.
  destruct (is_open o) eqn:Ho, (failbit o) eqn:Hf; cbn; rewrite ?Ho, ?Hf;
    repeat split; try (exists []; now rewrite app_nil_r).
  exists [c]. split; [reflexivity|]. now constructor.
Qed.

(** The text [write_arc_gcodes] writes is the arc line of the
    specification. *)
Lemma arc_gcode_spec current_feedrate comment w :
  arc_gcode current_feedrate comment w ++ newline
  = spec_arc_line (previous_is_extruder_relative_ w)
      (get_offset_e
         (get_current_extruder (get_current_position (p_source_position_ w))))
      (arc_feedrate current_feedrate w) comment (current_arc_ w).
Proof.
  unfold arc_gcode, arc_feedrate, spec_arc_line, get_arc_gcode_relative,
    get_arc_gcode_absolute, has_length.
  now destruct (previous_is_extruder_relative_ w).
Qed.

Lemma steady_refl w : steady w w.
Proof. split; [apply untouched_refl|apply appends_refl]. Qed.

Lemma steady_trans w1 w2 w3 : steady w1 w2 -> steady w2 w3 -> steady w1 w3.
Proof.
  intros [H1 H2] [H3 H4].
  split; [eapply untouched_trans|eapply appends_trans]; eassumption.
Qed.

Lemma steady_same_output w w' :
  untouched w w' -> output_file_ w' = output_file_ w -> steady w w'.
Proof.
  intros Hu Ho. split; [exact Hu|]. unfold appends. rewrite Ho.
  repeat split. exists []. now rewrite app_nil_r.
Qed.

Lemma steady_flushed w : steady w (flushed w).
Proof.
  split; [unfold untouched, flushed; fields; now repeat split|].
  unfold appends, flushed. fields. now apply put_appends.
Qed.

Lemma steady_prepared cmd is_reprocess w : steady w (prepared cmd is_reprocess w).
Proof.
  apply steady_same_output; [|apply prepared_output].
  unfold untouched, prepared. cbv zeta.
  destruct (_ && _ && _ && _), (_ && _); fields; now repeat split.
Qed.

Lemma steady_deferred l w : steady w (deferred l w).
Proof.
  apply steady_same_output; [|reflexivity].
  unfold untouched, deferred. fields. now repeat split.
Qed.

Lemma steady_aborted w : steady w (aborted w).
Proof.
  apply steady_same_output; [|reflexivity].
  unfold untouched, aborted. fields. now repeat split.
Qed.

Lemma steady_counted w : steady w (counted w).
Proof.
  apply steady_same_output; [|reflexivity].
  unfold untouched, counted. fields. now repeat split.
Qed.

Lemma steady_committed current_feedrate kept absorbed w :
  is_shape (current_arc_ w) = true ->
  get_min_segments (current_arc_ w) <= get_num_segments (current_arc_ w) ->
  steady w (committed current_feedrate kept absorbed w).
Proof.
  intros Hs Hmin. split.
  - unfold untouched, committed, flushed. cbv zeta. fields. now repeat split.
  - unfold committed, flushed. cbv zeta.
    unfold appends. fields.
    destruct (put_appends
                (flushed_lines (lines_text kept "")) (output_file_ w) I)
      as (Ho & Hf & s & Hw & Hgen).
    match goal with
    | |- context [put (arc_line ?n ?t) ?o] =>
        assert (genuine (arc_line n t)) as Harc;
        [|destruct (put_appends (arc_line n t) o Harc)
            as (Ho' & Hf' & s' & Hw' & Hgen')]
    end.
    { rewrite arc_gcode_spec. fields. cbn [genuine].
      do 5 eexists. split; [exact Hs|]. split; [exact Hmin|].
      split; reflexivity. }
    split; [congruence|]. split; [congruence|].
    exists (s ++ s')%list. split; [now rewrite Hw', Hw, app_assoc|].
    apply Forall_app. now split.
Qed.

Lemma steady_after_pass arc_added l w : steady w (after_pass arc_added l w).
Proof.
  unfold after_pass. cbv zeta.
  destruct (waiting_for_arc_ w), arc_added; cbn [orb negb];
    try apply steady_refl; try apply steady_deferred;
    try apply steady_flushed;
    (eapply steady_trans; [apply steady_deferred|apply steady_flushed]).
Qed.

Lemma steady_extend (eligible : bool) p_cur_pos p_pre_pos l w arc_added w' :
  (if eligible then extend_arc p_cur_pos p_pre_pos l else ret false) w
  = Ok (arc_added, w') ->
  steady w w'.
Proof.
  destruct eligible; [|intros [= _ <-]; apply steady_refl].
  destruct (waiting_for_arc_ w) eqn:Hw.
  - rewrite (extend_arc_building _ _ _ _ Hw). intros [= _ <-].
    apply steady_same_output; [|reflexivity].
    unfold untouched. fields. now repeat split.
  - rewrite (extend_arc_idle _ _ _ _ Hw). cbv zeta.
    destruct (try_add_point _ _) as [[|] a]; cbn [fst snd]; intros [= _ <-].
    all: split;
      [unfold untouched, flushed; fields; now repeat split
      |unfold appends, flushed; fields; now apply put_appends].
Qed.

Lemma process_gcode_pass_steady cmd is_end is_reprocess w r w' :
  process_gcode_pass cmd is_end is_reprocess w = Ok (r, w') -> steady w w'.
Proof.
  intros H. apply process_gcode_pass_outcome in H. cbv zeta in H.
  destruct H as (arc_added & w3 & Hx & H).
  apply steady_extend in Hx.
  pose proof (steady_trans _ _ _ (steady_prepared cmd is_reprocess w) Hx) as H3.
  destruct H as [H|H].
  - destruct H as (_ & _ & Hmin & _ & Hs & _ & kept & absorbed & _ & _ & ->).
    eapply steady_trans; [exact H3|].
    eapply steady_trans; [apply steady_counted|now apply steady_committed].
  - destruct H as (_ & w4 & Hw4 & ->).
    eapply steady_trans; [exact H3|].
    eapply steady_trans; [|apply steady_after_pass].
    destruct Hw4 as [[-> _]|(_ & _ & -> & _)];
      [apply steady_refl|apply steady_aborted].
Qed.

Lemma process_gcode_rec_steady fuel :
  forall cmd is_end is_reprocess w n w',
    process_gcode_rec fuel cmd is_end is_reprocess w = Ok (n, w') ->
    steady w w' /\ n = 0.
Proof.
  induction fuel as [|fuel IH]; intros cmd is_end is_reprocess w n w';
    cbn [process_gcode_rec]; [discriminate|].
  intros H. apply bind_inv in H as (r & w1 & H1 & H).
  pose proof (process_gcode_pass_steady _ _ _ _ _ _ H1) as Hs.
  destruct r as [m|].
  - injection H as <- <-. split; [exact Hs|].
    apply process_gcode_pass_outcome in H1. cbv zeta in H1.
    destruct H1 as (a & w3 & _ & [H1|H1]).
    + destruct H1 as (_ & _ & _ & _ & _ & Hr & _).
      destruct is_end; [now injection Hr|discriminate].
    + destruct H1 as (Hr & _). now injection Hr.
  - apply IH in H as [H ->]. split; [|reflexivity].
    eapply steady_trans; eassumption.
Qed.
End Steady.

(** ** The counters *)

Lemma int_wrap_small z : - 2 ^ 31 <= z < 2 ^ 31 -> int_wrap z = z.
Proof. intros H. unfold int_wrap. rewrite Z.mod_small; lia. Qed.

Lemma int_wrap_add a b : int_wrap (int_wrap a + b) = int_wrap (a + b).
Proof.
  unfold int_wrap.
  replace ((a + 2 ^ 31) mod 2 ^ 32 - 2 ^ 31 + b + 2 ^ 31)
    with ((a + 2 ^ 31) mod 2 ^ 32 + b) by lia.
  replace (a + b + 2 ^ 31) with (a + 2 ^ 31 + b) by lia.
  now rewrite Zplus_mod_idemp_l.
Qed.

Lemma int_add_wrap a b c :
  int_add (int_wrap a) (int_sub b c) = int_wrap (a + (b - c)).
Proof.
  unfold int_add, int_sub. rewrite int_wrap_add.
  rewrite (Z.add_comm a), int_wrap_add. f_equal. lia.
Qed.

Lemma int_add_wrap_1 a : int_add (int_wrap a) 1 = int_wrap (a + 1).
Proof. unfold int_add. apply int_wrap_add. Qed.

Section Counters.

Context {arc gp stats : Type}.
Context {engine : SegmentedArc arc}.
Context {tracker : GcodePosition gp}.
Context {histogram : SegmentStatistics stats}.
Context {platform : Platform}.
Variable default_progress : arc_welder_progress stats.

Local Abbreviation state := (arc_welder arc gp stats).
Implicit Type w : state.

(** The invariant of a run holds after [c] if it held before. *)
Local Abbreviation invariant_kept :=
  (preserves (keeps (run_invariant (arc:=arc) (gp:=gp) (stats:=stats)))).

Lemma same_counts_consistent w w' :
  same_counts w w' -> counters_consistent w -> counters_consistent w'.
Proof.
  unfold same_counts, counters_consistent.
  intros (-> & -> & -> & _). auto.
Qed.

Lemma appends_genuine w w' :
  appends w w' ->
  Forall genuine (written (output_file_ w)) ->
  Forall genuine (written (output_file_ w')).
Proof.
  intros (_ & _ & s & -> & Hs) H. apply Forall_app. now split.
Qed.

Lemma same_counts_keeps w w' :
  same_counts w w' -> appends w w' -> keeps run_invariant w w'.
Proof.
  intros Hs Ha (Hc & Hg & Hgen).
  split; [eauto using same_counts_consistent|].
  split; [destruct Hs as (_ & _ & _ & ->); exact Hg|].
  eauto using appends_genuine.
Qed.

Lemma same_output_appends w w' :
  output_file_ w' = output_file_ w -> appends w w'.
Proof.
  intros Ho. unfold appends. rewrite Ho. repeat split.
  exists []. now rewrite app_nil_r.
Qed.

Lemma process_gcode_pass_keeps cmd is_end is_reprocess :
  invariant_kept
    (process_gcode_pass cmd is_end is_reprocess).
Proof.
  intros w r w' H (Hc & Hg & Hgen).
  pose proof (process_gcode_pass_steady _ _ _ _ _ _ H) as [_ Ha].
  apply process_gcode_pass_cases in H. cbv zeta in H.
  destruct H as (arc_added & w3 & _ & Hs & _ & _ & [H|H]).
  - destruct H as (_ & _ & _ & _ & kept & absorbed & ->).
    destruct (committed_fields
                (f (get_previous_position
                      (p_source_position_ (prepared cmd is_reprocess w))))
                kept absorbed w3)
      as (_ & _ & _ & _ & Hp & Hn & Hg' & He).
    pose proof (same_counts_consistent _ _ Hs Hc) as (Hp3 & Hn3).
    destruct Hs as (_ & _ & _ & Hg3). rewrite Hg in Hg3.
    split; [|split; [congruence|eauto using appends_genuine]].
    unfold counters_consistent. rewrite Hp, Hn, (He Hg3), Hp3, Hn3.
    rewrite absorbed_points_app, length_app, int_add_wrap, int_add_wrap_1.
    cbn [List.length]. split; f_equal; lia.
  - destruct H as (_ & _ & Hs' & _). now apply (same_counts_keeps w).
Qed.

Lemma process_gcode_rec_keeps fuel :
  forall cmd is_end is_reprocess,
    invariant_kept
      (process_gcode_rec fuel cmd is_end is_reprocess).
Proof.
  induction fuel as [|fuel IH]; intros cmd is_end is_reprocess;
    cbn [process_gcode_rec]; frame.
  - apply process_gcode_pass_keeps.
  - match goal with a : pass_result |- _ => destruct a end; [frame|apply IH].
Qed.

Lemma modify_keeps (g : state -> state) :
  (forall w, same_counts w (g w) /\ output_file_ (g w) = output_file_ w) ->
  invariant_kept (modify g).
Proof.
  intros H. apply preserves_modify. intros w. destruct (H w) as [Hs Ho].
  apply same_counts_keeps; [exact Hs|now apply same_output_appends].
Qed.

Lemma read_clock_keeps env : invariant_kept (read_clock env).
Proof.
  intros w a w' [= _ <-].
  apply same_counts_keeps; [now repeat split|now apply same_output_appends].
Qed.

Lemma on_progress_keeps progress :
  invariant_kept (on_progress_ progress).
Proof.
  intros w a w'. unfold on_progress_.
  destruct (progress_callback_ w); intros [= _ <-];
    (apply same_counts_keeps; [now repeat split|now apply same_output_appends]).
Qed.

(** What a report says of the counters, and what it changes: the number of
    readings of the clock. *)
Lemma get_progress_reports env source_file_position start_clock w progress w' :
  get_progress_ default_progress env source_file_position start_clock w
  = Ok (progress, w') ->
  w' = set_clock_reads (S (clock_reads w)) w
  /\ points_compressed progress = points_compressed_ w
  /\ arcs_created progress = arcs_created_ w.
Proof.
  unfold get_progress_, read_clock. run. intros [= <- <-].
  repeat split; now destruct (0 <? source_file_position).
Qed.

Lemma get_progress_keeps env source_file_position start_clock :
  invariant_kept
    (get_progress_ default_progress env source_file_position start_clock).
Proof.
  intros w a w' H. apply get_progress_reports in H as (-> & _).
  apply same_counts_keeps; [now repeat split|now apply same_output_appends].
Qed.

Lemma process_lines_keeps env (lines : list string) :
  forall continue_processing cmd next_update_time start_clock,
    invariant_kept
      (process_lines default_progress env lines continue_processing cmd
         next_update_time start_clock).
Proof.
  induction lines as [|line lines IH];
    intros continue_processing cmd next_update_time start_clock;
    cbn [process_lines]; [frame|].
  unfold getline, periodic_update, get_next_update_time. frame;
    try (apply modify_keeps; intros w; now repeat split);
    try apply read_clock_keeps; try apply get_progress_keeps;
    try apply on_progress_keeps; try apply IH.
  apply process_gcode_rec_keeps.
Qed.

Lemma write_unwritten_gcodes_to_file_keeps :
  invariant_kept write_unwritten_gcodes_to_file.
Proof.
  intros w a w'. rewrite write_unwritten_gcodes_to_file_flushes.
  intros [= _ <-].
  apply same_counts_keeps; [apply same_counts_flushed|apply steady_flushed].
Qed.

(** The end of a run: the counters of the final report are those of the
    controller, which agree with the target. *)
Lemma finish_consistent env continue_processing cmd start_clock w r w' :
  run_invariant w ->
  finish default_progress env continue_processing cmd start_clock w
  = Ok (r, w') ->
  counters_consistent w'
  /\ Forall genuine (written (output_file_ w'))
  /\ points_compressed (progress r) = points_compressed_ w'
  /\ arcs_created (progress r) = arcs_created_ w'.
Proof.
  intros HI H. unfold finish in H.
  apply bind_inv in H as (final_shape & w1 & [= _ <-] & H).
  apply bind_inv in H as ([] & w2 & H2 & H).
  assert (run_invariant w2) as HI2.
  { revert H2. destruct final_shape; cbn [when].
    - intros H2. apply bind_inv in H2 as (n & w2' & H2 & [= <-]).
      exact (process_gcode_rec_keeps _ _ _ _ _ _ _ H2 HI).
    - now intros [= <-]. }
  apply bind_inv in H as (size & w3 & H3 & H).
  pose proof (write_unwritten_gcodes_to_file_keeps _ _ _ H3 HI2)
    as (HC3 & _ & HG3).
  apply bind_inv in H as (file_size & w4 & [= _ <-] & H).
  apply bind_inv in H as (final_progress & w5 & H5 & H).
  apply get_progress_reports in H5 as (-> & Hp & Hn).
  apply bind_inv in H as (c & w6 & H6 & H).
  revert H. run. unfold read_clock. intros [= <- <-].
  cbn [progress]. rewrite Hp, Hn.
  unfold counters_consistent in *.
  assert (w6 = set_clock_reads (S (clock_reads w3)) w3
          \/ w6 = set_callback_calls
                    (S (callback_calls (set_clock_reads (S (clock_reads w3)) w3)))
                    (set_clock_reads (S (clock_reads w3)) w3)) as [->| ->].
  { revert H6. unfold on_progress_.
    destruct (progress_callback_ _); intros [= _ <-]; auto. }
  all: fields; unfold arcs_emitted, close in *; cbn [written]; intuition.
Qed.

Lemma process_opened_consistent env lines next_update_time start_clock
  w r w' :
  run_invariant w ->
  process_opened default_progress env lines next_update_time start_clock w
  = Ok (r, w') ->
  counters_consistent w'
  /\ Forall genuine (written (output_file_ w'))
  /\ points_compressed (progress r) = points_compressed_ w'
  /\ arcs_created (progress r) = arcs_created_ w'.
Proof.
  intros HI H. unfold process_opened in H.
  apply bind_inv in H as ([] & w1 & H1 & H).
  assert (run_invariant w1) as HI1.
  { revert H1. unfold add_arcwelder_comment_to_target. intros [= <-].
    revert HI. apply same_counts_keeps.
    - unfold same_counts. fields. unfold arcs_emitted, put.
      destruct (good (output_file_ w)) eqn:Hg; [|now repeat split].
      cbn [written good is_open failbit negb andb].
      rewrite flat_map_app. cbn [flat_map]. rewrite !app_nil_r.
      now repeat split.
    - unfold appends. fields. now apply put_appends. }
  apply bind_inv in H as (position & w2 & [= _ <-] & H).
  apply bind_inv in H as (progress & w3 & H3 & H).
  pose proof (get_progress_keeps _ _ _ _ _ _ H3 HI1) as HI3.
  apply bind_inv in H as (c & w4 & H4 & H).
  pose proof (on_progress_keeps _ _ _ _ H4 HI3) as HI4.
  apply bind_inv in H as (loop & w5 & H5 & H).
  pose proof (process_lines_keeps _ _ _ _ _ _ _ _ _ H5 HI4) as HI5.
  exact (finish_consistent _ _ _ _ _ _ _ HI5 H).
Qed.

(** C4, as the code has it.  In a run whose target stream is good
    ([process] found it closed and opened it), the counters agree with the
    arcs written to the target: at the end of the run, after every stretch
    of source lines read by the loop, and after every single command.
    [points_compressed_] is the sum of [N - 1] over the arc lines the target
    received, [N] being the number of points of the arc, and
    [arcs_created_] is the number of these lines; every one of them is the
    text of the engine for a shape of [N] points.  The counters are [int]s:
    they hold the two sums up to the wrap-around of 32 bits, and exactly as
    long as the sums are below [2 ^ 31]. *)
Theorem counters_consistent_throughout :
  (forall env w r w',
      source_lines env <> None ->
      target_opens env = true ->
      is_open (output_file_ w) = false ->
      process default_progress env w = Ok (r, w') ->
      let sizes := arcs_emitted (output_file_ w') in
      points_compressed (progress r) = int_wrap (absorbed_points sizes)
      /\ arcs_created (progress r)
         = int_wrap (Z.of_nat (List.length sizes))
      /\ points_compressed_ w' = points_compressed (progress r)
      /\ arcs_created_ w' = arcs_created (progress r)
      /\ Forall genuine (written (output_file_ w'))
      /\ (- 2 ^ 31 <= absorbed_points sizes < 2 ^ 31 ->
          points_compressed (progress r) = absorbed_points sizes)
      /\ (Z.of_nat (List.length sizes) < 2 ^ 31 ->
          arcs_created (progress r) = Z.of_nat (List.length sizes)))
  /\ (forall env lines continue_processing cmd next_update_time start_clock
        w loop w',
        run_invariant w ->
        process_lines default_progress env lines continue_processing cmd
          next_update_time start_clock w = Ok (loop, w') ->
        run_invariant w')
  /\ (forall cmd is_end is_reprocess w lines_written w',
        run_invariant w ->
        process_gcode cmd is_end is_reprocess w = Ok (lines_written, w') ->
        run_invariant w').
Proof.
  split; [|split].
  - intros env w r w' Hsource Htarget Hclosed H.
    unfold process, reset, get_next_update_time, read_clock in H.
    revert H. run. destruct (source_lines env) as [lines|]; [|easy].
    unfold open. fields. rewrite Hclosed, Htarget. cbn [is_open negb].
    intros H. apply process_opened_consistent in H.
    + destruct H as ([Hp Hn] & Hgen & Hrp & Hrn). cbv zeta.
      rewrite Hrp, Hrn.
      repeat split; try assumption.
      * intros Hsmall. rewrite Hp. now apply int_wrap_small.
      * intros Hsmall. rewrite Hn. apply int_wrap_small. lia.
    + unfold run_invariant, counters_consistent. fields.
      split; [now cbn|]. split; [reflexivity|constructor].
  - intros env lines c cmd nut sc w loop w' HI H.
    exact (process_lines_keeps _ _ _ _ _ _ _ _ _ H HI).
  - intros cmd is_end is_reprocess w n w' HI H.
    exact (process_gcode_rec_keeps _ _ _ _ _ _ _ H HI).
Qed.

End Counters.

(** ** Blank lines, and commands that end an arc *)

Section Building.

Context {arc gp stats : Type}.
Context {engine : SegmentedArc arc}.
Context {tracker : GcodePosition gp}.
Context {histogram : SegmentStatistics stats}.
Context {platform : Platform}.
Variable default_progress : arc_welder_progress stats.

Local Abbreviation state := (arc_welder arc gp stats).
Implicit Type w : state.

Lemma blank_not_eligible w cmd is_end p_cur_pos p_pre_pos :
  is_blank cmd = true -> arc_eligible w cmd is_end p_cur_pos p_pre_pos = false.
Proof.
  unfold is_blank, arc_eligible. intros H. apply andb_prop in H as [-> _].
  cbn [negb]. now rewrite andb_false_r.
Qed.

Lemma not_g1_not_eligible w cmd is_end p_cur_pos p_pre_pos :
  is_g1_g2 cmd = false -> arc_eligible w cmd is_end p_cur_pos p_pre_pos = false.
Proof.
  unfold arc_eligible. intros ->. cbn [andb]. now rewrite andb_false_r.
Qed.

Lemma end_not_eligible w cmd p_cur_pos p_pre_pos :
  arc_eligible w cmd true p_cur_pos p_pre_pos = false.
Proof. reflexivity. Qed.

(** A pass over a blank line while an arc is being built. *)
Lemma blank_pass cmd is_end is_reprocess w :
  waiting_for_arc_ w = true ->
  is_blank cmd = true ->
  process_gcode_pass cmd is_end is_reprocess w
  = Ok (returned 0,
        deferred (measured cmd is_reprocess w) (prepared cmd is_reprocess w)).
Proof.
  intros Hw Hb. rewrite process_gcode_pass_unfold. cbv zeta.
  rewrite (blank_not_eligible _ _ _ _ _ Hb). unfold ret.
  rewrite commit_or_abort_skips by now right.
  rewrite defer_command_runs. cbv zeta.
  now rewrite prepared_waiting, Hw.
Qed.

(** A pass over a command that cannot join the arc being built, when the arc
    is a shape. *)
Lemma commit_pass cmd is_end is_reprocess w kept absorbed :
  let w2 := prepared cmd is_reprocess w in
  waiting_for_arc_ w = true ->
  arc_eligible w2 cmd is_end (get_current_position (p_source_position_ w2))
    (get_previous_position (p_source_position_ w2)) = false ->
  is_blank cmd = false ->
  get_min_segments (current_arc_ w2) <= get_num_segments (current_arc_ w2) ->
  is_shape (current_arc_ w2) = true ->
  unwritten_commands_ w = (kept ++ absorbed)%list ->
  List.length absorbed = Z.to_nat (get_num_segments (current_arc_ w2) - 1) ->
  process_gcode_pass cmd is_end is_reprocess w
  = Ok (if is_end then returned 0 else reprocess,
        committed (f (get_previous_position (p_source_position_ w2)))
          kept absorbed (counted w2)).
Proof.
  cbv zeta. intros Hw He Hb Hmin Hs Hl Hn.
  rewrite process_gcode_pass_unfold. cbv zeta. rewrite He. unfold ret.
  rewrite (commit_or_abort_commits cmd is_end _ _ kept absorbed); auto.
  - now rewrite prepared_waiting.
  - now rewrite prepared_unwritten.
Qed.


(** C9. A line that parses to an empty command with an empty comment, read
    while an arc is being built, does not end the arc: [commit_or_abort]
    does nothing for such a command, [process_gcode] returns after one pass,
    the engine and [waiting_for_arc_] are as before, nothing is written or
    counted, and the buffer has one more entry, built from the position of
    the tracker. *)
Theorem blank_line_keeps_arc cmd is_reprocess w :
  waiting_for_arc_ w = true ->
  is_empty cmd = true ->
  comment cmd = "" ->
  command cmd = "" ->
  (forall is_end arc_added p_pre_pos w0,
      commit_or_abort cmd is_end arc_added p_pre_pos w0 = Ok (None, w0))
  /\ exists w',
      process_gcode cmd false is_reprocess w = Ok (0, w')
      /\ current_arc_ w' = current_arc_ w
      /\ waiting_for_arc_ w' = true
      /\ unwritten_commands_ w'
         = (unwritten_commands_ w
            ++ [make_unwritten_command (p_source_position_ w')
                  (measured cmd is_reprocess w)])%list
      /\ output_file_ w' = output_file_ w
      /\ points_compressed_ w' = points_compressed_ w
      /\ arcs_created_ w' = arcs_created_ w.
Proof.
  intros Hw He Hc Hcmd.
  assert (is_blank cmd = true) as Hb by (unfold is_blank; now rewrite He, Hc).
  assert (is_g1_g2 cmd = false) as Hg by (unfold is_g1_g2; now rewrite Hcmd).
  split.
  - intros is_end arc_added p_pre_pos w0. apply commit_or_abort_skips. now right.
  - eexists. split.
    + unfold process_gcode. cbn [process_gcode_rec]. unfold bind.
      rewrite (blank_pass _ _ _ _ Hw Hb). reflexivity.
    + unfold deferred. fields.
      rewrite (prepared_arc _ _ _ Hg), prepared_waiting, prepared_unwritten,
        prepared_output, prepared_points, prepared_arcs.
      now repeat split.
Qed.

(** C3, as the code has it.  While an arc is being built, a command is
    eligible only if it extrudes, or if it retracts after a command that
    retracted.  A command that fails this test and is not a blank line ends
    the arc, one way or the other.  If the arc is a shape of at least
    [get_min_segments] points the pass commits it: the last [N - 1] entries
    of the buffer are dropped, the rest and the arc line are written, and
    the arc is counted.  Otherwise the pass abandons it: the buffer and the
    command are written as they were read.  Either way the engine is
    cleared, the buffer is empty and the controller is idle.  The pass fails
    only in the commit, when the buffer is shorter than the arc. *)
Theorem extrusion_phase_while_building cmd is_end is_reprocess w :
  let w2 := prepared cmd is_reprocess w in
  let p_cur_pos := get_current_position (p_source_position_ w2) in
  let p_pre_pos := get_previous_position (p_source_position_ w2) in
  let extruder_current := get_current_extruder p_cur_pos in
  let previous_extruder := get_current_extruder p_pre_pos in
  let a := current_arc_ w2 in
  waiting_for_arc_ w = true ->
  (arc_eligible w2 cmd is_end p_cur_pos p_pre_pos = true ->
   is_extruding extruder_current = true
   \/ (is_retracting previous_extruder = true
       /\ is_retracting extruder_current = true))
  /\ (is_extruding extruder_current = false ->
      is_retracting previous_extruder && is_retracting extruder_current
      = false ->
      is_blank cmd = false ->
      match process_gcode_pass cmd is_end is_reprocess w with
      | Ok (r, w') =>
          waiting_for_arc_ w' = false
          /\ current_arc_ w' = arc_clear a
          /\ unwritten_commands_ w' = []
          /\ ((is_shape a = true
               /\ get_min_segments a <= get_num_segments a
               /\ r = (if is_end then returned 0 else reprocess)
               /\ exists kept absorbed,
                    unwritten_commands_ w = (kept ++ absorbed)%list
                    /\ List.length absorbed
                       = Z.to_nat (get_num_segments a - 1)
                    /\ w' = committed (f p_pre_pos) kept absorbed (counted w2))
              \/ ((get_num_segments a < get_min_segments a
                   \/ is_shape a = false)
                  /\ r = returned 0
                  /\ w' = flushed
                            (deferred (measured cmd is_reprocess w)
                               (aborted w2))))
      | Fail e =>
          e <> out_of_fuel
          /\ is_shape a = true
          /\ get_min_segments a <= get_num_segments a
          /\ (List.length (unwritten_commands_ w)
              < Z.to_nat (get_num_segments a - 1))%nat
      end).
Proof.
  cbv zeta. intros Hw. split.
  - unfold arc_eligible, extrusion_ok. rewrite prepared_waiting, Hw.
    cbn [negb orb]. intros H.
    repeat match goal with
           | Hx : (_ && _)%bool = true |- _ => apply andb_prop in Hx as [? ?]
           end.
    match goal with
    | Hx : (_ || _)%bool = true |- _ =>
        apply orb_prop in Hx as [Hx|Hx];
        [now left|right; now apply andb_prop in Hx]
    end.
  - intros Hx Hr Hb.
    assert (arc_eligible (prepared cmd is_reprocess w) cmd is_end
              (get_current_position
                 (p_source_position_ (prepared cmd is_reprocess w)))
              (get_previous_position
                 (p_source_position_ (prepared cmd is_reprocess w))) = false)
      as Hne.
    { unfold arc_eligible, extrusion_ok. rewrite prepared_waiting, Hw, Hx, Hr.
      cbn [negb orb]. now rewrite !andb_false_r. }
    rewrite process_gcode_pass_unfold. cbv zeta. rewrite Hne. unfold ret at 1.
    fold (measured cmd is_reprocess w).
    set (w2 := prepared cmd is_reprocess w) in *.
    assert (waiting_for_arc_ w2 = true) as Hw2
      by (unfold w2; now rewrite prepared_waiting).
    assert (unwritten_commands_ w2 = unwritten_commands_ w) as Hu2
      by apply prepared_unwritten.
    destruct (Z.ltb_spec (get_num_segments (current_arc_ w2))
                (get_min_segments (current_arc_ w2))) as [Hlt|Hge].
    { rewrite commit_or_abort_aborts by auto.
      rewrite defer_command_runs. cbv zeta.
      unfold aborted at 1 2. fields. cbn [orb negb].
      repeat (split; [reflexivity|]). right. auto. }
    destruct (is_shape (current_arc_ w2)) eqn:Hs.
    2: { rewrite commit_or_abort_aborts by auto.
         rewrite defer_command_runs. cbv zeta.
         unfold aborted at 1 2. fields. cbn [orb negb].
         repeat (split; [reflexivity|]). right. auto. }
    destruct (le_lt_dec
                (Z.to_nat (get_num_segments (current_arc_ w2) - 1))
                (List.length (unwritten_commands_ w2))) as [Hle|Hshort].
    + destruct (enough_buffered_split w2 Hle) as (kept & absorbed & Hl & Hn).
      rewrite (commit_or_abort_commits cmd is_end _ w2 kept absorbed)
        by auto.
      destruct (committed_fields
                  (f (get_previous_position (p_source_position_ w2)))
                  kept absorbed w2) as (_ & Hidle & He & Ha & _).
      split; [exact Hidle|]. split; [exact Ha|]. split; [exact He|].
      left. split; [reflexivity|]. split; [exact Hge|].
      split; [reflexivity|]. exists kept, absorbed.
      rewrite <- Hu2. auto.
    + assert (commit_or_abort cmd is_end false
                (get_previous_position (p_source_position_ w2)) w2
              = Fail exception_thrown \/
              commit_or_abort cmd is_end false
                (get_previous_position (p_source_position_ w2)) w2
              = Fail out_of_range) as Hfail.
      { unfold commit_or_abort. rewrite Hb. cbn [negb andb]. run.
        destruct (Z.ltb_spec (get_num_segments (current_arc_ w2))
                    (get_min_segments (current_arc_ w2))); [lia|].
        rewrite Hw2, Hs.
        change (set_arcs_created_ _ _) with (counted w2).
        destruct (write_arc_gcodes _ _ (counted w2)) as [[[] w5]|e] eqn:Hc.
        - apply write_arc_gcodes_inv in Hc as (kept & absorbed & Hl & Hn & _).
          exfalso. change (unwritten_commands_ (counted w2))
            with (unwritten_commands_ w2) in Hl.
          change (current_arc_ (counted w2)) with (current_arc_ w2) in Hn.
          rewrite Hl, length_app in Hshort. lia.
        - pose proof (write_arc_gcodes_failure _ _ _ _ Hc) as [Hne' _].
          destruct e; auto. now destruct Hne'. }
      rewrite <- Hu2.
      destruct Hfail as [-> | ->]; (split; [discriminate|auto]).
Qed.

(** C2, where the code departs from it.  An arc of [N] points is being
    built from the [N - 1] moves in the buffer, [first] being the oldest.
    A blank line arrives, then a command that is not a move: the commit
    takes [N - 1] entries from the back of the buffer, which now are the
    blank line and all the moves but [first].  So [first], a move the arc
    absorbs, is written to the target just before the arc. *)
Theorem blank_line_shifts_absorbed_entries blank cmd first rest w :
  waiting_for_arc_ w = true ->
  is_shape (current_arc_ w) = true ->
  get_min_segments (current_arc_ w) <= get_num_segments (current_arc_ w) ->
  unwritten_commands_ w = first :: rest ->
  List.length (first :: rest)
  = Z.to_nat (get_num_segments (current_arc_ w) - 1) ->
  good (output_file_ w) = true ->
  is_blank blank = true ->
  command blank = "" ->
  is_g1_g2 cmd = false ->
  is_blank cmd = false ->
  exists w1 w2 text,
    process_gcode blank false false w = Ok (0, w1)
    /\ process_gcode_pass cmd false false w1 = Ok (reprocess, w2)
    /\ written (output_file_ w2)
       = (written (output_file_ w)
          ++ [flushed_lines (to_string first ++ newline);
              arc_line (get_num_segments (current_arc_ w)) text])%list.
Proof.
  intros Hw Hs Hmin Hl Hn Hg Hb Hcmd Hg1 Hnb.
  assert (is_g1_g2 blank = false) as Hgb by (unfold is_g1_g2; now rewrite Hcmd).
  set (w1 := deferred (measured blank false w) (prepared blank false w)).
  assert (process_gcode blank false false w = Ok (0, w1)) as H1.
  { unfold process_gcode. cbn [process_gcode_rec]. unfold bind.
    now rewrite (blank_pass _ _ _ _ Hw Hb). }
  assert (current_arc_ w1 = current_arc_ w) as Ha
    by (unfold w1, deferred; fields; now apply prepared_arc).
  assert (current_arc_ (prepared cmd false w1) = current_arc_ w) as Ha2
    by (now rewrite prepared_arc).
  set (entry :=
         make_unwritten_command (p_source_position_ (prepared blank false w))
           (measured blank false w)).
  assert (unwritten_commands_ w1 = ([first] ++ (rest ++ [entry]))%list) as Hl1.
  { unfold w1, deferred, array_list.push_back. fields.
    now rewrite prepared_unwritten, Hl. }
  assert (waiting_for_arc_ w1 = true) as Hw1
    by (unfold w1, deferred; fields; now rewrite prepared_waiting).
  pose proof (commit_pass cmd false false w1 [first] (rest ++ [entry])%list)
    as H2.
  cbv zeta in H2. rewrite Ha2 in H2.
  specialize (H2 Hw1 (not_g1_not_eligible _ _ _ _ _ Hg1) Hnb Hmin Hs Hl1).
  rewrite length_app, Nat.add_comm in H2. specialize (H2 Hn).
  eexists w1, _, _. split; [exact H1|]. split; [exact H2|].
  unfold committed, counted, flushed. cbv zeta. fields.
  rewrite prepared_output, Ha2.
  unfold w1, deferred. fields. rewrite prepared_output.
  unfold put. rewrite Hg. cbn [good is_open failbit written negb andb].
  rewrite <- app_assoc. reflexivity.
Qed.


(** The reports return. *)
Lemma get_progress_reads env source_file_position start_clock w :
  exists progress,
    get_progress_ default_progress env source_file_position start_clock w
    = Ok (progress, set_clock_reads (S (clock_reads w)) w).
Proof. unfold get_progress_, read_clock. run. eexists. reflexivity. Qed.

Lemma on_progress_calls progress w :
  exists continue_processing w',
    on_progress_ progress w = Ok (continue_processing, w')
    /\ (w' = w \/ w' = set_callback_calls (S (callback_calls w)) w).
Proof.
  unfold on_progress_. destruct (progress_callback_ w); eauto.
Qed.

(** C5, where the code departs from it.  The stream ends while an arc that
    is a shape is being built, and the last line read was blank.  [finish]
    passes that stale command to [process_gcode], whose commit-or-abort
    branch does nothing for a blank command: no arc is written or counted.
    The buffer, with one more entry for the blank line, is written as it
    is. *)
Theorem final_shape_dropped_after_blank_line env continue_processing cmd
  start_clock w :
  waiting_for_arc_ w = true ->
  is_shape (current_arc_ w) = true ->
  is_blank cmd = true ->
  exists r w',
    finish default_progress env continue_processing cmd start_clock w
    = Ok (r, w')
    /\ arcs_created (progress r) = arcs_created_ w
    /\ points_compressed (progress r) = points_compressed_ w
    /\ arcs_emitted (output_file_ w') = arcs_emitted (output_file_ w)
    /\ written (output_file_ w')
       = written
           (put (flushed_lines
                   (lines_text
                      (unwritten_commands_ w
                       ++ [make_unwritten_command
                             (update cmd (lines_processed_ w)
                                (gcodes_processed_ w) (-1)
                                (p_source_position_ w))
                             (measured cmd false w)])
                      ""))
              (output_file_ w)).
Proof.
  intros Hw Hs Hb. unfold finish. run. rewrite Hs, Hw. cbn [andb].
  unfold process_gcode. cbn [process_gcode_rec]. unfold bind at 1.
  rewrite (blank_pass _ _ _ _ Hw Hb). unfold ret at 1.
  rewrite write_unwritten_gcodes_to_file_flushes.
  set (w3 := flushed _).
  destruct (get_progress_ default_progress env (file_size_ w3) start_clock w3)
    as [[final_progress w4]|e] eqn:H4.
  2: { destruct (get_progress_reads env (file_size_ w3)
                   start_clock w3) as (p & Hp). congruence. }
  apply get_progress_reports in H4 as (-> & Hp & Hn).
  destruct (on_progress_calls final_progress
              (set_clock_reads (S (clock_reads w3)) w3))
    as (c & w5 & -> & Hw5).
  unfold read_clock. do 2 eexists. split; [reflexivity|].
  cbn [progress]. rewrite Hp, Hn.
  assert (points_compressed_ w3 = points_compressed_ w
          /\ arcs_created_ w3 = arcs_created_ w
          /\ output_file_ w3
             = put (flushed_lines
                      (lines_text
                         (unwritten_commands_ w
                          ++ [make_unwritten_command
                                (update cmd (lines_processed_ w)
                                   (gcodes_processed_ w) (-1)
                                   (p_source_position_ w))
                                (measured cmd false w)])
                         ""))
                 (output_file_ w)) as (H1 & H2 & H3).
  { unfold w3, flushed, deferred, array_list.push_back. fields.
    now rewrite prepared_points, prepared_arcs, prepared_output,
      prepared_unwritten, prepared_tracker. }
  destruct Hw5 as [->| ->]; fields; rewrite H3;
    unfold close, arcs_emitted; cbn [written];
    fold (arcs_emitted
            (put (flushed_lines
                    (lines_text
                       (unwritten_commands_ w
                        ++ [make_unwritten_command
                              (update cmd (lines_processed_ w)
                                 (gcodes_processed_ w) (-1)
                                 (p_source_position_ w))
                              (measured cmd false w)])
                       ""))
               (output_file_ w)));
    rewrite arcs_emitted_put_lines; auto.
Qed.

End Building.

(** ** The second pass *)

Section Reentered.

Context {arc gp stats : Type}.
Context {engine : SegmentedArc arc}.
Context {tracker : GcodePosition gp}.
Context {histogram : SegmentStatistics stats}.
Context {platform : Platform}.

Local Abbreviation state := (arc_welder arc gp stats).
Implicit Type w : state.


End Reentered.

(** ** What a report keeps *)

#[export] Instance carries_on_preorder {arc gp stats : Type}
  {engine : SegmentedArc arc} :
  PreOrder (carries_on (arc:=arc) (gp:=gp) (stats:=stats)).
Proof.
  split.
  - intros w. unfold carries_on. repeat split. apply appends_refl.
  - intros w1 w2 w3 (H1 & H2 & H3) (H4 & H5 & H6).
    split; [congruence|]. split; [congruence|].
    eapply appends_trans; eassumption.
Qed.

Section WholeRuns.
Context {arc gp stats : Type}.
Context {engine : SegmentedArc arc}.
Context {tracker : GcodePosition gp}.
Context {histogram : SegmentStatistics stats}.
Context {platform : Platform}.
Variable default_progress : arc_welder_progress stats.
Local Abbreviation state := (arc_welder arc gp stats).
Implicit Type w : state.

Lemma steady_carries_on w w' : steady w w' -> carries_on w w'.
Proof.
  intros [Hu Ha]. unfold untouched in Hu. unfold carries_on. intuition.
Qed.

Lemma same_output_carries_on w w' :
  progress_callback_ w' = progress_callback_ w ->
  file_size_ w' = file_size_ w ->
  output_file_ w' = output_file_ w ->
  carries_on w w'.
Proof.
  intros H1 H2 H3. split; [exact H1|]. split; [exact H2|].
  unfold appends. rewrite H3. repeat split. exists []. now rewrite app_nil_r.
Qed.

(** A report: what it reads and the one thing it changes. *)
Lemma get_progress_fields env source_file_position start_clock w progress w' :
  get_progress_ default_progress env source_file_position start_clock w
  = Ok (progress, w') ->
  w' = set_clock_reads (S (clock_reads w)) w
  /\ lines_processed progress = lines_processed_ w
  /\ gcodes_processed progress = gcodes_processed_ w
  /\ points_compressed progress = points_compressed_ w
  /\ arcs_created progress = arcs_created_ w.
Proof.
  unfold get_progress_, read_clock. run. intros [= <- <-].
  repeat split; now destruct (0 <? source_file_position).
Qed.

Lemma on_progress_outcome progress w c w' :
  on_progress_ progress w = Ok (c, w') ->
  (progress_callback_ w = None /\ c = true /\ w' = w)
  \/ (exists callback,
        progress_callback_ w = Some callback
        /\ c = callback (callback_calls w) progress
        /\ w' = set_callback_calls (S (callback_calls w)) w).
Proof.
  unfold on_progress_. destruct (progress_callback_ w) as [callback|];
    intros [= <- <-]; [right; now exists callback|now left].
Qed.

Lemma reported_refl w : reported w w.
Proof. unfold reported. now repeat split. Qed.

Lemma reported_trans w1 w2 w3 :
  reported w1 w2 -> reported w2 w3 -> reported w1 w3.
Proof. unfold reported. intuition congruence. Qed.

Lemma get_progress_reported env p s w progress w' :
  get_progress_ default_progress env p s w = Ok (progress, w') ->
  reported w w'.
Proof.
  intros H. apply get_progress_fields in H as (-> & _).
  unfold reported. fields. now repeat split.
Qed.

Lemma on_progress_reported progress w c w' :
  on_progress_ progress w = Ok (c, w') -> reported w w'.
Proof.
  intros H. apply on_progress_outcome in H as [(_ & _ & ->)|(cb & _ & _ & ->)];
    unfold reported; fields; now repeat split.
Qed.

Lemma periodic_update_outcome env has_gcode c t s w u w' :
  periodic_update default_progress env has_gcode c t s w = Ok (u, w') ->
  reported w w'
  /\ (progress_callback_ w = None -> c = true -> fst u = true).
Proof.
  unfold periodic_update.
  destruct has_gcode; [|intros [= <- <-]; split; [apply reported_refl|auto]].
  intros H. apply bind_inv in H as (n & w1 & [= <- <-] & H).
  destruct (_ =? 0); [|injection H as <- <-; split; [apply reported_refl|auto]].
  apply bind_inv in H as (now & w1 & H1 & H).
  assert (reported w w1) as R1.
  { revert H1. unfold read_clock. intros [= _ <-].
    unfold reported. fields. now repeat split. }
  destruct (PrimFloat.ltb _ _);
    [|injection H as <- <-; split; [exact R1|auto]].
  apply bind_inv in H as (position & w2 & [= _ <-] & H).
  apply bind_inv in H as (progress & w3 & H3 & H).
  pose proof (get_progress_reported _ _ _ _ _ _ H3) as R3.
  apply bind_inv in H as (c' & w4 & H4 & H).
  pose proof (on_progress_reported _ _ _ _ H4) as R4.
  apply bind_inv in H as (t' & w5 & H5 & H).
  injection H as <- <-.
  assert (reported w4 w5) as R5.
  { revert H5. unfold get_next_update_time, read_clock. run.
    intros [= _ <-]. unfold reported. fields. now repeat split. }
  split; [eauto using reported_trans|].
  intros Hnone. cbn [fst].
  apply on_progress_outcome in H4 as [(_ & -> & _)|(cb & Hcb & _)].
  - reflexivity.
  - destruct R1 as (_ & _ & _ & _ & Hc1 & _).
    destruct R3 as (_ & _ & _ & _ & Hc3 & _). congruence.
Qed.
End WholeRuns.

(** ** The loop over the lines *)

Section Loop.
Context {arc gp stats : Type}.
Context {engine : SegmentedArc arc}.
Context {tracker : GcodePosition gp}.
Context {histogram : SegmentStatistics stats}.
Context {platform : Platform}.
Variable default_progress : arc_welder_progress stats.
Local Abbreviation state := (arc_welder arc gp stats).
Implicit Type w : state.

Lemma reported_carries_on w w' : reported w w' -> carries_on w w'.
Proof.
  intros (_ & _ & _ & _ & H1 & H2 & H3 & _).
  now apply same_output_carries_on.
Qed.

(** The controller when a line has been counted. *)
Lemma line_counted_fields line w :
  let w3 := line_counted line w in
  carries_on w w3
  /\ lines_processed_ w3 = int_add (lines_processed_ w) 1
  /\ gcodes_processed_ w3
     = (if has_length (gcode (try_parse_gcode line))
        then int_add (gcodes_processed_ w) 1 else gcodes_processed_ w)
  /\ clock_reads w3 = clock_reads w
  /\ callback_calls w3 = callback_calls w
  /\ lines_read (gcodeFile w3) = S (lines_read (gcodeFile w)).
Proof.
  cbv zeta. unfold line_counted. cbv zeta.
  destruct (has_length _); fields;
    (split; [now apply same_output_carries_on|now repeat split]).
Qed.

(** One turn of the loop: the line is counted, its command goes through
    [process_gcode], and the progress update may consult the callback. *)
Lemma process_lines_step env line rest cmd0 t s w :
  process_lines default_progress env (line :: rest) true cmd0 t s w
  = (process_gcode (try_parse_gcode line) false false ;;
     update <- periodic_update default_progress env
                 (has_length (gcode (try_parse_gcode line))) true t s ;;
     process_lines default_progress env rest (fst update)
       (try_parse_gcode line) (snd update) s) (line_counted line w).
Proof.
  cbn [process_lines]. unfold getline, line_counted. run. cbv zeta.
  now destruct (has_length (gcode (try_parse_gcode line))).
Qed.

Lemma process_lines_stopped env rest cmd t s w :
  process_lines default_progress env rest false cmd t s w
  = Ok ((false, cmd),
        match rest with
        | [] => w
        | _ :: _ =>
            set_gcodeFile
              {| source_is_open := source_is_open (gcodeFile w);
                 lines_read := S (lines_read (gcodeFile w)) |} w
        end).
Proof. now destruct rest. Qed.

Lemma process_lines_outcome env (lines : list string) :
  forall c cmd t s w loop w',
    process_lines default_progress env lines c cmd t s w = Ok (loop, w') ->
    carries_on w w'
    /\ (c = false ->
        fst loop = false
        /\ lines_processed_ w' = lines_processed_ w
        /\ gcodes_processed_ w' = gcodes_processed_ w)
    /\ (progress_callback_ w = None -> c = true -> fst loop = true)
    /\ exists k j : nat,
         (j <= k <= List.length lines)%nat
         /\ lines_processed_ w'
            = Nat.iter k (fun z => int_add z 1) (lines_processed_ w)
         /\ gcodes_processed_ w'
            = Nat.iter j (fun z => int_add z 1) (gcodes_processed_ w)
         /\ (fst loop = true ->
             c = true
             /\ k = List.length lines
             /\ j = List.length (gcode_lines lines)).
Proof.
  induction lines as [|line lines IH]; intros c cmd t s w loop w'.
  - cbn [process_lines]. intros [= <- <-]. cbn [fst].
    split; [reflexivity|]. split; [auto|]. split; [auto|].
    exists O, O. cbn. repeat split; auto.
  - destruct c.
    2: { rewrite process_lines_stopped. intros [= <- <-]. cbn [fst]. fields.
         split; [now apply same_output_carries_on|].
         split; [auto|]. split; [discriminate|].
         exists O, O. cbn. repeat split; lia. }
    rewrite process_lines_step. intros H.
    destruct (line_counted_fields line w) as (C3 & L3 & G3 & _).
    set (w3 := line_counted line w) in *.
    apply bind_inv in H as (n & w4 & H4 & H).
    apply process_gcode_rec_steady in H4 as [S4 _].
    pose proof (steady_carries_on _ _ S4) as C4.
    destruct S4 as [(_ & _ & _ & _ & _ & _ & Hl4 & Hg4 & _) _].
    apply bind_inv in H as (u & w5 & H5 & H).
    apply periodic_update_outcome in H5 as (R5 & F5).
    pose proof (reported_carries_on _ _ R5) as C5.
    destruct R5 as (Hl5 & Hg5 & _).
    apply IH in H as (C6 & F6 & N6 & k & j & Hkj & Lk & Gj & T6).
    assert (carries_on w w') as C.
    { transitivity w3; [exact C3|]. transitivity w4; [exact C4|].
      transitivity w5; [exact C5|exact C6]. }
    assert (progress_callback_ w4 = progress_callback_ w) as Hcb4.
    { destruct C3 as (Hc3 & _), C4 as (Hc4 & _). congruence. }
    assert (progress_callback_ w5 = progress_callback_ w) as Hcb5.
    { destruct C5 as (Hc5 & _). congruence. }
    split; [exact C|]. split; [discriminate|].
    split.
    { intros Hnone _. apply N6; [congruence|].
      apply F5; [congruence|reflexivity]. }
    cbn [List.length gcode_lines filter]. fold (gcode_lines lines).
    rewrite Hl5, Hl4, L3 in Lk. rewrite Hg5, Hg4, G3 in Gj.
    destruct (has_length (gcode (try_parse_gcode line))).
    + exists (S k), (S j). rewrite !Nat.iter_succ_r.
      split; [lia|]. split; [exact Lk|]. split; [exact Gj|].
      intros Ht. destruct (T6 Ht) as (_ & -> & ->).
      cbn [List.length]. auto.
    + exists (S k), j. rewrite Nat.iter_succ_r.
      split; [lia|]. split; [exact Lk|]. split; [exact Gj|].
      intros Ht. destruct (T6 Ht) as (_ & -> & ->). auto.
Qed.
End Loop.

(** ** The end of a run *)

Section Ends.
Context {arc gp stats : Type}.
Context {engine : SegmentedArc arc}.
Context {tracker : GcodePosition gp}.
Context {histogram : SegmentStatistics stats}.
Context {platform : Platform}.
Variable default_progress : arc_welder_progress stats.
Local Abbreviation state := (arc_welder arc gp stats).
Implicit Type w : state.

(** The steps of [finish] after the last arc. *)
Lemma finish_steps env continue_processing cmd start_clock w r w' :
  finish default_progress env continue_processing cmd start_clock w
  = Ok (r, w') ->
  exists w2 final_progress w5,
    when (is_shape (current_arc_ w) && waiting_for_arc_ w)
      (process_gcode cmd true false ;; ret tt) w = Ok (tt, w2)
    /\ get_progress_ default_progress env (file_size_ (flushed w2))
         start_clock (flushed w2)
       = Ok (final_progress,
             set_clock_reads (S (clock_reads (flushed w2))) (flushed w2))
    /\ reported (flushed w2) w5
    /\ r = {| success := continue_processing;
              cancelled := negb continue_processing;
              message := "";
              progress := final_progress |}
    /\ w' = set_clock_reads (S (clock_reads w5))
              (set_gcodeFile (close_source (gcodeFile w5))
                 (set_output_file_ (close (output_file_ w5)) w5)).
Proof.
  intros H. unfold finish in H.
  apply bind_inv in H as (final_shape & w1 & [= <- <-] & H).
  apply bind_inv in H as ([] & w2 & H2 & H).
  apply bind_inv in H as (size & w3 & H3 & H).
  rewrite write_unwritten_gcodes_to_file_flushes in H3.
  injection H3 as _ <-.
  apply bind_inv in H as (file_size & w4 & [= <- <-] & H).
  apply bind_inv in H as (final_progress & w5 & H5 & H).
  pose proof (get_progress_fields _ _ _ _ _ _ _ H5) as (-> & _).
  apply bind_inv in H as (c & w6 & H6 & H).
  revert H. run. unfold read_clock. intros [= <- <-].
  exists w2, final_progress, w6.
  split; [exact H2|]. split; [exact H5|].
  split.
  - eapply reported_trans; [|eapply on_progress_reported, H6].
    unfold reported. fields. now repeat split.
  - split; reflexivity.
Qed.

Lemma final_pass_steady cmd w w2 :
  when (is_shape (current_arc_ w) && waiting_for_arc_ w)
    (process_gcode cmd true false ;; ret tt) w = Ok (tt, w2) ->
  steady w w2.
Proof.
  destruct (_ && _); cbn [when].
  - intros H. apply bind_inv in H as (n & w1 & H1 & [= <-]).
    now apply process_gcode_rec_steady in H1.
  - intros [= <-]. apply steady_refl.
Qed.

(** What every run of [finish] that returns leaves. *)
Lemma finish_outcome env continue_processing cmd start_clock w r w' :
  finish default_progress env continue_processing cmd start_clock w
  = Ok (r, w') ->
  success r = continue_processing
  /\ cancelled r = negb continue_processing
  /\ message r = ""
  /\ lines_processed (progress r) = lines_processed_ w
  /\ gcodes_processed (progress r) = gcodes_processed_ w
  /\ is_open (output_file_ w') = false
  /\ source_is_open (gcodeFile w') = false
  /\ unwritten_commands_ w' = []
  /\ exists suffix,
       written (output_file_ w')
       = (written (output_file_ w) ++ suffix)%list
       /\ Forall genuine suffix.
Proof.
  intros H. apply finish_steps in H
    as (w2 & final_progress & w5 & H2 & H5 & R5 & -> & ->).
  apply final_pass_steady in H2 as [U2 A2].
  apply get_progress_fields in H5 as (_ & Hl & Hg & _).
  destruct U2 as (_ & _ & _ & _ & _ & _ & Hl2 & Hg2 & _).
  destruct R5 as (_ & _ & _ & _ & _ & _ & Ho5 & _ & Hu5 & _).
  cbn [success cancelled message progress]. fields.
  repeat (split; [reflexivity|]).
  split; [now rewrite Hl|]. split; [now rewrite Hg|].
  repeat (split; [reflexivity|]).
  split; [rewrite Hu5; reflexivity|].
  rewrite Ho5. unfold close. cbn [written].
  destruct A2 as (_ & _ & s2 & Hs2 & G2).
  destruct (steady_flushed w2) as [_ (_ & _ & s3 & Hs3 & G3)].
  exists (s2 ++ s3)%list. split; [now rewrite Hs3, Hs2, app_assoc|].
  apply Forall_app. now split.
Qed.

(** The run from the header on. *)
Lemma process_opened_outcome env lines next_update_time start_clock w r w' :
  process_opened default_progress env lines next_update_time start_clock w
  = Ok (r, w') ->
  good (output_file_ w) = true ->
  cancelled r = negb (success r)
  /\ message r = ""
  /\ (progress_callback_ w = None -> success r = true)
  /\ is_open (output_file_ w') = false
  /\ source_is_open (gcodeFile w') = false
  /\ unwritten_commands_ w' = []
  /\ (exists rest,
        written (output_file_ w')
        = (written (output_file_ w)
           ++ header_text (arcwelder_comment w) :: rest)%list
        /\ Forall genuine rest)
  /\ exists k j : nat,
       (j <= k <= List.length lines)%nat
       /\ lines_processed (progress r)
          = Nat.iter k (fun z => int_add z 1) (lines_processed_ w)
       /\ gcodes_processed (progress r)
          = Nat.iter j (fun z => int_add z 1) (gcodes_processed_ w)
       /\ (success r = true ->
           k = List.length lines
           /\ j = List.length (gcode_lines lines)).
Proof.
  intros H Hg. unfold process_opened in H.
  apply bind_inv in H as ([] & w1 & H1 & H).
  revert H1. unfold add_arcwelder_comment_to_target. intros [= <-].
  set (w1 := set_output_file_ _ w) in *.
  assert (written (output_file_ w1)
          = (written (output_file_ w) ++ [header_text (arcwelder_comment w)])%list)
    as Hw1 by (unfold w1, put; fields; now rewrite Hg).
  apply bind_inv in H as (position & w2 & [= _ <-] & H).
  apply bind_inv in H as (report & w3 & H3 & H).
  apply get_progress_reported in H3 as R3.
  apply bind_inv in H as (c & w4 & H4 & H).
  pose proof (on_progress_reported _ _ _ _ H4) as R4.
  pose proof (reported_trans _ _ _ R3 R4)
    as (Hl & Hgc & _ & _ & Hcb & _ & Ho & _).
  apply bind_inv in H as (loop & w5 & H5 & H).
  apply process_lines_outcome in H5
    as (C5 & F5 & N5 & k & j & Hkj & Lk & Gj & T5).
  apply finish_outcome in H
    as (Hs & Hc & Hm & Hl6 & Hg6 & Hopen & Hsrc & Hu & s6 & Hs6 & G6).
  change (lines_processed_ w1) with (lines_processed_ w) in Hl.
  change (gcodes_processed_ w1) with (gcodes_processed_ w) in Hgc.
  change (progress_callback_ w1) with (progress_callback_ w) in Hcb.
  rewrite Hl6, Hg6, Hs, Hc. rewrite Hl in Lk. rewrite Hgc in Gj.
  split; [reflexivity|]. split; [exact Hm|].
  split.
  { intros Hnone. apply N5; [congruence|].
    apply on_progress_outcome in H4 as [(_ & -> & _)|(cb & Hcb4 & _)];
      [reflexivity|].
    destruct R3 as (_ & _ & _ & _ & Hcb3 & _).
    change (progress_callback_ w1) with (progress_callback_ w) in Hcb3.
    congruence. }
  repeat (split; [assumption|]).
  split.
  { destruct C5 as (_ & _ & _ & _ & s5 & Hs5 & G5).
    exists (s5 ++ s6)%list. split.
    - rewrite Hs6, Hs5, Ho, Hw1, <- !app_assoc. reflexivity.
    - apply Forall_app. now split. }
  exists k, j. split; [exact Hkj|]. split; [exact Lk|]. split; [exact Gj|].
  intros Ht. now destruct (T5 Ht) as (_ & ? & ?).
Qed.
End Ends.

(** ** The start of a run *)

Section Starts.
Context {arc gp stats : Type}.
Context {engine : SegmentedArc arc}.
Context {tracker : GcodePosition gp}.
Context {histogram : SegmentStatistics stats}.
Context {platform : Platform}.
Variable default_progress : arc_welder_progress stats.
Local Abbreviation state := (arc_welder arc gp stats).
Implicit Type w : state.

Lemma lines_text_flush_text l : lines_text l "" = flush_text l.
Proof. now rewrite lines_text_concat. Qed.

Lemma process_started env w lines :
  source_lines env = Some lines ->
  target_opens env = true ->
  is_open (output_file_ w) = false ->
  process default_progress env w
  = process_opened default_progress env lines
      (double_of_Z
         (clock env (clock_reads w)
          + notification_period_seconds w * CLOCKS_PER_SEC))
      (clock env (S (clock_reads w))) (started env w).
Proof.
  intros Hs Ht Hc.
  unfold process, reset, get_next_update_time, read_clock. run. rewrite Hs.
  unfold open. fields. rewrite Hc, Ht. cbn [is_open negb].
  reflexivity.
Qed.

Lemma get_progress_returns env p s w :
  exists report,
    get_progress_ default_progress env p s w
    = Ok (report, set_clock_reads (S (clock_reads w)) w)
    /\ lines_processed report = lines_processed_ w
    /\ gcodes_processed report = gcodes_processed_ w
    /\ points_compressed report = points_compressed_ w
    /\ arcs_created report = arcs_created_ w.
Proof.
  destruct (get_progress_reads default_progress env p s w) as (report & H).
  exists report. split; [exact H|].
  now apply get_progress_fields in H as (_ & H).
Qed.

Lemma on_progress_returns report w :
  exists c w',
    on_progress_ report w = Ok (c, w')
    /\ reported w w'
    /\ (progress_callback_ w = None ->
        c = true /\ callback_calls w' = callback_calls w)
    /\ (forall callback,
          progress_callback_ w = Some callback ->
          c = callback (callback_calls w) report
          /\ callback_calls w' = S (callback_calls w)).
Proof.
  unfold on_progress_. destruct (progress_callback_ w) as [cb|];
    do 2 eexists; (split; [reflexivity|]);
    (split; [unfold reported; fields; now repeat split|]);
    split; try discriminate; auto.
  now intros cb' [= <-].
Qed.

(** The arc line a commit writes, after the entries it keeps. *)
Lemma committed_written current_feedrate kept absorbed w :
  good (output_file_ w) = true ->
  output_file_ (committed current_feedrate kept absorbed w)
  = {| is_open := true; failbit := false;
       written :=
         (written (output_file_ w)
          ++ [flushed_lines (flush_text kept);
              arc_line (get_num_segments (current_arc_ w))
                (spec_arc_line (previous_is_extruder_relative_ w)
                   (arc_offset_e w) (arc_feedrate current_feedrate w)
                   (arc_comment (map uc_comment absorbed))
                   (current_arc_ w))])%list |}.
Proof.
  intros Hg. unfold committed, flushed. cbv zeta. fields.
  rewrite arc_gcode_spec. fields.
  rewrite lines_text_flush_text. unfold put. rewrite Hg.
  cbn [good is_open failbit negb andb written].
  rewrite <- app_assoc. reflexivity.
Qed.

(** The end of a run once the last arc is dealt with. *)
Lemma finish_from env continue_processing cmd start_clock w w2 :
  when (is_shape (current_arc_ w) && waiting_for_arc_ w)
    (process_gcode cmd true false ;; ret tt) w = Ok (tt, w2) ->
  exists r w',
    finish default_progress env continue_processing cmd start_clock w
    = Ok (r, w')
    /\ success r = continue_processing
    /\ cancelled r = negb continue_processing
    /\ lines_processed (progress r) = lines_processed_ w2
    /\ gcodes_processed (progress r) = gcodes_processed_ w2
    /\ points_compressed (progress r) = points_compressed_ w2
    /\ arcs_created (progress r) = arcs_created_ w2
    /\ output_file_ w'
       = close
           (put (flushed_lines (flush_text (unwritten_commands_ w2)))
              (output_file_ w2))
    /\ unwritten_commands_ w' = []
    /\ gcodeFile w' = close_source (gcodeFile w2)
    /\ (progress_callback_ w2 = None ->
        callback_calls w' = callback_calls w2)
    /\ (forall callback,
          progress_callback_ w2 = Some callback ->
          callback_calls w' = S (callback_calls w2)).
Proof.
  intros H2. unfold finish. unfold gets at 1. unfold bind at 1.
  unfold bind at 1. rewrite H2.
  unfold bind at 1. rewrite write_unwritten_gcodes_to_file_flushes.
  unfold gets at 1. unfold bind at 1.
  destruct (get_progress_returns env (file_size_ (flushed w2)) start_clock
              (flushed w2)) as (report & H & Hl & Hg & Hp & Hn).
  unfold bind at 1. rewrite H.
  destruct (on_progress_returns report
              (set_clock_reads (S (clock_reads (flushed w2))) (flushed w2)))
    as (c & w5 & H5 & R5 & N5 & C5).
  unfold bind at 1. rewrite H5. run. unfold read_clock.
  do 2 eexists. split; [reflexivity|].
  cbn [success cancelled progress]. fields.
  destruct R5 as (_ & _ & _ & _ & _ & _ & Ho & Hgf & Hu & _).
  rewrite Ho, Hgf, Hu, Hl, Hg, Hp, Hn. unfold flushed. fields.
  rewrite lines_text_flush_text.
  repeat (split; [reflexivity|]).
  split; [intros Hnone; now destruct (N5 Hnone)|].
  intros cb Hcb. now destruct (C5 cb Hcb).
Qed.

(** The end of a run in which no arc is being built. *)
Lemma finish_idle env continue_processing cmd start_clock w :
  waiting_for_arc_ w = false ->
  exists r w',
    finish default_progress env continue_processing cmd start_clock w
    = Ok (r, w')
    /\ success r = continue_processing
    /\ cancelled r = negb continue_processing
    /\ lines_processed (progress r) = lines_processed_ w
    /\ gcodes_processed (progress r) = gcodes_processed_ w
    /\ points_compressed (progress r) = points_compressed_ w
    /\ arcs_created (progress r) = arcs_created_ w
    /\ output_file_ w'
       = close
           (put (flushed_lines (flush_text (unwritten_commands_ w)))
              (output_file_ w))
    /\ unwritten_commands_ w' = []
    /\ gcodeFile w' = close_source (gcodeFile w)
    /\ (progress_callback_ w = None ->
        callback_calls w' = callback_calls w)
    /\ (forall callback,
          progress_callback_ w = Some callback ->
          callback_calls w' = S (callback_calls w)).
Proof.
  intros Hw. apply finish_from. now rewrite Hw, andb_false_r.
Qed.

(** The run from the header on, when the loop processes no line. *)
Lemma process_opened_without_lines env lines t s w :
  good (output_file_ w) = true ->
  waiting_for_arc_ w = false ->
  lines = []
  \/ (exists callback,
        progress_callback_ w = Some callback
        /\ forall p, callback (callback_calls w) p = false) ->
  exists r w',
    process_opened default_progress env lines t s w = Ok (r, w')
    /\ cancelled r = negb (success r)
    /\ (progress_callback_ w = None -> success r = true)
    /\ (forall callback,
          progress_callback_ w = Some callback ->
          (exists p, success r = callback (callback_calls w) p)
          /\ callback_calls w' = S (S (callback_calls w)))
    /\ lines_processed (progress r) = lines_processed_ w
    /\ gcodes_processed (progress r) = gcodes_processed_ w
    /\ points_compressed (progress r) = points_compressed_ w
    /\ arcs_created (progress r) = arcs_created_ w
    /\ written (output_file_ w')
       = (written (output_file_ w)
          ++ [header_text (arcwelder_comment w);
              flushed_lines (flush_text (unwritten_commands_ w))])%list
    /\ is_open (output_file_ w') = false
    /\ source_is_open (gcodeFile w') = false
    /\ lines_read (gcodeFile w')
       = (lines_read (gcodeFile w)
          + match lines with [] => 0 | _ :: _ => 1 end)%nat.
Proof.
  intros Hg Hw Hno. unfold process_opened.
  unfold add_arcwelder_comment_to_target. unfold modify at 1.
  unfold bind at 1. unfold gets at 1. unfold bind at 1.
  set (w1 := set_output_file_ _ w).
  destruct (get_progress_returns env (tellg env (lines_read (gcodeFile w1)))
              (double_of_Z s) w1) as (report & H & _).
  unfold bind at 1. rewrite H.
  set (w2 := set_clock_reads _ w1) in *.
  destruct (on_progress_returns report w2) as (c & w3 & H3 & R3 & N3 & C3).
  unfold bind at 1. rewrite H3.
  assert (exists w4,
             process_lines default_progress env lines c empty_command t
               (double_of_Z s) w3 = Ok ((c, empty_command), w4)
             /\ reported (set_gcodeFile (gcodeFile w4) w3) w4
             /\ callback_calls w4 = callback_calls w3
             /\ gcodeFile w4
                = {| source_is_open := source_is_open (gcodeFile w3);
                     lines_read :=
                       (lines_read (gcodeFile w3)
                        + match lines with [] => 0 | _ :: _ => 1 end)%nat |})
    as (w4 & H4 & R4 & K4 & G4).
  { destruct lines as [|line rest].
    - exists w3. split; [reflexivity|].
      split; [unfold reported; fields; now repeat split|].
      split; [reflexivity|]. rewrite Nat.add_0_r. now destruct (gcodeFile w3).
    - destruct Hno as [Hno|(cb & Hcb & Hfalse)]; [discriminate|].
      destruct (C3 cb Hcb) as [-> _].
      change (callback_calls w2) with (callback_calls w).
      rewrite Hfalse, process_lines_stopped.
      eexists. split; [reflexivity|]. fields.
      split; [unfold reported; fields; now repeat split|].
      split; [reflexivity|]. now rewrite Nat.add_1_r. }
  unfold bind at 1. rewrite H4. cbn [fst snd].
  assert (lines_processed_ w4 = lines_processed_ w2
          /\ gcodes_processed_ w4 = gcodes_processed_ w2
          /\ points_compressed_ w4 = points_compressed_ w2
          /\ arcs_created_ w4 = arcs_created_ w2
          /\ output_file_ w4 = output_file_ w2
          /\ unwritten_commands_ w4 = unwritten_commands_ w2
          /\ waiting_for_arc_ w4 = waiting_for_arc_ w2
          /\ progress_callback_ w4 = progress_callback_ w2
          /\ gcodeFile w3 = gcodeFile w2)
    as (A1 & A2 & A3 & A4 & A7 & A9 & A10 & A5 & A8).
  { destruct R3 as (A1 & A2 & A3 & A4 & A5 & _ & A7 & A8 & A9 & A10 & _).
    destruct R4 as (B1 & B2 & B3 & B4 & B5 & _ & B7 & _ & B9 & B10 & _).
    fields. repeat split; congruence. }
  change (waiting_for_arc_ w2) with (waiting_for_arc_ w) in A10.
  change (progress_callback_ w2) with (progress_callback_ w) in A5.
  change (gcodeFile w2) with (gcodeFile w) in A8.
  destruct (finish_idle env c empty_command (double_of_Z s) w4)
    as (r & w' & Hf & Hs & Hc & Hl & Hgc & Hp & Hn & Hout & _ & Hgf & _ & Hcalls);
    [congruence|].
  exists r, w'. split; [exact Hf|].
  rewrite Hs, Hc, Hl, Hgc, Hp, Hn, Hout, Hgf, A1, A2, A3, A4, A7, A9, G4, A8.
  split; [reflexivity|].
  split; [intros Hnone; now apply N3|].
  split.
  { intros cb Hcb. split; [exists report; now apply C3|].
    rewrite (Hcalls cb) by congruence. rewrite K4.
    now destruct (C3 cb Hcb) as [_ ->]. }
  repeat (split; [reflexivity|]).
  split; [|now repeat split].
  unfold w2, w1, close. fields. cbn [written]. unfold put at 2. rewrite Hg.
  unfold put. cbn [good is_open failbit negb andb written].
  now rewrite <- app_assoc.
Qed.
(** A run that has opened its files is the initial report, the loop, and
    the end of the stream with the flag the loop returns. *)
Lemma process_opened_steps env lines t s w r w' :
  process_opened default_progress env lines t s w = Ok (r, w') ->
  exists continue_processing w4 loop w5,
    (forall callback,
        progress_callback_ w = Some callback ->
        exists report,
          continue_processing = callback (callback_calls w) report)
    /\ process_lines default_progress env lines continue_processing
         empty_command t (double_of_Z s) w4 = Ok (loop, w5)
    /\ finish default_progress env (fst loop) (snd loop) (double_of_Z s) w5
       = Ok (r, w')
    /\ success r = fst loop
    /\ cancelled r = negb (fst loop).
Proof.
  unfold process_opened.
  unfold add_arcwelder_comment_to_target. unfold modify at 1.
  unfold bind at 1. unfold gets at 1. unfold bind at 1.
  set (w1 := set_output_file_ _ w).
  destruct (get_progress_returns env
              (tellg env (lines_read (gcodeFile w1)))
              (double_of_Z s) w1) as (report & H & _).
  unfold bind at 1. rewrite H.
  set (w2 := set_clock_reads _ w1) in *.
  destruct (on_progress_returns report w2) as (c & w3 & H3 & _ & _ & C3).
  unfold bind at 1. rewrite H3. intros Hrun.
  apply bind_inv in Hrun as (loop & w5 & H5 & Hf).
  exists c, w3, loop, w5. split.
  { intros callback Hcb. exists report. now apply C3. }
  split; [exact H5|]. split; [exact Hf|].
  apply finish_outcome in Hf as (Hsucc & Hcan & _). now split.
Qed.

End Starts.

(** ** Reports, results and comments *)

Section Reports.

Context {arc gp stats : Type}.
Context {engine : SegmentedArc arc}.
Context {tracker : GcodePosition gp}.
Context {histogram : SegmentStatistics stats}.
Context {platform : Platform}.
Variable default_progress : arc_welder_progress stats.

Local Abbreviation state := (arc_welder arc gp stats).
Implicit Type w : state.

(** C10. [get_progress_] always returns.  The two compression fields of its
    report are assigned under the test [source_file_position > 0] only: at
    position 0 they have the values of a default constructed report, and at
    any position they are the two single precision quotients if the position
    is positive and the default values otherwise. *)
Theorem compression_fields_guarded env start_clock w :
  (exists progress w',
      get_progress_ default_progress env 0 start_clock w = Ok (progress, w')
      /\ compression_ratio progress = compression_ratio default_progress
      /\ compression_percent progress = compression_percent default_progress)
  /\ forall source_file_position,
      exists progress w',
        get_progress_ default_progress env source_file_position start_clock w
        = Ok (progress, w')
        /\ compression_ratio progress
           = (if 0 <? source_file_position
              then double_of_float32
                     (float32_div (float32_of_Z source_file_position)
                        (float32_of_Z (tellp (output_file_ w))))
              else compression_ratio default_progress)
        /\ compression_percent progress
           = (if 0 <? source_file_position
              then PrimFloat.mul
                     (PrimFloat.sub (double_of_Z 1)
                        (double_of_float32
                           (float32_div
                              (float32_of_Z (tellp (output_file_ w)))
                              (float32_of_Z source_file_position))))
                     (double_of_Z 100)
              else compression_percent default_progress).
Proof.
  split.
  - unfold get_progress_, read_clock. run. do 2 eexists.
    split; [reflexivity|]. now split.
  - intros source_file_position. unfold get_progress_, read_clock. run.
    do 2 eexists. split; [reflexivity|].
    now destruct (0 <? source_file_position).
Qed.

(** C7, as the code has it.  On a controller whose target stream is not open
    (as after construction, and after every run that returned), a source
    that cannot be opened ends the run before the target is touched, and a
    target that cannot be opened ends it with the source closed again.  Both
    results have [success = false] and [cancelled = false], and their
    messages end with a full stop. *)
Theorem process_cannot_open env w :
  is_open (output_file_ w) = false ->
  (source_lines env = None ->
   exists w',
     process default_progress env w
     = Ok ({| success := false; cancelled := false;
              message := "Unable to open the source file.";
              progress := default_progress |}, w')
     /\ source_is_open (gcodeFile w') = false
     /\ output_file_ w' = output_file_ w)
  /\ (source_lines env <> None ->
      target_opens env = false ->
      exists w',
        process default_progress env w
        = Ok ({| success := false; cancelled := false;
                 message := "Unable to open the target file.";
                 progress := default_progress |}, w')
        /\ source_is_open (gcodeFile w') = false
        /\ is_open (output_file_ w') = false).
Proof.
  intros Hclosed. split.
  - intros Hs. unfold process, reset, get_next_update_time, read_clock. run.
    rewrite Hs. eexists. split; [reflexivity|]. now split.
  - intros Hs Ht. unfold process, reset, get_next_update_time, read_clock. run.
    destruct (source_lines env) as [lines|]; [|easy].
    unfold open. fields. rewrite Hclosed, Ht. cbn [is_open negb].
    eexists. split; [reflexivity|]. now split.
Qed.


(** *** The comment of an arc *)

Lemma add_comment_empty comment : add_comment comment "" = comment.
Proof. unfold add_comment. cbn. now rewrite andb_false_r. Qed.

Lemma string_length_app (s t : string) :
  String.length (s ++ t) = (String.length s + String.length t)%nat.
Proof. induction s as [|c s IH]; cbn; [reflexivity|now rewrite IH]. Qed.

Lemma has_length_app_l (s t : string) :
  has_length s = true -> has_length (s ++ t) = true.
Proof.
  unfold has_length. rewrite string_length_app, !Nat.ltb_lt. lia.
Qed.

Lemma has_length_false (s : string) : has_length s = false -> s = "".
Proof. now destruct s. Qed.

Lemma concat_chosen_has_length (chosen : list string) :
  Forall (fun x => has_length x = true) chosen ->
  chosen <> [] ->
  has_length (String.concat " - " chosen) = true.
Proof.
  intros Hall Hne. destruct Hall as [|x l Hx Hl]; [congruence|].
  destruct l; cbn [String.concat]; [exact Hx|now apply has_length_app_l].
Qed.

(** Joining one more chosen comment. *)
Lemma concat_chosen_snoc (chosen : list string) (c : string) :
  Forall (fun x => has_length x = true) chosen ->
  String.concat " - " (chosen ++ [c])
  = (if has_length (String.concat " - " chosen)
     then String.concat " - " chosen ++ " - "
     else String.concat " - " chosen) ++ c.
Proof.
  induction 1 as [|x l Hx Hl IH]; [reflexivity|].
  rewrite concat_chosen_has_length by (now constructor || discriminate).
  destruct l as [|y l].
  - cbn [app String.concat]. now rewrite !string_app_assoc.
  - change ((x :: y :: l) ++ [c])%list with (x :: (y :: l) ++ [c])%list.
    change (String.concat " - " (x :: (y :: l) ++ [c]))
      with (x ++ " - " ++ String.concat " - " ((y :: l) ++ [c])).
    rewrite IH.
    rewrite concat_chosen_has_length by (assumption || discriminate).
    change (String.concat " - " (x :: y :: l))
      with (x ++ " - " ++ String.concat " - " (y :: l)).
    now rewrite !string_app_assoc.
Qed.

(** The loop of [get_comment_for_arc] computes the chosen comments, joined
    by [" - "]. *)
Lemma fold_add_comment_chosen (comments : list string) :
  forall chosen,
    Forall (fun x => has_length x = true) chosen ->
    fold_left add_comment comments (String.concat " - " chosen)
    = String.concat " - " (chosen_comments chosen comments).
Proof.
  induction comments as [|c comments IH]; intros chosen Hall; [reflexivity|].
  cbn [fold_left chosen_comments]. unfold add_comment at 2.
  fold (has_length c). rewrite andb_comm.
  destruct (has_length c
            && negb (String.eqb c (String.concat " - " chosen)))%bool eqn:Hc.
  - rewrite <- concat_chosen_snoc by exact Hall. apply IH.
    apply Forall_app. split; [exact Hall|].
    constructor; [|constructor]. now apply andb_prop in Hc as [Hc _].
  - now apply IH.
Qed.

Lemma arc_comment_spec (comments : list string) :
  arc_comment comments = spec_arc_comment comments.
Proof.
  unfold arc_comment, spec_arc_comment.
  now rewrite <- (fold_add_comment_chosen comments []) by constructor.
Qed.

Lemma chosen_comments_repeated c (comments : list string) :
  has_length c = true ->
  Forall (fun c' => c' = c \/ c' = "") comments ->
  chosen_comments [c] comments = [c].
Proof.
  intros Hc. induction 1 as [|c' comments [->| ->] _ IH];
    cbn [chosen_comments String.concat]; [reflexivity| |exact IH].
  now rewrite String.eqb_refl, andb_false_r.
Qed.

Lemma arc_gcode_comment current_feedrate comment w :
  arc_gcode current_feedrate comment w
  = if has_length comment
    then arc_gcode current_feedrate "" w ++ ";" ++ comment
    else arc_gcode current_feedrate "" w.
Proof.
  unfold arc_gcode, get_arc_gcode_relative, get_arc_gcode_absolute.
  cbn [has_length String.length Nat.ltb Nat.leb].
  now destruct (previous_is_extruder_relative_ w), (has_length comment).
Qed.

(** C8, as the code has it.  When an arc of [N] points is committed, the
    comment is built from the comments of the last [N - 1] entries of the
    buffer, oldest first ([spec_arc_comment]): a comment is chosen when it
    is not empty and differs from the text accumulated so far, and the
    chosen comments are joined by [" - "].  The arc line written is the text
    of the engine for the arc, followed by [";"] and the comment unless the
    comment is empty, and nothing else.  So no comment is written when
    every comment is empty; a comment carried by every entry that has one
    appears once; and a comment repeated after a different one appears
    again. *)
Theorem comment_of_committed_arc is_extruder_relative current_feedrate w
  kept absorbed :
  unwritten_commands_ w = (kept ++ absorbed)%list ->
  List.length absorbed = Z.to_nat (get_num_segments (current_arc_ w) - 1) ->
  good (output_file_ w) = true ->
  let comments := map uc_comment absorbed in
  let gcode :=
    if previous_is_extruder_relative_ w
    then get_shape_gcode_relative (arc_feedrate current_feedrate w)
           (current_arc_ w)
    else get_shape_gcode_absolute (arc_offset_e w)
           (arc_feedrate current_feedrate w) (current_arc_ w) in
  get_comment_for_arc w = Ok (spec_arc_comment comments, w)
  /\ (exists w',
        write_arc_gcodes is_extruder_relative current_feedrate w = Ok (tt, w')
        /\ written (output_file_ w')
           = (written (output_file_ w)
              ++ [flushed_lines (flush_text kept);
                  arc_line (get_num_segments (current_arc_ w))
                    ((if (0 <? String.length (spec_arc_comment comments))%nat
                      then gcode ++ ";" ++ spec_arc_comment comments
                      else gcode) ++ newline)])%list)
  /\ (Forall (fun c => c = "") comments -> spec_arc_comment comments = "")
  /\ (forall c,
        c <> "" ->
        Forall (fun c' => c' = c \/ c' = "") comments ->
        Exists (eq c) comments ->
        spec_arc_comment comments = c)
  /\ (forall a b,
        a <> "" -> b <> "" -> a <> b ->
        (comments = [a; b] -> spec_arc_comment comments = a ++ " - " ++ b)
        /\ (comments = [a; b; b] ->
            spec_arc_comment comments = a ++ " - " ++ b ++ " - " ++ b)
        /\ (comments = [a; b; a] ->
            spec_arc_comment comments = a ++ " - " ++ b ++ " - " ++ a)).
Proof.
  intros Hl Hn Hg. cbv zeta.
  split.
  { rewrite <- arc_comment_spec.
    now apply get_comment_for_arc_absorbed with (kept := kept). }
  split.
  { rewrite (write_arc_gcodes_commits _ _ _ _ _ Hl Hn).
    eexists. split; [reflexivity|].
    rewrite (committed_written _ _ _ _ Hg). cbn [written].
    now rewrite arc_comment_spec. }
  split.
  { intros Hall. unfold spec_arc_comment.
    induction Hall as [|c l -> _ IH]; [reflexivity|exact IH]. }
  split.
  { intros c Hc Hall Hex. unfold spec_arc_comment.
    assert (has_length c = true) as Hlen by (now destruct c).
    induction Hall as [|c' l [->| ->] Hrest IH].
    - now apply Exists_nil in Hex.
    - cbn [chosen_comments String.concat app].
      fold (has_length c). rewrite Hlen.
      replace (c =? "")%string with false
        by (symmetry; now apply String.eqb_neq).
      cbn [andb negb]. now rewrite chosen_comments_repeated.
    - cbn [chosen_comments]. apply IH.
      apply Exists_cons in Hex as [Hex|Hex]; [congruence|exact Hex]. }
  intros a b Ha Hb Hab.
  assert (has_length a = true) as Hla by (now destruct a).
  assert (has_length b = true) as Hlb by (now destruct b).
  assert ((a =? "")%string = false) as Ea by now apply String.eqb_neq.
  assert ((b =? a)%string = false) as Eba
    by (apply String.eqb_neq; congruence).
  assert ((b =? a ++ " - " ++ b)%string = false) as Ebab.
  { apply String.eqb_neq. intros E.
    apply (f_equal String.length) in E.
    rewrite !string_length_app in E. cbn in E. lia. }
  assert ((a =? a ++ " - " ++ b)%string = false) as Eaab.
  { apply String.eqb_neq. intros E.
    apply (f_equal String.length) in E.
    rewrite !string_length_app in E. cbn in E. lia. }
  unfold spec_arc_comment.
  split; [|split]; intros ->;
    cbn [chosen_comments String.concat app];
    fold (has_length a); fold (has_length b);
    rewrite ?Hla, ?Hlb, ?Ea, ?Eba; cbn [andb negb app String.concat];
    rewrite ?Hla, ?Hlb, ?Ebab, ?Eaab; cbn [andb negb app String.concat];
    reflexivity.
Qed.

(** *** The end of a run *)

(** With enough entries in the buffer, the pass made at the end of the
    stream returns, and leaves the counters of lines as they were. *)
Lemma process_gcode_end_returns cmd w :
  enough_buffered (prepared cmd false w) ->
  exists w', process_gcode cmd true false w = Ok (0, w').
Proof.
  intros Hen. unfold process_gcode. cbn [process_gcode_rec]. unfold bind.
  rewrite process_gcode_pass_unfold. cbv zeta.
  rewrite end_not_eligible. unfold ret at 1.
  set (w2 := prepared cmd false w) in *.
  set (p_pre_pos := get_previous_position (p_source_position_ w2)).
  destruct (commit_or_abort cmd true false p_pre_pos w2)
    as [[[r|] w4]|e] eqn:Hc.
  - apply commit_or_abort_some in Hc as (_ & _ & _ & -> & _).
    eexists. reflexivity.
  - rewrite defer_command_runs. eexists. reflexivity.
  - exfalso. revert Hc. unfold commit_or_abort.
    destruct (_ && _); [|discriminate]. run.
    destruct (_ <? _); [discriminate|].
    destruct (waiting_for_arc_ w2); [|discriminate].
    destruct (is_shape _); [|discriminate].
    change (set_arcs_created_ _ _) with (counted w2).
    destruct (enough_buffered_split w2 Hen) as (kept & absorbed & Hl & Hn).
    now rewrite (write_arc_gcodes_commits _ _ (counted w2) kept absorbed Hl Hn).
Qed.

Lemma finish_returns env continue_processing cmd start_clock w :
  enough_buffered (prepared cmd false w) ->
  exists r w',
    finish default_progress env continue_processing cmd start_clock w
    = Ok (r, w')
    /\ success r = continue_processing
    /\ cancelled r = negb continue_processing
    /\ unwritten_commands_ w' = []
    /\ is_open (output_file_ w') = false
    /\ source_is_open (gcodeFile w') = false.
Proof.
  intros Hen. unfold finish.
  assert (exists w1,
             when (is_shape (current_arc_ w) && waiting_for_arc_ w)
               (process_gcode cmd true false ;; ret tt) w = Ok (tt, w1))
    as (w1 & H1).
  { destruct (_ && _); cbn [when]; [|eexists; reflexivity].
    destruct (process_gcode_end_returns cmd w Hen) as (w1 & H1).
    exists w1. unfold bind. now rewrite H1. }
  unfold gets at 1. unfold bind at 1. unfold bind at 1. rewrite H1.
  unfold bind at 1. rewrite write_unwritten_gcodes_to_file_flushes.
  unfold gets at 1. unfold bind at 1.
  set (w3 := flushed w1).
  destruct (get_progress_reads default_progress env (file_size_ w3)
              start_clock w3) as (final_progress & H4).
  unfold bind at 1. rewrite H4.
  destruct (on_progress_calls final_progress
              (set_clock_reads (S (clock_reads w3)) w3))
    as (c & w5 & H5 & Hw5).
  unfold bind at 1. rewrite H5. run. unfold read_clock.
  do 2 eexists. split; [reflexivity|].
  cbn [success cancelled]. fields.
  destruct Hw5 as [->| ->]; now repeat split.
Qed.

Lemma prepared_previous cmd is_reprocess w :
  previous_is_extruder_relative_ (prepared cmd is_reprocess w)
  = previous_is_extruder_relative_ w
  /\ previous_feedrate_ (prepared cmd is_reprocess w) = previous_feedrate_ w.
Proof.
  unfold prepared. cbv zeta.
  destruct (_ && _ && _ && _), (_ && _); now split.
Qed.

(** The end of a run in which the arc being built is a shape: the arc is
    committed, what is left of the buffer is written before it, and the
    counters of the final report include it. *)
Lemma finish_commits env continue_processing cmd start_clock w kept absorbed :
  let w2 := prepared cmd false w in
  let a := current_arc_ w2 in
  waiting_for_arc_ w = true ->
  is_shape (current_arc_ w) = true ->
  is_shape a = true ->
  get_min_segments a <= get_num_segments a ->
  is_blank cmd = false ->
  unwritten_commands_ w = (kept ++ absorbed)%list ->
  List.length absorbed = Z.to_nat (get_num_segments a - 1) ->
  good (output_file_ w) = true ->
  exists r w',
    finish default_progress env continue_processing cmd start_clock w
    = Ok (r, w')
    /\ success r = continue_processing
    /\ cancelled r = negb continue_processing
    /\ arcs_created (progress r) = int_add (arcs_created_ w) 1
    /\ points_compressed (progress r)
       = int_add (points_compressed_ w) (int_sub (get_num_segments a) 1)
    /\ written (output_file_ w')
       = (written (output_file_ w)
          ++ [flushed_lines (flush_text kept);
              arc_line (get_num_segments a)
                (spec_arc_line (previous_is_extruder_relative_ w)
                   (arc_offset_e w2)
                   (arc_feedrate
                      (f (get_previous_position (p_source_position_ w2))) w)
                   (spec_arc_comment (map uc_comment absorbed)) a);
              flushed_lines ""])%list
    /\ unwritten_commands_ w' = []
    /\ is_open (output_file_ w') = false
    /\ source_is_open (gcodeFile w') = false.
Proof.
  cbv zeta. intros Hw Hs0 Hs Hmin Hb Hl Hn Hg.
  pose proof (commit_pass cmd true false w kept absorbed) as Hpass.
  cbv zeta in Hpass.
  specialize (Hpass Hw (end_not_eligible _ _ _ _) Hb Hmin Hs Hl Hn).
  remember (committed
              (f (get_previous_position
                    (p_source_position_ (prepared cmd false w))))
              kept absorbed (counted (prepared cmd false w))) as w2 eqn:Ew2.
  assert (when (is_shape (current_arc_ w) && waiting_for_arc_ w)
            (process_gcode cmd true false ;; ret tt) w = Ok (tt, w2)) as H2.
  { rewrite Hs0, Hw. cbn [andb when]. unfold process_gcode.
    cbn [process_gcode_rec]. unfold bind. now rewrite Hpass. }
  destruct (finish_from default_progress env continue_processing cmd
              start_clock w w2 H2)
    as (r & w' & Hf & Hsucc & Hc & _ & _ & Hp & Hna & Hout & Hu & Hgf & _).
  exists r, w'. split; [exact Hf|]. split; [exact Hsucc|].
  split; [exact Hc|].
  destruct (committed_fields
              (f (get_previous_position
                    (p_source_position_ (prepared cmd false w))))
              kept absorbed (prepared cmd false w))
    as (_ & _ & Hu2 & _ & Hp2 & Hn2 & _).
  rewrite <- Ew2 in Hu2, Hp2, Hn2.
  pose proof (committed_written
                (f (get_previous_position
                      (p_source_position_ (prepared cmd false w))))
                kept absorbed (counted (prepared cmd false w))) as Hcw.
  rewrite <- Ew2 in Hcw.
  change (output_file_ (counted (prepared cmd false w)))
    with (output_file_ (prepared cmd false w)) in Hcw.
  change (current_arc_ (counted (prepared cmd false w)))
    with (current_arc_ (prepared cmd false w)) in Hcw.
  change (previous_is_extruder_relative_ (counted (prepared cmd false w)))
    with (previous_is_extruder_relative_ (prepared cmd false w)) in Hcw.
  change (arc_offset_e (counted (prepared cmd false w)))
    with (arc_offset_e (prepared cmd false w)) in Hcw.
  change (arc_feedrate
            (f (get_previous_position
                  (p_source_position_ (prepared cmd false w))))
            (counted (prepared cmd false w)))
    with (if PrimFloat.ltb dzero
               (previous_feedrate_ (prepared cmd false w))
             && PrimFloat.eqb (previous_feedrate_ (prepared cmd false w))
                  (f (get_previous_position
                        (p_source_position_ (prepared cmd false w))))
          then dzero
          else f (get_previous_position
                    (p_source_position_ (prepared cmd false w)))) in Hcw.
  destruct (prepared_previous cmd false w) as [Hrel Hfeed].
  rewrite prepared_output, Hrel, Hfeed, arc_comment_spec in Hcw.
  specialize (Hcw Hg).
  rewrite Hp, Hna, Hp2, Hn2, prepared_points, prepared_arcs.
  split; [reflexivity|]. split; [reflexivity|].
  rewrite Hout, Hu2, Hcw, Hgf. unfold close, put, close_source, flush_text.
  cbn [good is_open failbit negb andb written map String.concat
         source_is_open].
  rewrite <- app_assoc. now repeat split.
Qed.

(** C6, as the code has it.  [process] consults the progress callback
    before the loop and, at times, inside it; a refusal there ends the
    run.

    - The initial report.  If the callback refuses it, the run returns
      [success = false] and [cancelled = true]; no line is parsed or
      processed, though [getline] takes one line from a source that has
      one; the target holds the header and what the buffer held.  The
      callback is called once more, for the final report.
    - A report inside the loop.  If the callback refuses the report sent
      after a line, the loop ends there with its flag cleared: the lines
      that follow are neither parsed nor processed, though [getline] takes
      one more of them.
    - The end of the stream, reached with the flag cleared.  The steps are
      those of every run: an arc being built that is a shape is committed,
      the buffer is written, and the result has [success = false] and
      [cancelled = true] whatever the callback answers to the final
      report.
    - The whole run.  [process] is the initial report, whose answer is the
      flag the loop starts with, the loop, and the end of the stream with
      the flag the loop returns: that flag is [success], and [cancelled] is
      its negation. *)
Theorem cancelled_run_stops :
  (forall env lines w callback,
      source_lines env = Some lines ->
      target_opens env = true ->
      is_open (output_file_ w) = false ->
      progress_callback_ w = Some callback ->
      (forall report, callback (callback_calls w) report = false) ->
      exists r w',
        process default_progress env w = Ok (r, w')
        /\ success r = false
        /\ cancelled r = true
        /\ lines_processed (progress r) = 0
        /\ gcodes_processed (progress r) = 0
        /\ written (output_file_ w')
           = [header_text (arcwelder_comment w);
              flushed_lines (flush_text (unwritten_commands_ w))]
        /\ lines_read (gcodeFile w')
           = match lines with [] => O | _ :: _ => 1%nat end
        /\ callback_calls w' = S (S (callback_calls w))
        /\ is_open (output_file_ w') = false
        /\ source_is_open (gcodeFile w') = false)
  /\ (forall env line rest cmd0 next_update_time start_clock w callback
        lines_written w4,
        progress_callback_ w = Some callback ->
        has_length (gcode (try_parse_gcode line)) = true ->
        process_gcode (try_parse_gcode line) false false (line_counted line w)
        = Ok (lines_written, w4) ->
        Z.rem (int_add (lines_processed_ w) 1) 1000 = 0 ->
        PrimFloat.ltb next_update_time
          (double_of_Z (clock env (clock_reads w))) = true ->
        (forall report, callback (callback_calls w) report = false) ->
        exists w5,
          process_lines default_progress env (line :: rest) true cmd0
            next_update_time start_clock w
          = Ok ((false, try_parse_gcode line), w5)
          /\ lines_processed_ w5 = int_add (lines_processed_ w) 1
          /\ lines_read (gcodeFile w5)
             = (lines_read (gcodeFile w)
                + match rest with [] => 1 | _ :: _ => 2 end)%nat
          /\ callback_calls w5 = S (callback_calls w)
          /\ output_file_ w5 = output_file_ w4
          /\ unwritten_commands_ w5 = unwritten_commands_ w4
          /\ waiting_for_arc_ w5 = waiting_for_arc_ w4
          /\ current_arc_ w5 = current_arc_ w4)
  /\ (forall env cmd start_clock w r w',
        finish default_progress env false cmd start_clock w = Ok (r, w') ->
        success r = false
        /\ cancelled r = true
        /\ unwritten_commands_ w' = []
        /\ is_open (output_file_ w') = false
        /\ source_is_open (gcodeFile w') = false)
  /\ (forall env cmd start_clock w kept absorbed,
        let w2 := prepared cmd false w in
        let a := current_arc_ w2 in
        waiting_for_arc_ w = true ->
        is_shape (current_arc_ w) = true ->
        is_shape a = true ->
        get_min_segments a <= get_num_segments a ->
        is_blank cmd = false ->
        unwritten_commands_ w = (kept ++ absorbed)%list ->
        List.length absorbed = Z.to_nat (get_num_segments a - 1) ->
        good (output_file_ w) = true ->
        exists r w',
          finish default_progress env false cmd start_clock w = Ok (r, w')
          /\ success r = false
          /\ cancelled r = true
          /\ arcs_created (progress r) = int_add (arcs_created_ w) 1
          /\ written (output_file_ w')
             = (written (output_file_ w)
                ++ [flushed_lines (flush_text kept);
                    arc_line (get_num_segments a)
                      (spec_arc_line (previous_is_extruder_relative_ w)
                         (arc_offset_e w2)
                         (arc_feedrate
                            (f (get_previous_position
                                  (p_source_position_ w2))) w)
                         (spec_arc_comment (map uc_comment absorbed)) a);
                    flushed_lines ""])%list
          /\ unwritten_commands_ w' = [])
  /\ (forall env cmd start_clock w,
        waiting_for_arc_ w = false ->
        exists r w',
          finish default_progress env false cmd start_clock w = Ok (r, w')
          /\ success r = false
          /\ cancelled r = true
          /\ output_file_ w'
             = close
                 (put (flushed_lines (flush_text (unwritten_commands_ w)))
                    (output_file_ w))
          /\ unwritten_commands_ w' = [])
  /\ (forall env lines w r w',
        source_lines env = Some lines ->
        target_opens env = true ->
        is_open (output_file_ w) = false ->
        process default_progress env w = Ok (r, w') ->
        let next_update_time :=
          double_of_Z
            (clock env (clock_reads w)
             + notification_period_seconds w * CLOCKS_PER_SEC) in
        let start_clock := double_of_Z (clock env (S (clock_reads w))) in
        exists continue_processing w4 loop w5,
          (forall callback,
              progress_callback_ w = Some callback ->
              exists report,
                continue_processing = callback (callback_calls w) report)
          /\ process_lines default_progress env lines continue_processing
               empty_command next_update_time start_clock w4
             = Ok (loop, w5)
          /\ finish default_progress env (fst loop) (snd loop) start_clock w5
             = Ok (r, w')
          /\ success r = fst loop
          /\ cancelled r = negb (fst loop)).
Proof.
  split; [|split; [|split; [|split; [|split]]]].
  - intros env lines w callback Hs Ht Hc Hcb Hfalse.
    rewrite (process_started default_progress env w lines Hs Ht Hc).
    destruct (process_opened_without_lines default_progress env lines
                (double_of_Z
                   (clock env (clock_reads w)
                    + notification_period_seconds w * CLOCKS_PER_SEC))
                (clock env (S (clock_reads w))) (started env w))
      as (r & w' & H & Hcn & _ & Hsucc & Hl & Hg & _ & _ & Hwr & Ho & Hsrc
          & Hread);
      [reflexivity|reflexivity|right; now exists callback|].
    exists r, w'. split; [exact H|].
    destruct (Hsucc callback Hcb) as ((p & Hp) & Hcalls).
    change (callback_calls (started env w)) with (callback_calls w)
      in Hp, Hcalls.
    rewrite Hfalse in Hp. rewrite Hcn, Hp.
    repeat (split; [assumption || reflexivity|]). exact Hsrc.
  - intros env line rest cmd0 t s w callback n w4 Hcb Hgc H4 Hrem Hclock
      Hfalse.
    rewrite process_lines_step. unfold bind at 1. rewrite H4.
    destruct (line_counted_fields line w) as (C3 & L3 & _ & K3 & B3 & R3).
    apply process_gcode_rec_steady in H4 as [[U4 _] _].
    destruct U4 as (_ & _ & _ & _ & _ & Hcb4 & Hl4 & _ & _ & _ & Hgf4 & Hk4
                    & Hb4).
    destruct C3 as (Hcb3 & _).
    assert (exists t' w6,
               periodic_update default_progress env true true t s w4
               = Ok ((false, t'), w6)
               /\ reported w4 w6
               /\ callback_calls w6 = S (callback_calls w4)) as Hpu.
    { unfold periodic_update. unfold gets at 1. unfold bind at 1.
      rewrite Hl4, L3, Hrem. cbn [Z.eqb]. unfold read_clock at 1.
      unfold bind at 1. rewrite Hk4, K3, Hclock.
      unfold gets at 1. unfold bind at 1.
      set (w5 := set_clock_reads (S (clock_reads w)) w4).
      destruct (get_progress_returns default_progress env
                  (tellg env (lines_read (gcodeFile w5))) s w5)
        as (report & Hr & _).
      unfold bind at 1. rewrite Hr.
      destruct (on_progress_returns report
                  (set_clock_reads (S (clock_reads w5)) w5))
        as (c & w6 & H6 & R6 & _ & C6).
      unfold bind at 1. rewrite H6.
      destruct (C6 callback) as [-> Hcalls]; [unfold w5; fields; congruence|].
      unfold w5 in *. fields. rewrite Hb4, B3, Hfalse.
      unfold get_next_update_time, read_clock. run.
      do 2 eexists. split; [reflexivity|].
      destruct R6 as (A1 & A2 & A3 & A4 & A5 & A6 & A7 & A8 & A9 & A10 & A11).
      fields. rewrite Hcalls.
      split; [unfold reported; fields; now repeat split|congruence]. }
    destruct Hpu as (t' & w6 & Hpu & R6 & Hcalls).
    rewrite Hgc. unfold bind at 1. rewrite Hpu. cbn [fst snd].
    rewrite process_lines_stopped. eexists. split; [reflexivity|].
    destruct R6 as (Hl6 & _ & _ & _ & _ & _ & Ho6 & Hgf6 & Hu6 & Hw6 & Ha6).
    destruct rest; fields; rewrite ?Hl6, ?Hl4, ?L3, ?Hcalls, ?Hb4, ?B3, ?Ho6,
      ?Hu6, ?Hw6, ?Ha6, ?Hgf6, ?Hgf4, ?R3; cbn [lines_read];
      rewrite ?Hgf6, ?Hgf4, ?R3; repeat split; lia.
  - intros env cmd s w r w' H. apply finish_outcome in H.
    destruct H as (Hs & Hc & _ & _ & _ & Ho & Hsrc & Hu & _).
    rewrite Hs, Hc. now repeat split.
  - cbv zeta. intros env cmd s w kept absorbed Hw Hs0 Hs Hmin Hb Hl Hn Hg.
    destruct (finish_commits env false cmd s w kept absorbed
                Hw Hs0 Hs Hmin Hb Hl Hn Hg)
      as (r & w' & H & Hsucc & Hc & Hna & _ & Hwr & Hu & _).
    exists r, w'. now repeat split.
  - intros env cmd s w Hw.
    destruct (finish_idle default_progress env false cmd s w Hw)
      as (r & w' & H & Hsucc & Hc & _ & _ & _ & _ & Hout & Hu & _).
    exists r, w'. now repeat split.
  - intros env lines w r w' Hs Ht Hc H. cbv zeta.
    rewrite (process_started default_progress env w lines Hs Ht Hc) in H.
    apply process_opened_steps in H
      as (c & w4 & loop & w5 & Hcall & H5 & Hf & Hsucc & Hcan).
    change (progress_callback_ (started env w)) with (progress_callback_ w)
      in Hcall.
    change (callback_calls (started env w)) with (callback_calls w) in Hcall.
    exists c, w4, loop, w5. now repeat split.
Qed.

End Reports.


(** * Further properties of the controller *)

Section Further.

Context {arc gp stats : Type}.
Context {engine : SegmentedArc arc}.
Context {tracker : GcodePosition gp}.
Context {histogram : SegmentStatistics stats}.
Context {platform : Platform}.
Variable default_progress : arc_welder_progress stats.

Local Abbreviation state := (arc_welder arc gp stats).
Implicit Type w : state.

(** ** The flush *)

(** X1.  [write_unwritten_gcodes_to_file] always returns: it returns the
    number of entries of the buffer, empties the buffer and writes the
    entries in one piece, oldest first, each followed by a newline; the
    statistics get the entries that extrude, in order.  The arc, the
    tracker and the counters are left alone, and a second flush adds nothing
    to the text of the target. *)
Theorem flush_writes_every_line_in_order w :
  exists w',
    write_unwritten_gcodes_to_file w
    = Ok (array_list.count (unwritten_commands_ w), w')
    /\ unwritten_commands_ w' = []
    /\ output_file_ w'
       = put (flushed_lines
                (String.concat "" (map line_text (unwritten_commands_ w))))
           (output_file_ w)
    /\ segment_statistics_ w'
       = fold_left (fun s p => stats_update (extrusion_length p) false s)
           (filter (fun p => PrimFloat.ltb dzero (extrusion_length p))
              (unwritten_commands_ w))
           (segment_statistics_ w)
    /\ waiting_for_arc_ w' = waiting_for_arc_ w
    /\ current_arc_ w' = current_arc_ w
    /\ p_source_position_ w' = p_source_position_ w
    /\ points_compressed_ w' = points_compressed_ w
    /\ arcs_created_ w' = arcs_created_ w
    /\ exists w'',
         write_unwritten_gcodes_to_file w' = Ok (0, w'')
         /\ file_text (output_file_ w'') = file_text (output_file_ w').
Proof.
  exists (flushed w). split; [apply write_unwritten_gcodes_to_file_flushes|].
  unfold flushed. fields.
  rewrite lines_text_concat, flush_statistics_filter. cbn [append].
  repeat (split; [reflexivity|]).
  eexists. split; [apply write_unwritten_gcodes_to_file_flushes|].
  unfold flushed. fields. cbn [lines_text fold_left].
  match goal with
  | |- file_text (put _ ?o) = _ =>
      destruct (good o) eqn:Hg;
      [rewrite (file_text_put _ o Hg); cbn [chunk_text];
       apply string_app_nil_r
      |unfold put at 1; now rewrite Hg]
  end.
Qed.

(** ** One command *)

Lemma process_gcode_pass_settles cmd is_end is_reprocess w r w' :
  process_gcode_pass cmd is_end is_reprocess w = Ok (r, w') ->
  waiting_for_arc_ w' = false -> unwritten_commands_ w' = [].
Proof.
  intros H. apply process_gcode_pass_outcome in H. cbv zeta in H.
  destruct H as (arc_added & w3 & _ & [H|H]).
  - destruct H as (_ & _ & _ & _ & _ & _ & kept & absorbed & _ & _ & ->).
    intros _.
    destruct (committed_fields
                (f (get_previous_position
                      (p_source_position_ (prepared cmd is_reprocess w))))
                kept absorbed w3) as (_ & _ & He & _).
    exact He.
  - destruct H as (_ & w4 & _ & ->). unfold after_pass. cbv zeta.
    destruct (waiting_for_arc_ w4) eqn:Hw; cbn [orb].
    + unfold deferred. fields. congruence.
    + intros _. reflexivity.
Qed.

(** X2.  After any command, a controller that is idle holds nothing back:
    the buffer is not empty only while an arc is being built. *)
Theorem idle_controller_holds_nothing cmd is_end is_reprocess w n w' :
  process_gcode cmd is_end is_reprocess w = Ok (n, w') ->
  waiting_for_arc_ w' = false ->
  unwritten_commands_ w' = [].
Proof.
  unfold process_gcode. cbn [process_gcode_rec]. intros H.
  apply bind_inv in H as (r & w1 & H1 & H).
  destruct r as [m|].
  - injection H as _ <-. eapply process_gcode_pass_settles, H1.
  - apply bind_inv in H as (r2 & w2 & H2 & H).
    destruct r2 as [m|]; [|discriminate].
    injection H as _ <-. eapply process_gcode_pass_settles, H2.
Qed.


(** X4.  A command that is not eligible, met while no arc is being built, is
    written at once, after what the buffer still held; nothing is counted
    and the tracker has the command. *)
Theorem idle_command_is_written_at_once cmd is_end is_reprocess w :
  waiting_for_arc_ w = false ->
  eligible cmd is_end is_reprocess w = false ->
  exists w',
    process_gcode cmd is_end is_reprocess w = Ok (0, w')
    /\ output_file_ w'
       = put (flushed_lines
                (flush_text
                   (unwritten_commands_ w ++ [entry_of cmd is_reprocess w])))
           (output_file_ w)
    /\ unwritten_commands_ w' = []
    /\ waiting_for_arc_ w' = false
    /\ points_compressed_ w' = points_compressed_ w
    /\ arcs_created_ w' = arcs_created_ w
    /\ p_source_position_ w'
       = update cmd (lines_processed_ w) (gcodes_processed_ w) (-1)
           (p_source_position_ w).
Proof.
  unfold eligible, entry_of. cbv zeta. intros Hw He.
  unfold process_gcode. cbn [process_gcode_rec]. unfold bind.
  rewrite process_gcode_pass_unfold. cbv zeta. rewrite He. unfold ret at 1.
  rewrite commit_or_abort_idle by now rewrite prepared_waiting.
  rewrite defer_command_runs. cbv zeta.
  eexists. split; [reflexivity|].
  fold (measured cmd is_reprocess w).
  destruct (negb (is_blank cmd) && _); unfold aborted, flushed, deferred,
    array_list.push_back; fields; rewrite ?prepared_waiting, ?Hw;
    cbn [orb negb]; fields;
    rewrite lines_text_flush_text, prepared_unwritten, prepared_output,
      prepared_points, prepared_arcs, prepared_tracker, ?prepared_waiting;
    now repeat split.
Qed.

(** X5.  While an arc is being built, an eligible move that the engine
    accepts is held back: nothing is written, the entry of the command joins
    the buffer, and the arc is the one the engine returned. *)
Theorem accepted_move_is_held_back cmd is_end is_reprocess w :
  let a := current_arc_ (prepared cmd is_reprocess w) in
  waiting_for_arc_ w = true ->
  eligible cmd is_end is_reprocess w = true ->
  fst (try_add_point (current_point cmd is_reprocess w) a) = true ->
  exists w',
    process_gcode cmd is_end is_reprocess w = Ok (0, w')
    /\ output_file_ w' = output_file_ w
    /\ unwritten_commands_ w'
       = (unwritten_commands_ w ++ [entry_of cmd is_reprocess w])%list
    /\ waiting_for_arc_ w' = true
    /\ current_arc_ w'
       = snd (try_add_point (current_point cmd is_reprocess w) a)
    /\ points_compressed_ w' = points_compressed_ w
    /\ arcs_created_ w' = arcs_created_ w.
Proof.
  unfold eligible, entry_of, current_point. cbv zeta. intros Hw He Ha.
  unfold process_gcode. cbn [process_gcode_rec]. unfold bind.
  rewrite process_gcode_pass_unfold. cbv zeta. rewrite He.
  fold (measured cmd is_reprocess w).
  rewrite extend_arc_building by now rewrite prepared_waiting.
  rewrite Ha. rewrite commit_or_abort_skips by now left.
  rewrite defer_command_runs. cbv zeta.
  eexists. split; [reflexivity|].
  unfold deferred, array_list.push_back. fields.
  rewrite prepared_waiting, Hw. cbn [orb]. fields.
  rewrite prepared_unwritten, prepared_output, prepared_points, prepared_arcs,
    prepared_waiting.
  now repeat split.
Qed.

(** X6.  While no arc is being built, an eligible move begins one when the
    engine accepts the position before the move and then the move: the
    buffer is written first, the entry of the command is alone in the new
    buffer, and the feedrate and the extruder mode of the arc are those of
    the position before the move. *)
Theorem first_move_starts_an_arc cmd is_end is_reprocess w :
  let a := current_arc_ (prepared cmd is_reprocess w) in
  let start := snd (try_add_point (start_point cmd is_reprocess w) a) in
  waiting_for_arc_ w = false ->
  eligible cmd is_end is_reprocess w = true ->
  fst (try_add_point (current_point cmd is_reprocess w) start) = true ->
  exists w',
    process_gcode cmd is_end is_reprocess w = Ok (0, w')
    /\ output_file_ w'
       = put (flushed_lines (flush_text (unwritten_commands_ w)))
           (output_file_ w)
    /\ unwritten_commands_ w' = [entry_of cmd is_reprocess w]
    /\ waiting_for_arc_ w' = true
    /\ current_arc_ w'
       = snd (try_add_point (current_point cmd is_reprocess w) start)
    /\ previous_feedrate_ w' = f (previous_position cmd is_reprocess w)
    /\ previous_is_extruder_relative_ w'
       = is_extruder_relative (previous_position cmd is_reprocess w)
    /\ points_compressed_ w' = points_compressed_ w
    /\ arcs_created_ w' = arcs_created_ w.
Proof.
  unfold eligible, entry_of, current_point, start_point, previous_position.
  cbv zeta. intros Hw He Ha.
  unfold process_gcode. cbn [process_gcode_rec]. unfold bind.
  rewrite process_gcode_pass_unfold. cbv zeta. rewrite He.
  fold (measured cmd is_reprocess w).
  rewrite extend_arc_idle by now rewrite prepared_waiting.
  cbv zeta. rewrite Ha. rewrite commit_or_abort_skips by now left.
  rewrite defer_command_runs. cbv zeta.
  eexists. split; [reflexivity|].
  unfold deferred, flushed, array_list.push_back. fields. cbn [orb]. fields.
  rewrite lines_text_flush_text, prepared_unwritten, prepared_output,
    prepared_points, prepared_arcs.
  now repeat split.
Qed.

(** ** Whole runs *)

Lemma iter_int_add (k : nat) :
  Z.of_nat k < 2 ^ 31 -> Nat.iter k (fun z => int_add z 1) 0 = Z.of_nat k.
Proof.
  induction k as [|k IH]; [reflexivity|]. intros Hk.
  rewrite Nat.iter_succ, IH by lia. unfold int_add.
  rewrite int_wrap_small; lia.
Qed.

(** X7.  A run over a source of fewer than [2 ^ 31] lines reports at most
    one processed line per line of the source, and no more commands than
    lines.  A run that succeeds has processed every line, and counted the
    lines in which the parser found a command; a run is cancelled exactly
    when it does not succeed, and a run without a callback succeeds. *)
Theorem run_counts_the_lines_it_read env lines w r w' :
  source_lines env = Some lines ->
  target_opens env = true ->
  is_open (output_file_ w) = false ->
  Z.of_nat (List.length lines) < 2 ^ 31 ->
  process default_progress env w = Ok (r, w') ->
  0 <= gcodes_processed (progress r) <= lines_processed (progress r)
  /\ lines_processed (progress r) <= Z.of_nat (List.length lines)
  /\ cancelled r = negb (success r)
  /\ (success r = true ->
      lines_processed (progress r) = Z.of_nat (List.length lines)
      /\ gcodes_processed (progress r)
         = Z.of_nat (List.length (gcode_lines lines)))
  /\ (progress_callback_ w = None -> success r = true).
Proof.
  intros Hs Ht Hc Hlen H.
  rewrite (process_started default_progress env w lines Hs Ht Hc) in H.
  apply process_opened_outcome in H; [|reflexivity].
  change (lines_processed_ (started env w)) with 0 in H.
  change (gcodes_processed_ (started env w)) with 0 in H.
  change (progress_callback_ (started env w)) with (progress_callback_ w) in H.
  destruct H as (Hcn & _ & N & _ & _ & _ & _ & k & j & Hjk & L & G & T).
  rewrite iter_int_add in L by lia. rewrite iter_int_add in G by lia.
  split; [lia|]. split; [lia|]. split; [exact Hcn|].
  split; [intros Hsucc; destruct (T Hsucc); split; lia|exact N].
Qed.


(** X9.  However a run ends, with a result or with one of the two messages,
    it leaves both files closed; and when it ends without a message the
    buffer is empty. *)
Theorem run_leaves_both_files_closed env w r w' :
  is_open (output_file_ w) = false ->
  process default_progress env w = Ok (r, w') ->
  is_open (output_file_ w') = false
  /\ source_is_open (gcodeFile w') = false
  /\ (message r = "" -> unwritten_commands_ w' = []).
Proof.
  intros Hc H.
  destruct (source_lines env) as [lines|] eqn:Hs.
  - destruct (target_opens env) eqn:Ht.
    + rewrite (process_started default_progress env w lines Hs Ht Hc) in H.
      apply process_opened_outcome in H; [|reflexivity].
      destruct H as (_ & _ & _ & Ho & Hsrc & Hu & _). auto.
    + revert H. unfold process, reset, get_next_update_time, read_clock. run.
      rewrite Hs. unfold open. fields. rewrite Hc, Ht. cbn [is_open negb].
      intros [= <- <-]. cbn [message]. fields.
      repeat split; discriminate.
  - revert H. unfold process, reset, get_next_update_time, read_clock. run.
    rewrite Hs. intros [= <- <-]. cbn [message]. fields.
    repeat split; [exact Hc|discriminate].
Qed.

(** X10.  A run over an empty source returns: the target holds the header
    and an empty flush, nothing is counted, and the callback, if there is
    one, is called for the initial and for the final report; its first
    answer is the outcome of the run. *)
Theorem empty_source_gives_header_only env w :
  source_lines env = Some [] ->
  target_opens env = true ->
  is_open (output_file_ w) = false ->
  exists r w',
    process default_progress env w = Ok (r, w')
    /\ cancelled r = negb (success r)
    /\ (progress_callback_ w = None -> success r = true)
    /\ (forall callback,
          progress_callback_ w = Some callback ->
          (exists report, success r = callback (callback_calls w) report)
          /\ callback_calls w' = S (S (callback_calls w)))
    /\ lines_processed (progress r) = 0
    /\ gcodes_processed (progress r) = 0
    /\ points_compressed (progress r) = 0
    /\ arcs_created (progress r) = 0
    /\ written (output_file_ w')
       = [header_text (arcwelder_comment w);
          flushed_lines (flush_text (unwritten_commands_ w))]
    /\ lines_read (gcodeFile w') = O.
Proof.
  intros Hs Ht Hc.
  rewrite (process_started default_progress env w [] Hs Ht Hc).
  destruct (process_opened_without_lines default_progress env []
              (double_of_Z
                 (clock env (clock_reads w)
                  + notification_period_seconds w * CLOCKS_PER_SEC))
              (clock env (S (clock_reads w))) (started env w))
    as (r & w' & H & Hcn & Hnone & Hsome & Hl & Hg & Hp & Hn & Hwr & _ & _
        & Hread);
    [reflexivity|reflexivity|now left|].
  exists r, w'. split; [exact H|]. split; [exact Hcn|].
  split; [exact Hnone|]. split; [exact Hsome|].
  repeat (split; [assumption|]). exact Hread.
Qed.

(** X11.  At the end of the stream, an arc being built that is a shape of
    at least [get_min_segments] points is committed when the last command
    is not a blank line: the entries it absorbed are dropped, the rest of
    the buffer and the arc line are written, the arc is in the counters of
    the final report, and the result carries the flag of the loop. *)
Theorem final_arc_is_written_at_the_end env continue_processing cmd
  start_clock w kept absorbed :
  let w2 := prepared cmd false w in
  let a := current_arc_ w2 in
  waiting_for_arc_ w = true ->
  is_shape (current_arc_ w) = true ->
  is_shape a = true ->
  get_min_segments a <= get_num_segments a ->
  is_blank cmd = false ->
  unwritten_commands_ w = (kept ++ absorbed)%list ->
  List.length absorbed = Z.to_nat (get_num_segments a - 1) ->
  good (output_file_ w) = true ->
  exists r w',
    finish default_progress env continue_processing cmd start_clock w
    = Ok (r, w')
    /\ success r = continue_processing
    /\ arcs_created (progress r) = int_add (arcs_created_ w) 1
    /\ points_compressed (progress r)
       = int_add (points_compressed_ w) (int_sub (get_num_segments a) 1)
    /\ arcs_emitted (output_file_ w')
       = (arcs_emitted (output_file_ w) ++ [get_num_segments a])%list
    /\ file_text (output_file_ w')
       = file_text (output_file_ w) ++ flush_text kept
         ++ spec_arc_line (previous_is_extruder_relative_ w)
              (arc_offset_e w2)
              (arc_feedrate
                 (f (get_previous_position (p_source_position_ w2))) w)
              (spec_arc_comment (map uc_comment absorbed)) a
    /\ unwritten_commands_ w' = [].
Proof.
  cbv zeta. intros Hw Hs0 Hs Hmin Hb Hl Hn Hg.
  destruct (finish_commits default_progress env continue_processing cmd
              start_clock w kept absorbed Hw Hs0 Hs Hmin Hb Hl Hn Hg)
    as (r & w' & H & Hsucc & _ & Hna & Hnp & Hwr & Hu & _).
  exists r, w'. split; [exact H|]. split; [exact Hsucc|].
  split; [exact Hna|]. split; [exact Hnp|].
  split; [|split; [|exact Hu]].
  - unfold arcs_emitted. rewrite Hwr, flat_map_app. cbn [flat_map app].
    reflexivity.
  - unfold file_text. rewrite Hwr, fold_right_app.
    cbn [fold_right chunk_text].
    generalize (written (output_file_ w)) as l.
    induction l as [|c l IH]; cbn [fold_right].
    + now rewrite !string_app_nil_r.
    + now rewrite IH, string_app_assoc.
Qed.

(** X14.  A run starts afresh: the counters, the size of the source and the
    flag [waiting_for_arc_] that an earlier run left in the controller have
    no part in it. *)
Theorem run_starts_afresh env w lines_processed gcodes_processed
  last_gcode_line_written file_size points_compressed arcs_created
  waiting_for_arc :
  process default_progress env
    (set_lines_processed_ lines_processed
       (set_gcodes_processed_ gcodes_processed
          (set_last_gcode_line_written_ last_gcode_line_written
             (set_file_size_ file_size
                (set_points_compressed_ points_compressed
                   (set_arcs_created_ arcs_created
                      (set_waiting_for_arc_ waiting_for_arc w)))))))
  = process default_progress env w.
Proof.
  unfold process, reset, get_next_update_time, read_clock. run.
  destruct w. cbn. reflexivity.
Qed.

(** ** Reports *)


End Further.

(** ** The final report *)

Section FinalReport.

Context {arc gp stats : Type}.
Context {engine : SegmentedArc arc}.
Context {tracker : GcodePosition gp}.
Context {histogram : SegmentStatistics stats}.
Context {platform : Platform}.
Variable default_progress : arc_welder_progress stats.

Local Abbreviation state := (arc_welder arc gp stats).
Implicit Type w : state.

Lemma get_progress_position env p s w report w' :
  get_progress_ default_progress env p s w = Ok (report, w') ->
  source_file_position report = p
  /\ source_file_size report = file_size_ w
  /\ target_file_size report = tellp (output_file_ w)
  /\ percent_complete report
     = PrimFloat.mul
         (PrimFloat.div (double_of_Z p) (double_of_Z (file_size_ w)))
         (double_of_Z 100).
Proof.
  unfold get_progress_, read_clock. run. intros [= <- <-].
  destruct (0 <? p); unfold set_compression; cbv zeta; now repeat split.
Qed.

Lemma process_opened_final_report env lines t s w r w' :
  process_opened default_progress env lines t s w = Ok (r, w') ->
  source_file_position (progress r) = file_size_ w
  /\ source_file_size (progress r) = file_size_ w
  /\ percent_complete (progress r)
     = PrimFloat.mul
         (PrimFloat.div (double_of_Z (file_size_ w))
            (double_of_Z (file_size_ w)))
         (double_of_Z 100).
Proof.
  unfold process_opened.
  unfold add_arcwelder_comment_to_target. unfold modify at 1.
  unfold bind at 1. unfold gets at 1. unfold bind at 1.
  set (w1 := set_output_file_ _ w).
  destruct (get_progress_returns default_progress env
              (tellg env (lines_read (gcodeFile w1)))
              (double_of_Z s) w1) as (report & H & _).
  unfold bind at 1. rewrite H.
  set (w2 := set_clock_reads _ w1) in *.
  destruct (on_progress_returns report w2) as (c & w3 & H3 & R3 & _).
  unfold bind at 1. rewrite H3. intros Hrun.
  apply bind_inv in Hrun as (loop & w5 & H5 & Hf).
  apply process_lines_outcome in H5 as ((_ & Hsize5 & _) & _).
  apply finish_steps in Hf
    as (w6 & final_progress & w7 & H6 & H7 & _ & -> & _).
  apply final_pass_steady in H6 as [U6 _].
  destruct U6 as (_ & _ & _ & _ & _ & _ & _ & _ & Hsize6 & _).
  destruct R3 as (_ & _ & _ & _ & _ & Hsize3 & _).
  apply get_progress_position in H7 as (Hp & Hs & _ & Hpc).
  change (file_size_ (flushed w6)) with (file_size_ w6) in Hp, Hs, Hpc.
  change (file_size_ w2) with (file_size_ w) in Hsize3.
  cbn [progress].
  rewrite Hp, Hs, Hpc, Hsize6, Hsize5, Hsize3. now repeat split.
Qed.

(** X13.  The final report of a run that opened its files gives the size of
    the source as its position: the percentage is the quotient of the size
    by itself, times 100, in floating point.  So the result of a run over a
    source of size 0 reports a percentage that is not a number. *)
Theorem final_report_is_at_the_end_of_the_source env lines w r w' :
  source_lines env = Some lines ->
  target_opens env = true ->
  is_open (output_file_ w) = false ->
  process default_progress env w = Ok (r, w') ->
  source_file_position (progress r) = get_file_size env
  /\ source_file_size (progress r) = get_file_size env
  /\ percent_complete (progress r)
     = PrimFloat.mul
         (PrimFloat.div (double_of_Z (get_file_size env))
            (double_of_Z (get_file_size env)))
         (double_of_Z 100)
  /\ (get_file_size env = 0 ->
      PrimFloat.is_nan (percent_complete (progress r)) = true).
Proof.
  intros Hs Ht Hc H.
  rewrite (process_started default_progress env w lines Hs Ht Hc) in H.
  apply process_opened_final_report in H.
  change (file_size_ (started env w)) with (get_file_size env) in H.
  destruct H as (Hp & Hsz & Hpc).
  split; [exact Hp|]. split; [exact Hsz|]. split; [exact Hpc|].
  intros H0. rewrite Hpc, H0. vm_compute. reflexivity.
Qed.

End FinalReport.

(** * The properties on the sample collaborators *)

Module Runs.
Import Sample.


(** C2 on the sample: the move [G1 a] is written before the arc that
    absorbs it. *)
Lemma blank_line_shifts_absorbed_entries_witness :
  unwritten_commands_ building = [move "G1 a"; move "G1 b"; move "G1 c"]
  /\ get_num_segments (current_arc_ building) = 4
  /\ exists w1 w2 text,
       process_gcode blank false false building = Ok (0, w1)
       /\ process_gcode_pass (parse "M1") false false w1 = Ok (reprocess, w2)
       /\ written (output_file_ w2)
          = (written (output_file_ building)
             ++ [flushed_lines (to_string (move "G1 a") ++ newline);
                 arc_line (get_num_segments (current_arc_ building)) text])%list.
Proof.
  split; [vm_compute; reflexivity|]. split; [vm_compute; reflexivity|].
  apply (blank_line_shifts_absorbed_entries blank (parse "M1")
           (move "G1 a") [move "G1 b"; move "G1 c"] building);
    try (vm_compute; reflexivity).
  vm_compute. discriminate.
Defined.

(** C3 does not hold as stated: after a travel move has begun an arc, an
    extruding move is eligible, although the previous command was neither
    extruding nor retracting. *)
Lemma extruding_after_travel_is_eligible :
  let cmd := parse "G1 b" in
  let w2 := prepared cmd false travelled in
  let p_cur_pos := get_current_position (p_source_position_ w2) in
  let p_pre_pos := get_previous_position (p_source_position_ w2) in
  let extruder_current := get_current_extruder p_cur_pos in
  let previous_extruder := get_current_extruder p_pre_pos in
  waiting_for_arc_ travelled = true
  /\ is_g1_g2 cmd = true
  /\ arc_eligible w2 cmd false p_cur_pos p_pre_pos = true
  /\ ~ ((is_extruding previous_extruder = true
         /\ is_extruding extruder_current = true)
        \/ (is_retracting previous_extruder = true
            /\ is_retracting extruder_current = true)).
Proof.
  vm_compute. repeat split. intros [[H _]|[H _]]; discriminate H.
Qed.

(** C3 on the sample.  A travel move ends the arc of [building], which is
    committed; a second travel move ends the arc of [travelled], which is
    abandoned: both moves are written as they were read. *)
Lemma extrusion_phase_while_building_witness :
  (waiting_for_arc_ building = true
   /\ process_gcode_pass (parse "G0 d") false false building
      = Ok (reprocess, restarted "G0 d" building)
   /\ waiting_for_arc_ (restarted "G0 d" building) = false
   /\ current_arc_ (restarted "G0 d" building) = []
   /\ unwritten_commands_ (restarted "G0 d" building) = []
   /\ written (output_file_ (restarted "G0 d" building))
      = (written (output_file_ building)
         ++ [flushed_lines ""; arc_line 4 ("G2 absolute" ++ newline)])%list)
  /\ (waiting_for_arc_ travelled = true
      /\ process_gcode_pass (parse "G0 b") false false travelled
         = Ok (returned 0, restarted "G0 b" travelled)
      /\ waiting_for_arc_ (restarted "G0 b" travelled) = false
      /\ current_arc_ (restarted "G0 b" travelled) = []
      /\ unwritten_commands_ (restarted "G0 b" travelled) = []
      /\ written (output_file_ (restarted "G0 b" travelled))
         = (written (output_file_ travelled)
            ++ [flushed_lines ("G0 a" ++ newline ++ "G0 b" ++ newline)])%list).
Proof.
  split.
  - assert (waiting_for_arc_ building = true) as Hw
      by (vm_compute; reflexivity).
    assert (process_gcode_pass (parse "G0 d") false false building
            = Ok (reprocess, restarted "G0 d" building)) as Hp
      by (vm_compute; reflexivity).
    split; [exact Hw|]. split; [exact Hp|].
    pose proof (extrusion_phase_while_building (parse "G0 d") false false
                  building Hw) as H.
    cbv zeta in H. destruct H as [_ H].
    rewrite Hp in H.
    destruct H as (Hidle & _ & Hbuffer & _);
      [vm_compute; reflexivity|vm_compute; reflexivity|vm_compute; reflexivity|].
    split; [exact Hidle|]. split; [vm_compute; reflexivity|].
    split; [exact Hbuffer|]. vm_compute. reflexivity.
  - assert (waiting_for_arc_ travelled = true) as Hw
      by (vm_compute; reflexivity).
    assert (process_gcode_pass (parse "G0 b") false false travelled
            = Ok (returned 0, restarted "G0 b" travelled)) as Hp
      by (vm_compute; reflexivity).
    split; [exact Hw|]. split; [exact Hp|].
    pose proof (extrusion_phase_while_building (parse "G0 b") false false
                  travelled Hw) as H.
    cbv zeta in H. destruct H as [_ H].
    rewrite Hp in H.
    destruct H as (Hidle & _ & Hbuffer & _);
      [vm_compute; reflexivity|vm_compute; reflexivity|vm_compute; reflexivity|].
    split; [exact Hidle|]. split; [vm_compute; reflexivity|].
    split; [exact Hbuffer|]. vm_compute. reflexivity.
Defined.

(** C4 does not hold as stated: a target stream that has failed takes
    nothing, and the arcs are counted all the same.  [process] cannot open
    a stream that is open already: the run of six moves reports two arcs and
    six points, and the target holds no arc.  And on a stream that has
    failed, the command that commits the arc of [building] counts an arc
    that is not written. *)
Lemma arcs_counted_on_failed_target :
  (exists r w',
      process zero_progress (files six_moves) opened = Ok (r, w')
      /\ success r = true
      /\ arcs_created (progress r) = 2
      /\ points_compressed (progress r) = 6
      /\ arcs_emitted (output_file_ w') = [])
  /\ (exists lines_written w',
         process_gcode (parse "M1") false false failed = Ok (lines_written, w')
         /\ arcs_created_ failed = 0
         /\ arcs_emitted (output_file_ failed) = []
         /\ arcs_created_ w' = 1
         /\ points_compressed_ w' = 3
         /\ arcs_emitted (output_file_ w') = []).
Proof.
  split.
  - do 2 eexists. split; [vm_compute; reflexivity|].
    vm_compute. repeat split.
  - do 2 eexists. split; [vm_compute; reflexivity|].
    vm_compute. repeat split.
Qed.

(** C4 on the sample: six moves make two arcs of four points. *)
Lemma counters_consistent_throughout_witness :
  run six_moves None = Ok (result_of six_moves None, left_by six_moves None)
  /\ arcs_emitted (output_file_ (left_by six_moves None)) = [4; 4]
  /\ points_compressed (progress (result_of six_moves None)) = 6
  /\ arcs_created (progress (result_of six_moves None)) = 2
  /\ Forall genuine (written (output_file_ (left_by six_moves None))).
Proof.
  assert (process zero_progress (files six_moves) (new_welder None)
          = Ok (result_of six_moves None, left_by six_moves None)) as H
    by (vm_compute; reflexivity).
  assert (is_open (output_file_ (new_welder None)) = false) as Hclosed
    by (vm_compute; reflexivity).
  assert (arcs_emitted (output_file_ (left_by six_moves None)) = [4; 4])
    as Hsizes by (vm_compute; reflexivity).
  pose proof (proj1 (counters_consistent_throughout zero_progress)
                (files six_moves) (new_welder None)
                (result_of six_moves None) (left_by six_moves None)
                ltac:(discriminate) eq_refl Hclosed H) as Hc.
  cbv zeta in Hc. rewrite Hsizes in Hc.
  destruct Hc as (_ & _ & _ & _ & Hgen & Hp & Hn).
  split; [vm_compute; reflexivity|]. split; [exact Hsizes|].
  split; [apply Hp; vm_compute; split; [discriminate|reflexivity]|].
  split; [apply Hn; vm_compute; reflexivity|exact Hgen].
Defined.

(** C5 on the sample: the stream ends on a blank line and the arc of
    [building] is not written. *)
Lemma final_shape_dropped_after_blank_line_witness :
  waiting_for_arc_ building = true
  /\ is_shape (current_arc_ building) = true
  /\ is_blank blank = true
  /\ exists r w',
       finish zero_progress (files []) true blank dzero building = Ok (r, w')
       /\ arcs_created (progress r) = 0
       /\ arcs_emitted (output_file_ w') = [].
Proof.
  assert (waiting_for_arc_ building = true) as Hw
    by (vm_compute; reflexivity).
  assert (is_shape (current_arc_ building) = true) as Hs
    by (vm_compute; reflexivity).
  assert (is_blank blank = true) as Hb by reflexivity.
  split; [exact Hw|]. split; [exact Hs|]. split; [exact Hb|].
  destruct (final_shape_dropped_after_blank_line zero_progress (files []) true
              blank dzero building Hw Hs Hb)
    as (r & w' & H & Hn & _ & He & _).
  exists r, w'. split; [exact H|].
  split; [rewrite Hn|rewrite He]; vm_compute; reflexivity.
Defined.

(** The same on whole runs: with a blank last line no arc reaches the
    target, without it the arc does. *)
Example trailing_blank_line_drops_final_arc :
  arcs_emitted (output_file_ (left_by ["G1 a"; "G1 b"; "G1 c"; ""] None)) = []
  /\ arcs_emitted (output_file_ (left_by ["G1 a"; "G1 b"; "G1 c"] None)) = [4].
Proof. vm_compute. split; reflexivity. Qed.

(** A blank line between the moves of an arc, on a whole run: [G1 a] is
    written and then absorbed, and the blank line is lost. *)
Example blank_line_inside_arc :
  List.tl (written
             (output_file_
                (left_by ["G1 a"; ""; "G1 b"; "G1 c"; "M1"] None)))
  = [flushed_lines ""; flushed_lines ("G1 a" ++ newline);
     arc_line 4 ("G2 absolute" ++ newline);
     flushed_lines ("M1" ++ newline); flushed_lines ""].
Proof. vm_compute. reflexivity. Qed.

(** C6 does not hold as stated.  A callback that says no at the final report
    is not obeyed: the run returns [success = true].  And when the callback
    says no at once, [getline] still takes a line from the source, which is
    not processed. *)
Lemma refusal_at_final_report_is_ignored :
  (run ["G1 a"] (Some stop_at_end)
   = Ok (result_of ["G1 a"] (Some stop_at_end),
         left_by ["G1 a"] (Some stop_at_end))
   /\ callback_calls (left_by ["G1 a"] (Some stop_at_end)) = 2%nat
   /\ stop_at_end 1 (progress (result_of ["G1 a"] (Some stop_at_end))) = false
   /\ success (result_of ["G1 a"] (Some stop_at_end)) = true
   /\ cancelled (result_of ["G1 a"] (Some stop_at_end)) = false)
  /\ (run ["G1 a"; "G1 b"] (Some stop_at_once)
      = Ok (result_of ["G1 a"; "G1 b"] (Some stop_at_once),
            left_by ["G1 a"; "G1 b"] (Some stop_at_once))
      /\ cancelled (result_of ["G1 a"; "G1 b"] (Some stop_at_once)) = true
      /\ lines_processed_ (left_by ["G1 a"; "G1 b"] (Some stop_at_once)) = 0
      /\ lines_read (gcodeFile (left_by ["G1 a"; "G1 b"] (Some stop_at_once)))
         = 1%nat).
Proof. vm_compute. repeat split. Qed.

(** C6 on the sample.  A run whose callback refuses the initial report
    writes the header and stops; a loop whose callback refuses the report
    after the thousandth line leaves the next line unprocessed; and the end
    of a cancelled run commits the arc of [building]. *)
Lemma cancelled_run_stops_witness :
  (exists r w',
      run ["G1 a"; "G1 b"] (Some stop_at_once) = Ok (r, w')
      /\ success r = false
      /\ cancelled r = true
      /\ lines_processed (progress r) = 0
      /\ lines_read (gcodeFile w') = 1%nat
      /\ callback_calls w' = 2%nat)
  /\ (exists w5,
         process_lines zero_progress (files []) ["M1"; "M2"] true blank
           (double_of_Z (-1)) dzero refusing
         = Ok ((false, parse "M1"), w5)
         /\ lines_processed_ w5 = 1000
         /\ lines_read (gcodeFile w5) = 2%nat
         /\ callback_calls w5 = 1%nat
         /\ written (output_file_ w5) = [flushed_lines ("M1" ++ newline)])
  /\ (exists r w',
         finish zero_progress (files []) false (parse "G1 c") dzero building
         = Ok (r, w')
         /\ success r = false
         /\ cancelled r = true
         /\ arcs_created (progress r) = 1
         /\ arcs_emitted (output_file_ w') = [4]
         /\ unwritten_commands_ w' = []).
Proof.
  destruct (cancelled_run_stops zero_progress) as (HA & HB & _ & HD & _).
  split; [|split].
  - destruct (HA (files ["G1 a"; "G1 b"]) ["G1 a"; "G1 b"]
                (new_welder (Some stop_at_once)) stop_at_once
                eq_refl eq_refl eq_refl eq_refl (fun _ => eq_refl))
      as (r & w' & H & Hs & Hc & Hl & _ & _ & Hr & Hcalls & _).
    exists r, w'. unfold run. split; [exact H|]. split; [exact Hs|].
    split; [exact Hc|]. split; [exact Hl|]. split; [exact Hr|exact Hcalls].
  - assert (process_gcode (try_parse_gcode "M1") false false
              (line_counted "M1" refusing)
            = Ok (0, after ["M1"] (line_counted "M1" refusing))) as H4
      by (vm_compute; reflexivity).
    destruct (HB (files []) "M1" ["M2"] blank (double_of_Z (-1)) dzero
                refusing stop_at_once 0
                (after ["M1"] (line_counted "M1" refusing))
                eq_refl eq_refl H4 eq_refl eq_refl (fun _ => eq_refl))
      as (w5 & H & Hl & Hr & Hcalls & Hout & _).
    exists w5. split; [exact H|].
    split; [rewrite Hl; vm_compute; reflexivity|].
    split; [rewrite Hr; vm_compute; reflexivity|].
    split; [rewrite Hcalls; vm_compute; reflexivity|].
    rewrite Hout. vm_compute. reflexivity.
  - pose proof (HD (files []) (parse "G1 c") dzero building []
                  (unwritten_commands_ building)) as H.
    cbv zeta in H.
    destruct H as (r & w' & H & Hs & Hc & Hn & Hwr & Hu);
      try (vm_compute; reflexivity).
    { vm_compute. discriminate. }
    exists r, w'. split; [exact H|]. split; [exact Hs|]. split; [exact Hc|].
    split; [rewrite Hn; vm_compute; reflexivity|].
    split; [unfold arcs_emitted; rewrite Hwr; vm_compute; reflexivity|exact Hu].
Defined.

(** A refusal inside the loop, on a whole run.  The callback accepts the
    initial report and refuses the one sent after the thousandth line:
    [getline] takes one more line, which is not processed, the callback is
    called a third time for the final report, and the run is cancelled. *)
Example periodic_refusal_stops_the_run :
  exists r w',
    process zero_progress (hurried (repeat "M1" 1002))
      (new_welder (Some stop_at_end)) = Ok (r, w')
    /\ success r = false
    /\ cancelled r = true
    /\ lines_processed (progress r) = 1000
    /\ lines_read (gcodeFile w') = 1001%nat
    /\ callback_calls w' = 3%nat
    /\ List.length (written (output_file_ w')) = 1002%nat.
Proof.
  do 2 eexists. split; [vm_compute; reflexivity|].
  vm_compute. repeat split.
Qed.

(** C7 does not hold as stated: the message of the result ends with a full
    stop. *)
Lemma source_message_ends_with_full_stop :
  exists r w',
    process zero_progress missing_source (new_welder None) = Ok (r, w')
    /\ success r = false
    /\ message r <> "Unable to open the source file".
Proof.
  do 2 eexists. split; [vm_compute; reflexivity|].
  split; [reflexivity|]. apply String.eqb_neq. vm_compute. reflexivity.
Qed.

(** C7 on the sample: a source that is missing, and a target that is
    locked. *)
Lemma process_cannot_open_witness :
  is_open (output_file_ (new_welder None)) = false
  /\ (exists w',
        process zero_progress missing_source (new_welder None)
        = Ok ({| success := false; cancelled := false;
                 message := "Unable to open the source file.";
                 progress := zero_progress |}, w')
        /\ source_is_open (gcodeFile w') = false)
  /\ (exists w',
        process zero_progress locked_target (new_welder None)
        = Ok ({| success := false; cancelled := false;
                 message := "Unable to open the target file.";
                 progress := zero_progress |}, w')
        /\ source_is_open (gcodeFile w') = false
        /\ is_open (output_file_ w') = false).
Proof.
  assert (is_open (output_file_ (new_welder None)) = false) as Hclosed
    by reflexivity.
  split; [exact Hclosed|]. split.
  - destruct (proj1 (process_cannot_open zero_progress missing_source
                       (new_welder None) Hclosed) eq_refl)
      as (w' & H & Hs & _).
    exists w'. split; [exact H|exact Hs].
  - destruct (proj2 (process_cannot_open zero_progress locked_target
                       (new_welder None) Hclosed)
                ltac:(discriminate) eq_refl)
      as (w' & H & Hs & Ht).
    exists w'. split; [exact H|]. split; [exact Hs|exact Ht].
Defined.

(** C8 does not hold as stated: the comment [b] of the second and third
    moves appears twice in the comment of the arc. *)
Lemma repeated_comment_is_kept :
  map uc_comment (unwritten_commands_ commented) = ["a"; "b"; "b"]
  /\ get_num_segments (current_arc_ commented) - 1 = 3
  /\ get_comment_for_arc commented = Ok ("a - b - b", commented)
  /\ distinct_comments (map uc_comment (unwritten_commands_ commented))
     = "a - b".
Proof. vm_compute. repeat split. Qed.

(** C8 on the sample.  The comments [a], [b], [b] give the arc line the
    comment [a - b - b]; the comment [c] on the first and the last move
    appears once. *)
Lemma comment_of_committed_arc_witness :
  (good (output_file_ commented) = true
   /\ map uc_comment (unwritten_commands_ commented) = ["a"; "b"; "b"]
   /\ get_comment_for_arc commented = Ok ("a - b - b", commented)
   /\ exists w',
        write_arc_gcodes false dzero commented = Ok (tt, w')
        /\ written (output_file_ w')
           = (written (output_file_ commented)
              ++ [flushed_lines "";
                  arc_line 4 ("G2 absolute;a - b - b" ++ newline)])%list)
  /\ (good (output_file_ labelled) = true
      /\ map uc_comment (unwritten_commands_ labelled) = ["c"; ""; "c"]
      /\ get_comment_for_arc labelled = Ok ("c", labelled)).
Proof.
  split.
  - assert (good (output_file_ commented) = true) as Hg
      by (vm_compute; reflexivity).
    assert (List.length (unwritten_commands_ commented)
            = Z.to_nat (get_num_segments (current_arc_ commented) - 1)) as Hn
      by (vm_compute; reflexivity).
    assert (map uc_comment (unwritten_commands_ commented) = ["a"; "b"; "b"])
      as Hc by (vm_compute; reflexivity).
    pose proof (comment_of_committed_arc false dzero commented []
                  (unwritten_commands_ commented) eq_refl Hn Hg) as H.
    cbv zeta in H. rewrite Hc in H.
    destruct H as (Hcomment & (w' & Hw & Hwr) & _ & _ & Habb).
    destruct (Habb "a" "b") as (_ & Heq & _);
      [discriminate|discriminate|discriminate|].
    rewrite (Heq eq_refl) in Hcomment.
    split; [exact Hg|]. split; [exact Hc|]. split; [exact Hcomment|].
    exists w'. split; [exact Hw|]. rewrite Hwr. vm_compute. reflexivity.
  - assert (good (output_file_ labelled) = true) as Hg
      by (vm_compute; reflexivity).
    assert (List.length (unwritten_commands_ labelled)
            = Z.to_nat (get_num_segments (current_arc_ labelled) - 1)) as Hn
      by (vm_compute; reflexivity).
    assert (map uc_comment (unwritten_commands_ labelled) = ["c"; ""; "c"])
      as Hc by (vm_compute; reflexivity).
    pose proof (comment_of_committed_arc false dzero labelled []
                  (unwritten_commands_ labelled) eq_refl Hn Hg) as H.
    cbv zeta in H. rewrite Hc in H.
    destruct H as (Hcomment & _ & _ & Honce & _).
    rewrite (Honce "c") in Hcomment.
    + split; [exact Hg|]. split; [exact Hc|exact Hcomment].
    + discriminate.
    + repeat (constructor;
              [first [left; reflexivity|right; reflexivity]|]).
      constructor.
    + now constructor.
Defined.

(** C9 on the sample: a blank line after three moves. *)
Lemma blank_line_keeps_arc_witness :
  waiting_for_arc_ building = true
  /\ exists w',
       process_gcode blank false false building = Ok (0, w')
       /\ current_arc_ w' = current_arc_ building
       /\ waiting_for_arc_ w' = true.
Proof.
  assert (waiting_for_arc_ building = true) as Hw
    by (vm_compute; reflexivity).
  split; [exact Hw|].
  destruct (blank_line_keeps_arc blank false building Hw eq_refl eq_refl
              eq_refl) as [_ (w' & H & Ha & Hw' & _)].
  exists w'. split; [exact H|]. split; [exact Ha|exact Hw'].
Defined.

(** X2 on the sample: after [M1] the controller of [building] is idle and
    its buffer is empty. *)
Lemma idle_controller_holds_nothing_witness :
  process_gcode (parse "M1") false false building
  = Ok (0, after ["M1"] building)
  /\ waiting_for_arc_ (after ["M1"] building) = false
  /\ unwritten_commands_ (after ["M1"] building) = [].
Proof.
  assert (process_gcode (parse "M1") false false building
          = Ok (0, after ["M1"] building)) as H by (vm_compute; reflexivity).
  assert (waiting_for_arc_ (after ["M1"] building) = false) as Hidle
    by (vm_compute; reflexivity).
  split; [exact H|]. split; [exact Hidle|].
  exact (idle_controller_holds_nothing _ _ _ _ _ _ H Hidle).
Defined.


(** X4 on the sample: [M1] met by a controller that is idle is written. *)
Lemma idle_command_is_written_at_once_witness :
  waiting_for_arc_ opened = false
  /\ eligible (parse "M1") false false opened = false
  /\ exists w',
       process_gcode (parse "M1") false false opened = Ok (0, w')
       /\ written (output_file_ w') = [flushed_lines ("M1" ++ newline)]
       /\ unwritten_commands_ w' = [].
Proof.
  assert (waiting_for_arc_ opened = false) as Hw by (vm_compute; reflexivity).
  assert (eligible (parse "M1") false false opened = false) as He
    by (vm_compute; reflexivity).
  split; [exact Hw|]. split; [exact He|].
  destruct (idle_command_is_written_at_once (parse "M1") false false opened
              Hw He) as (w' & H & Hout & Hu & _).
  exists w'. split; [exact H|]. split; [|exact Hu].
  rewrite Hout. vm_compute. reflexivity.
Defined.

(** X5 on the sample: the third move of an arc is held back. *)
Lemma accepted_move_is_held_back_witness :
  waiting_for_arc_ (after ["G1 a"; "G1 b"] opened) = true
  /\ exists w',
       process_gcode (parse "G1 c") false false
         (after ["G1 a"; "G1 b"] opened) = Ok (0, w')
       /\ output_file_ w' = output_file_ (after ["G1 a"; "G1 b"] opened)
       /\ map to_string (unwritten_commands_ w') = ["G1 a"; "G1 b"; "G1 c"]
       /\ waiting_for_arc_ w' = true.
Proof.
  assert (waiting_for_arc_ (after ["G1 a"; "G1 b"] opened) = true) as Hw
    by (vm_compute; reflexivity).
  split; [exact Hw|].
  pose proof (accepted_move_is_held_back (parse "G1 c") false false
                (after ["G1 a"; "G1 b"] opened)) as H.
  cbv zeta in H.
  destruct H as (w' & H & Hout & Hu & Hw' & _);
    [exact Hw|vm_compute; reflexivity|vm_compute; reflexivity|].
  exists w'. split; [exact H|]. split; [exact Hout|].
  split; [rewrite Hu; vm_compute; reflexivity|exact Hw'].
Defined.

(** X6 on the sample: the first move begins an arc of two points. *)
Lemma first_move_starts_an_arc_witness :
  waiting_for_arc_ opened = false
  /\ exists w',
       process_gcode (parse "G1 a") false false opened = Ok (0, w')
       /\ written (output_file_ w') = [flushed_lines ""]
       /\ map to_string (unwritten_commands_ w') = ["G1 a"]
       /\ waiting_for_arc_ w' = true
       /\ get_num_segments (current_arc_ w') = 2.
Proof.
  assert (waiting_for_arc_ opened = false) as Hw by (vm_compute; reflexivity).
  split; [exact Hw|].
  pose proof (first_move_starts_an_arc (parse "G1 a") false false opened)
    as H.
  cbv zeta in H.
  destruct H as (w' & H & Hout & Hu & Hw' & Ha & _);
    [exact Hw|vm_compute; reflexivity|vm_compute; reflexivity|].
  exists w'. split; [exact H|].
  split; [rewrite Hout; vm_compute; reflexivity|].
  split; [rewrite Hu; vm_compute; reflexivity|].
  split; [exact Hw'|rewrite Ha; vm_compute; reflexivity].
Defined.

(** X7 on the sample: a run without a callback over six moves. *)
Lemma run_counts_the_lines_it_read_witness :
  run six_moves None = Ok (result_of six_moves None, left_by six_moves None)
  /\ success (result_of six_moves None) = true
  /\ lines_processed (progress (result_of six_moves None)) = 6
  /\ gcodes_processed (progress (result_of six_moves None)) = 6.
Proof.
  assert (process zero_progress (files six_moves) (new_welder None)
          = Ok (result_of six_moves None, left_by six_moves None)) as H
    by (vm_compute; reflexivity).
  destruct (run_counts_the_lines_it_read zero_progress (files six_moves)
              six_moves (new_welder None) (result_of six_moves None)
              (left_by six_moves None) eq_refl eq_refl eq_refl eq_refl H)
    as (_ & _ & _ & Hall & Hnone).
  pose proof (Hnone eq_refl) as Hsucc.
  destruct (Hall Hsucc) as [Hl Hg].
  split; [exact H|]. split; [exact Hsucc|].
  split; [rewrite Hl|rewrite Hg]; vm_compute; reflexivity.
Defined.


(** X9 on the sample: a run whose target cannot be opened. *)
Lemma run_leaves_both_files_closed_witness :
  exists r w',
    process zero_progress locked_target (new_welder None) = Ok (r, w')
    /\ is_open (output_file_ w') = false
    /\ source_is_open (gcodeFile w') = false.
Proof.
  assert (exists r w',
             process zero_progress locked_target (new_welder None)
             = Ok (r, w')) as (r & w' & H)
    by (do 2 eexists; vm_compute; reflexivity).
  exists r, w'. split; [exact H|].
  destruct (run_leaves_both_files_closed zero_progress locked_target
              (new_welder None) r w' eq_refl H) as (Ho & Hs & _).
  split; [exact Ho|exact Hs].
Defined.

(** X10 on the sample: a source without lines, and the callback that says
    no at the final report. *)
Lemma empty_source_gives_header_only_witness :
  exists r w',
    run [] (Some stop_at_end) = Ok (r, w')
    /\ success r = true
    /\ callback_calls w' = 2%nat
    /\ written (output_file_ w')
       = [header_text (arcwelder_comment (new_welder (Some stop_at_end)));
          flushed_lines ""].
Proof.
  destruct (empty_source_gives_header_only zero_progress (files [])
              (new_welder (Some stop_at_end)) eq_refl eq_refl eq_refl)
    as (r & w' & H & _ & _ & Hsome & _ & _ & _ & _ & Hwr & _).
  exists r, w'. split; [exact H|].
  destruct (Hsome stop_at_end eq_refl) as ((report & Hsucc) & Hcalls).
  split; [rewrite Hsucc; reflexivity|].
  split; [exact Hcalls|exact Hwr].
Defined.

(** X11 on the sample: the stream ends after the three moves of
    [building]. *)
Lemma final_arc_is_written_at_the_end_witness :
  exists r w',
    finish zero_progress (files []) true (parse "G1 c") dzero building
    = Ok (r, w')
    /\ success r = true
    /\ arcs_created (progress r) = 1
    /\ points_compressed (progress r) = 3
    /\ arcs_emitted (output_file_ w') = [4]
    /\ file_text (output_file_ w') = "G2 absolute" ++ newline.
Proof.
  pose proof (final_arc_is_written_at_the_end zero_progress (files []) true
                (parse "G1 c") dzero building []
                (unwritten_commands_ building)) as H.
  cbv zeta in H.
  destruct H as (r & w' & H & Hs & Hn & Hp & He & Ht & _);
    try (vm_compute; reflexivity).
  { vm_compute. discriminate. }
  exists r, w'. split; [exact H|]. split; [exact Hs|].
  split; [rewrite Hn; vm_compute; reflexivity|].
  split; [rewrite Hp; vm_compute; reflexivity|].
  split; [rewrite He; vm_compute; reflexivity|].
  rewrite Ht. vm_compute. reflexivity.
Defined.

(** X13 on the sample: a source of size 0. *)
Lemma final_report_is_at_the_end_of_the_source_witness :
  exists r w',
    process zero_progress empty_file (new_welder None) = Ok (r, w')
    /\ success r = true
    /\ source_file_size (progress r) = 0
    /\ PrimFloat.is_nan (percent_complete (progress r)) = true.
Proof.
  assert (exists r w',
             process zero_progress empty_file (new_welder None) = Ok (r, w')
             /\ success r = true) as (r & w' & H & Hsucc)
    by (do 2 eexists; split; vm_compute; reflexivity).
  exists r, w'. split; [exact H|]. split; [exact Hsucc|].
  destruct (final_report_is_at_the_end_of_the_source zero_progress empty_file
              [] (new_welder None) r w' eq_refl eq_refl eq_refl H)
    as (_ & Hsz & _ & Hnan).
  split; [exact Hsz|exact (Hnan eq_refl)].
Defined.

End Runs.
